(** * Loading-time crawler: the timed measurement engine and its aggregation

    A shallow embedding of [tool/crawler.py] and [tool/utils.py].

    The program is Python 2.  It drives a browser through Selenium, reads the
    wall clock, and keeps its measurements in lists inside a dictionary.  The
    embedding keeps that shape:

    - Python values are a small tagged union ([pyval] for [None], [int] and
      [float]; [pyobj] for what the variable [unit_id] can hold);
    - exceptions are an inductive type, and a function body is a computation
      in a state-and-exception monad whose state is the frame of local
      variables together with the sequence of driver calls issued so far;
    - what the browser and the clock answer is not computed by the program:
      it is supplied as a world record, one per repetition, with one field
      per call site;
    - [float] arithmetic is carried out on exact rationals.  The durations
      are differences of clock readings, and the only operations applied to
      them are subtraction, summation, division by the list length and
      comparison.  Where the last bit of a sum decides, the order of a mean
      and a maximum, the aggregation is taken up again with the rounding
      of binary64. *)

From Stdlib Require Import ZArith QArith Lqa Lia List String Ascii Bool.
From stdpp Require Import gmap strings.

Import ListNotations.
Local Open Scope string_scope.
Local Open Scope Z_scope.

(** ** Exceptions *)

Inductive exn : Type :=
  | TimeoutException
  | NoSuchElementException
  | WebDriverException
  | KeyError
  | ValueError
  | IndexError
  | TypeError
  | AttributeError
  | ZeroDivisionError
  | OperationalError
  | SystemExit.

(** [SystemExit] derives from [BaseException] only; every other class above
    derives from [Exception]. *)
Definition is_Exception (e : exn) : bool :=
  match e with
  | SystemExit => false
  | _ => true
  end.

Definition exn_eqb (a b : exn) : bool :=
  match a, b with
  | TimeoutException, TimeoutException
  | NoSuchElementException, NoSuchElementException
  | WebDriverException, WebDriverException
  | KeyError, KeyError
  | ValueError, ValueError
  | IndexError, IndexError
  | TypeError, TypeError
  | AttributeError, AttributeError
  | ZeroDivisionError, ZeroDivisionError
  | OperationalError, OperationalError
  | SystemExit, SystemExit => true
  | _, _ => false
  end.

Inductive result (A : Type) : Type :=
  | Ok (a : A)
  | Raise (e : exn).
Arguments Ok {A} a.
Arguments Raise {A} e.

(** ** The state-and-exception monad

    The state survives an exception: what a [try] body assigned before it
    raised is still there in the handler and in the [finally] block. *)

Module Eff.
Section WithState.
Context {S : Type}.

Definition M (A : Type) : Type := S -> result A * S.

Definition ret {A} (a : A) : M A := fun s => (Ok a, s).

Definition bind {A B} (m : M A) (k : A -> M B) : M B :=
  fun s =>
    match m s with
    | (Ok a, s1) => k a s1
    | (Raise e, s1) => (Raise e, s1)
    end.

Definition raise {A} (e : exn) : M A := fun s => (Raise e, s).

Definition get : M S := fun s => (Ok s, s).

Definition modify (f : S -> S) : M unit := fun s => (Ok tt, f s).

(** [lift r] returns or raises as [r] says, leaving the state alone. *)
Definition lift {A} (r : result A) : M A := fun s => (r, s).

(** [try: body except <classes>: handler].  [handles e] tells whether one
    of the [except] clauses matches [e]; an exception that no clause
    matches goes on. *)
Definition try_except {A} (body : M A) (handles : exn -> bool)
    (handler : exn -> M A) : M A :=
  fun s =>
    match body s with
    | (Ok a, s1) => (Ok a, s1)
    | (Raise e, s1) => if handles e then handler e s1 else (Raise e, s1)
    end.

(** [try: body finally: fin].  The [finally] block always runs; when it
    raises, its exception replaces whatever was pending. *)
Definition try_finally {A} (body : M A) (fin : M unit) : M A :=
  fun s =>
    match body s with
    | (r, s1) =>
        match fin s1 with
        | (Ok _, s2) => (r, s2)
        | (Raise e, s2) => (Raise e, s2)
        end
    end.

(** [for _ in xrange(n): body i], as a fold over the indices. *)
Fixpoint for_each {I} (l : list I) (body : I -> M unit) : M unit :=
  match l with
  | [] => ret tt
  | i :: l' => bind (body i) (fun _ => for_each l' body)
  end.
End WithState.
Arguments M : clear implicits.
End Eff.

Declare Scope eff_scope.
Delimit Scope eff_scope with eff.
Notation "x ← y ; z" := (Eff.bind y (fun x => z))
  (at level 20, y at level 100, z at level 200, only parsing) : eff_scope.
Notation "x ;; z" := (Eff.bind x (fun _ => z))
  (at level 100, z at level 200, only parsing, right associativity) : eff_scope.

(** [xrange(n)]: the indices [0 .. n-1], none when [n <= 0]. *)
Definition xrange (n : Z) : list nat := seq 0 (Z.to_nat n).

(** ** Python values *)

(** What a duration variable or a vector entry can hold. *)
Inductive pyval : Type :=
  | VNone
  | VInt (z : Z)
  | VFloat (q : Q).

(** Truth value of an object, as [or], [not] and [filter] test it. *)
Definition truthy (v : pyval) : bool :=
  match v with
  | VNone => false
  | VInt z => negb (z =? 0)
  | VFloat q => negb (Qeq_bool q 0)
  end.

(** [a or b] *)
Definition py_or (a b : pyval) : pyval := if truthy a then a else b.

Definition is_num (v : pyval) : bool :=
  match v with VNone => false | _ => true end.

(** The number a numeric value stands for. *)
Definition to_Q (v : pyval) : Q :=
  match v with
  | VNone => 0
  | VInt z => inject_Z z
  | VFloat q => q
  end.

(** [a + b]: [int + int] is an [int], a [float] operand makes a [float],
    [None] is a [TypeError]. *)
Definition py_add (a b : pyval) : result pyval :=
  match a, b with
  | VInt x, VInt y => Ok (VInt (x + y))
  | VInt x, VFloat y => Ok (VFloat (inject_Z x + y))
  | VFloat x, VInt y => Ok (VFloat (x + inject_Z y))
  | VFloat x, VFloat y => Ok (VFloat (x + y))
  | _, _ => Raise TypeError
  end.

(** [a / n] for a length [n]: floor division on an [int], true division on
    a [float]. *)
Definition py_div_len (a : pyval) (n : nat) : result pyval :=
  match a with
  | VNone => Raise TypeError
  | VInt x =>
      match n with
      | O => Raise ZeroDivisionError
      | _ => Ok (VInt (x / Z.of_nat n))
      end
  | VFloat x =>
      match n with
      | O => Raise ZeroDivisionError
      | _ => Ok (VFloat (x / inject_Z (Z.of_nat n)))
      end
  end.

(** [a < b] in Python 2: numbers compare by value, and [None] is smaller
    than every number. *)
Definition py_ltb (a b : pyval) : bool :=
  match a, b with
  | VNone, VNone => false
  | VNone, _ => true
  | _, VNone => false
  | _, _ => negb (Qle_bool (to_Q b) (to_Q a))
  end.

Definition py_leb (a b : pyval) : bool := negb (py_ltb b a).

(** [sum(l)] starts from the [int] [0] and adds from the left. *)
Fixpoint sum_from (acc : pyval) (l : list pyval) : result pyval :=
  match l with
  | [] => Ok acc
  | x :: l' =>
      match py_add acc x with
      | Ok acc' => sum_from acc' l'
      | Raise e => Raise e
      end
  end.

Definition py_sum (l : list pyval) : result pyval := sum_from (VInt 0) l.

(** [max(l, key=key)]: the first element whose key is not exceeded; an empty
    list is a [ValueError]. *)
Fixpoint max_from {A} (key : A -> pyval) (best : A) (l : list A) : A :=
  match l with
  | [] => best
  | x :: l' => max_from key (if py_ltb (key best) (key x) then x else best) l'
  end.

Definition py_max_by {A} (key : A -> pyval) (l : list A) : result A :=
  match l with
  | [] => Raise ValueError
  | x :: l' => Ok (max_from key x l')
  end.

Definition py_max (l : list pyval) : result pyval := py_max_by (fun v => v) l.

(** What the variable [unit_id] holds on its way through the terminal-pixel
    step: [None], the located [WebElement], the dictionary [parse_qs]
    returned, or a string. *)
Inductive pyobj : Type :=
  | ONone
  | OStr (s : string)
  | OElement (handle : string)
  | ODict (d : gmap string (list string)).

Definition obj_truthy (o : pyobj) : bool :=
  match o with
  | ONone => false
  | OStr s => negb (String.eqb s "")
  | OElement _ => true
  | ODict d => negb (bool_decide (d = ∅))
  end.

(** ** The browser and the clock *)

(** A driver call answers or raises.  [DrvTimeout] and [DrvNoSuchElement]
    are the two classes the program names in its [except] clauses;
    [DrvOther] is any other error of class [Exception] the driver raises. *)
Inductive driver_error : Type := DrvTimeout | DrvNoSuchElement | DrvOther.

Definition exn_of (d : driver_error) : exn :=
  match d with
  | DrvTimeout => TimeoutException
  | DrvNoSuchElement => NoSuchElementException
  | DrvOther => WebDriverException
  end.

Inductive answer (A : Type) : Type :=
  | Done (a : A)
  | Fails (d : driver_error).
Arguments Done {A} a.
Arguments Fails {A} d.

Definition answered {A} (a : answer A) : result A :=
  match a with
  | Done x => Ok x
  | Fails d => Raise (exn_of d)
  end.

(** The calls the program issues. *)
Inductive driver_call : Type :=
  | CallPrepare (with_tag : bool)
  | CallDeleteAllCookies
  | CallGet (url : string)
  | CallExecuteScript (script : string)
  | CallWaitUntil (css_selector : string)
  | CallFindElement (css_selector : string)
  | CallGetAttribute (name : string)
  | CallPageSource
  | CallQuit.

Definition is_delete_all_cookies (c : driver_call) : bool :=
  match c with CallDeleteAllCookies => true | _ => false end.

(** How many repetitions were started: each one opens with
    [delete_all_cookies], which nothing else calls. *)
Definition repetitions_started (calls : list driver_call) : nat :=
  length (List.filter is_delete_all_cookies calls).

(** One tag-bearing repetition as the world answers it: a field per call
    site of the loop body, in program order. *)
Record trial_world : Type := {
  tw_delete_all_cookies : answer unit;
  tw_clock_start_page : Q;
  tw_get : answer unit;
  tw_execute_script : answer unit;
  tw_clock_start_tag : Q;
  tw_wait_tag : answer unit;
  tw_clock_end_tag : Q;
  tw_clock_start_layer : Q;
  tw_wait_990 : answer unit;
  tw_clock_end_page : Q;
  tw_clock_end_990 : Q;
  tw_clock_end_layer : Q;
  tw_wait_pixel : answer unit;
  tw_clock_end_unit : Q;
  tw_find_pixel : answer string;
  tw_pixel_src : answer (option string)
}.

Record with_tag_world : Type := {
  ww_repetition : nat -> trial_world;
  ww_quit : answer unit
}.

(** ** Configuration *)

Record site_config : Type := {
  script : string;
  scans_number : Z;
  geo : string;
  is_layer_active : bool
}.

(** A row of the configuration query. *)
Record db_row : Type := {
  website_page : string;
  website_tag : string;
  row_scans_number : Z;
  row_geo : string;
  is_layer : bool
}.

(** [get_configurations]: a dict comprehension over the rows, so a later row
    replaces an earlier one with the same page. *)
Definition get_configurations (res : list db_row) : gmap string site_config :=
  fold_left
    (fun configurations website =>
       <[website_page website :=
           {| script := website_tag website;
              scans_number := row_scans_number website - 5;
              geo := row_geo website;
              is_layer_active := is_layer website |}]> configurations)
    res ∅.

(** [Crawler.configuration[website]], where [Crawler.configuration] is
    [None] until [initialize] has stored a non-empty dictionary. *)
Definition configuration_getitem (configuration : option (gmap string site_config))
    (website : string) : result site_config :=
  match configuration with
  | None => Raise TypeError
  | Some c =>
      match c !! website with
      | Some sc => Ok sc
      | None => Raise KeyError
      end
  end.

(** ** [catching] (utils.py) *)

(** [try: return func(...) except Exception: log.exception(...)]: the value
    of the body, or [None] after an exception of class [Exception]. *)
Definition catching {S A} (func : Eff.M S A) : Eff.M S (option A) :=
  fun s =>
    match func s with
    | (Ok a, s1) => (Ok (Some a), s1)
    | (Raise e, s1) => if is_Exception e then (Ok None, s1) else (Raise e, s1)
    end.

(** A computation that raises nothing but exceptions of class
    [Exception]: what [catching] turns into [None]. *)
Definition contained {S A} (m : Eff.M S A) : Prop :=
  forall s e, fst (m s) = Raise e -> is_Exception e = true.

(** ** The tag-bearing trial *)

Record measures : Type := {
  tm_preload : list pyval;
  tm_with_tag : list pyval;
  tm_990 : list pyval;
  tm_layer : list pyval;
  tm_unit : list (pyobj * pyval)
}.

Definition no_measures : measures :=
  {| tm_preload := []; tm_with_tag := []; tm_990 := []; tm_layer := [];
     tm_unit := [] |}.

(** The local variables of [test_load_time_with_tag], and the calls issued
    to the driver so far, the latest first. *)
Record frame : Type := {
  start_loading_page : Q;
  start_loading_tag : Q;
  start_loading_layer : Q;
  end_loading_tag : pyval;
  end_loading_990 : pyval;
  end_loading_page : pyval;
  end_loading_unit : pyval;
  end_loading_layer : pyval;
  unit_id : pyobj;
  time_measures : measures;
  driver_calls : list driver_call
}.

Definition set_start_loading_page (v : Q) (s : frame) : frame :=
  {| start_loading_page := v; start_loading_tag := start_loading_tag s;
     start_loading_layer := start_loading_layer s;
     end_loading_tag := end_loading_tag s; end_loading_990 := end_loading_990 s;
     end_loading_page := end_loading_page s; end_loading_unit := end_loading_unit s;
     end_loading_layer := end_loading_layer s; unit_id := unit_id s;
     time_measures := time_measures s; driver_calls := driver_calls s |}.

Definition set_start_loading_tag (v : Q) (s : frame) : frame :=
  {| start_loading_page := start_loading_page s; start_loading_tag := v;
     start_loading_layer := start_loading_layer s;
     end_loading_tag := end_loading_tag s; end_loading_990 := end_loading_990 s;
     end_loading_page := end_loading_page s; end_loading_unit := end_loading_unit s;
     end_loading_layer := end_loading_layer s; unit_id := unit_id s;
     time_measures := time_measures s; driver_calls := driver_calls s |}.

Definition set_start_loading_layer (v : Q) (s : frame) : frame :=
  {| start_loading_page := start_loading_page s;
     start_loading_tag := start_loading_tag s; start_loading_layer := v;
     end_loading_tag := end_loading_tag s; end_loading_990 := end_loading_990 s;
     end_loading_page := end_loading_page s; end_loading_unit := end_loading_unit s;
     end_loading_layer := end_loading_layer s; unit_id := unit_id s;
     time_measures := time_measures s; driver_calls := driver_calls s |}.

Definition set_end_loading_tag (v : pyval) (s : frame) : frame :=
  {| start_loading_page := start_loading_page s;
     start_loading_tag := start_loading_tag s;
     start_loading_layer := start_loading_layer s;
     end_loading_tag := v; end_loading_990 := end_loading_990 s;
     end_loading_page := end_loading_page s; end_loading_unit := end_loading_unit s;
     end_loading_layer := end_loading_layer s; unit_id := unit_id s;
     time_measures := time_measures s; driver_calls := driver_calls s |}.

Definition set_end_loading_990 (v : pyval) (s : frame) : frame :=
  {| start_loading_page := start_loading_page s;
     start_loading_tag := start_loading_tag s;
     start_loading_layer := start_loading_layer s;
     end_loading_tag := end_loading_tag s; end_loading_990 := v;
     end_loading_page := end_loading_page s; end_loading_unit := end_loading_unit s;
     end_loading_layer := end_loading_layer s; unit_id := unit_id s;
     time_measures := time_measures s; driver_calls := driver_calls s |}.

Definition set_end_loading_page (v : pyval) (s : frame) : frame :=
  {| start_loading_page := start_loading_page s;
     start_loading_tag := start_loading_tag s;
     start_loading_layer := start_loading_layer s;
     end_loading_tag := end_loading_tag s; end_loading_990 := end_loading_990 s;
     end_loading_page := v; end_loading_unit := end_loading_unit s;
     end_loading_layer := end_loading_layer s; unit_id := unit_id s;
     time_measures := time_measures s; driver_calls := driver_calls s |}.

Definition set_end_loading_unit (v : pyval) (s : frame) : frame :=
  {| start_loading_page := start_loading_page s;
     start_loading_tag := start_loading_tag s;
     start_loading_layer := start_loading_layer s;
     end_loading_tag := end_loading_tag s; end_loading_990 := end_loading_990 s;
     end_loading_page := end_loading_page s; end_loading_unit := v;
     end_loading_layer := end_loading_layer s; unit_id := unit_id s;
     time_measures := time_measures s; driver_calls := driver_calls s |}.

Definition set_end_loading_layer (v : pyval) (s : frame) : frame :=
  {| start_loading_page := start_loading_page s;
     start_loading_tag := start_loading_tag s;
     start_loading_layer := start_loading_layer s;
     end_loading_tag := end_loading_tag s; end_loading_990 := end_loading_990 s;
     end_loading_page := end_loading_page s; end_loading_unit := end_loading_unit s;
     end_loading_layer := v; unit_id := unit_id s;
     time_measures := time_measures s; driver_calls := driver_calls s |}.

Definition set_unit_id (v : pyobj) (s : frame) : frame :=
  {| start_loading_page := start_loading_page s;
     start_loading_tag := start_loading_tag s;
     start_loading_layer := start_loading_layer s;
     end_loading_tag := end_loading_tag s; end_loading_990 := end_loading_990 s;
     end_loading_page := end_loading_page s; end_loading_unit := end_loading_unit s;
     end_loading_layer := end_loading_layer s; unit_id := v;
     time_measures := time_measures s; driver_calls := driver_calls s |}.

Definition set_time_measures (v : measures) (s : frame) : frame :=
  {| start_loading_page := start_loading_page s;
     start_loading_tag := start_loading_tag s;
     start_loading_layer := start_loading_layer s;
     end_loading_tag := end_loading_tag s; end_loading_990 := end_loading_990 s;
     end_loading_page := end_loading_page s; end_loading_unit := end_loading_unit s;
     end_loading_layer := end_loading_layer s; unit_id := unit_id s;
     time_measures := v; driver_calls := driver_calls s |}.

Definition set_driver_calls (v : list driver_call) (s : frame) : frame :=
  {| start_loading_page := start_loading_page s;
     start_loading_tag := start_loading_tag s;
     start_loading_layer := start_loading_layer s;
     end_loading_tag := end_loading_tag s; end_loading_990 := end_loading_990 s;
     end_loading_page := end_loading_page s; end_loading_unit := end_loading_unit s;
     end_loading_layer := end_loading_layer s; unit_id := unit_id s;
     time_measures := time_measures s; driver_calls := v |}.

(** The frame on entry: nothing measured, the calls of earlier operations. *)
Definition entry_frame (calls : list driver_call) : frame :=
  {| start_loading_page := 0; start_loading_tag := 0; start_loading_layer := 0;
     end_loading_tag := VNone; end_loading_990 := VNone;
     end_loading_page := VNone; end_loading_unit := VNone;
     end_loading_layer := VNone; unit_id := ONone;
     time_measures := no_measures; driver_calls := calls |}.

(** A driver call: it is recorded, then it answers or raises. *)
Definition driver {A} (c : driver_call) (a : answer A) : Eff.M frame A :=
  fun s => (answered a, set_driver_calls (c :: driver_calls s) s).

Definition tag_lookup_name (c : site_config) : string :=
  if is_layer_active c then "tag_lookup_name_placeholder"
  else "tag_lookup_name_placeholder".

Definition tag_selector (c : site_config) : string :=
  "script[src*='" ++ tag_lookup_name c ++ "']".

Definition pixel_990_selector : string := "img[src*='990']".

Definition terminal_pixel_selector : string :=
  "img[src*='ai=985'], img[src*='ai=983']".

(** [d[key]] *)
Definition dict_getitem (d : gmap string (list string)) (key : string)
    : result (list string) :=
  match d !! key with
  | Some v => Ok v
  | None => Raise KeyError
  end.

(** [l[0]] *)
Definition list_first (l : list string) : result string :=
  match l with
  | x :: _ => Ok x
  | [] => Raise IndexError
  end.

(** [x, = l]: unpacking a sequence of exactly one element. *)
Definition unpack_single (l : list string) : result string :=
  match l with
  | [x] => Ok x
  | _ => Raise ValueError
  end.

Definition timeout_or_no_such_element (e : exn) : bool :=
  exn_eqb e TimeoutException || exn_eqb e NoSuchElementException.

Definition terminal_step_handled (e : exn) : bool :=
  exn_eqb e TimeoutException || exn_eqb e NoSuchElementException
  || exn_eqb e KeyError.

Section TagBearingTrial.
(** [urlparse.parse_qs], a library function of the query string. *)
Variable parse_qs : string -> gmap string (list string).

Local Open Scope eff_scope.

(** "Init variables for end time" *)
Definition init_end_variables : Eff.M frame unit :=
  Eff.modify (set_end_loading_tag VNone) ;;
  Eff.modify (set_end_loading_990 VNone) ;;
  Eff.modify (set_end_loading_page VNone) ;;
  Eff.modify (set_end_loading_unit VNone) ;;
  Eff.modify (set_end_loading_layer VNone) ;;
  Eff.modify (set_unit_id ONone).

(** The body of the inner [try]: the wait for the tag's script element,
    then the wait for the 990 pixel. *)
Definition wait_for_tag_and_990 (c : site_config) (w : trial_world)
    : Eff.M frame unit :=
  driver (CallWaitUntil (tag_selector c)) (tw_wait_tag w) ;;
  s ← Eff.get;
  Eff.modify (set_end_loading_tag
                (VFloat (tw_clock_end_tag w - start_loading_tag s))) ;;
  Eff.modify (set_start_loading_layer (tw_clock_start_layer w)) ;;
  driver (CallWaitUntil pixel_990_selector) (tw_wait_990 w) ;;
  s ← Eff.get;
  Eff.modify (set_end_loading_page
                (VFloat (tw_clock_end_page w - start_loading_page s))) ;;
  Eff.modify (set_end_loading_990
                (VFloat (tw_clock_end_990 w - start_loading_tag s))) ;;
  Eff.modify (set_end_loading_layer
                (VFloat (tw_clock_end_layer w - start_loading_layer s))).

(** The two [except] clauses of the inner [try] have the same body: the
    tuple assignment [x = x or 100] on the four durations. *)
Definition fall_back_to_100 : Eff.M frame unit :=
  s ← Eff.get;
  Eff.modify (fun s' =>
    set_end_loading_layer (py_or (end_loading_layer s) (VInt 100))
      (set_end_loading_990 (py_or (end_loading_990 s) (VInt 100))
         (set_end_loading_tag (py_or (end_loading_tag s) (VInt 100))
            (set_end_loading_page (py_or (end_loading_page s) (VInt 100)) s')))).

(** The [finally] block: the terminal pixel and the unit it names. *)
Definition locate_unit (w : trial_world) : Eff.M frame unit :=
  Eff.try_except
    (Eff.modify (set_unit_id ONone) ;;
     Eff.modify (set_end_loading_unit (VInt 0)) ;;
     driver (CallWaitUntil terminal_pixel_selector) (tw_wait_pixel w) ;;
     s ← Eff.get;
     Eff.modify (set_end_loading_unit
                   (VFloat (tw_clock_end_unit w - start_loading_tag s))) ;;
     element ← driver (CallFindElement terminal_pixel_selector) (tw_find_pixel w);
     Eff.modify (set_unit_id (OElement element)) ;;
     src ← driver (CallGetAttribute "src") (tw_pixel_src w);
     qs ← Eff.lift (match src with
                    | Some url => Ok (parse_qs url)
                    | None => Raise AttributeError
                    end);
     Eff.modify (set_unit_id (ODict qs)) ;;
     ai ← Eff.lift (dict_getitem qs "ai");
     code ← Eff.lift (list_first ai);
     if String.eqb code "983" then
       Eff.modify (set_unit_id (OStr "Failed on caps"))
     else
       uid ← Eff.lift (dict_getitem qs "uid");
       u ← Eff.lift (unpack_single uid);
       Eff.modify (set_unit_id (OStr u)))
    terminal_step_handled
    (fun _ => Eff.ret tt).

Definition append_measures : Eff.M frame unit :=
  s ← Eff.get;
  let tm := time_measures s in
  Eff.modify (set_time_measures
    {| tm_preload := tm_preload tm ++ [end_loading_tag s];
       tm_990 := tm_990 tm ++ [end_loading_990 s];
       tm_with_tag := tm_with_tag tm ++ [end_loading_page s];
       tm_layer := tm_layer tm ++ [end_loading_layer s];
       tm_unit := tm_unit tm ++ [(unit_id s, end_loading_unit s)] |}).

Definition append_sentinels : Eff.M frame unit :=
  s ← Eff.get;
  let tm := time_measures s in
  Eff.modify (set_time_measures
    {| tm_preload := tm_preload tm ++ [VInt 100];
       tm_990 := tm_990 tm ++ [VInt 100];
       tm_with_tag := tm_with_tag tm ++ [VInt 100];
       tm_layer := tm_layer tm ++ [VInt 100];
       tm_unit := tm_unit tm ++ [(ONone, VInt 0)] |}).

(** The body of the outer [try]. *)
Definition guarded_steps (website : string) (c : site_config) (w : trial_world)
    : Eff.M frame unit :=
  driver CallDeleteAllCookies (tw_delete_all_cookies w) ;;
  Eff.modify (set_start_loading_page (tw_clock_start_page w)) ;;
  driver (CallGet website) (tw_get w) ;;
  driver (CallExecuteScript (script c)) (tw_execute_script w) ;;
  Eff.modify (set_start_loading_tag (tw_clock_start_tag w)) ;;
  init_end_variables ;;
  Eff.try_finally
    (Eff.try_except (wait_for_tag_and_990 c w)
       timeout_or_no_such_element (fun _ => fall_back_to_100))
    (locate_unit w) ;;
  append_measures.

(** One pass through the body of the [for] loop: [except Exception]
    around the steps. *)
Definition repetition (website : string) (c : site_config) (w : trial_world)
    : Eff.M frame unit :=
  Eff.try_except (guarded_steps website c w) is_Exception
    (fun _ => append_sentinels).

(** The body of [test_load_time_with_tag].  [Crawler.prepare] is itself
    wrapped by [catching], so it returns whatever happens inside it. *)
Definition test_load_time_with_tag_body
    (configuration : option (gmap string site_config))
    (world : with_tag_world) (website : string) : Eff.M frame measures :=
  driver (CallPrepare true) (Done tt) ;;
  Eff.modify (set_time_measures no_measures) ;;
  c ← Eff.lift (configuration_getitem configuration website);
  Eff.for_each (xrange (scans_number c))
    (fun i => repetition website c (ww_repetition world i)) ;;
  driver CallQuit (ww_quit world) ;;
  s ← Eff.get;
  Eff.ret (time_measures s).

(** [test_load_time_with_tag], decorated: its value and the calls issued,
    given the calls issued before it. *)
Definition test_load_time_with_tag
    (configuration : option (gmap string site_config))
    (world : with_tag_world) (website : string) (calls : list driver_call)
    : result (option measures) * list driver_call :=
  match catching (test_load_time_with_tag_body configuration world website)
          (entry_frame calls) with
  | (r, s) => (r, driver_calls s)
  end.

(** A single repetition on its own, from a frame in which nothing has been
    recorded yet: what it appends, as the last (and only) entries. *)
Definition run_repetition (website : string) (c : site_config) (w : trial_world)
    : result unit * frame :=
  repetition website c w (entry_frame []).

Definition recorded (website : string) (c : site_config) (w : trial_world)
    : measures :=
  time_measures (snd (run_repetition website c w)).

(** The [finally] block on its own, from a frame that holds nothing but
    the time of injection. *)
Definition terminal_outcome (w : trial_world) : result unit * frame :=
  locate_unit w (set_start_loading_tag (tw_clock_start_tag w) (entry_frame [])).

(** Whether the [finally] block lets an exception out. *)
Definition terminal_step_escapes (w : trial_world) : bool :=
  match fst (terminal_outcome w) with
  | Ok _ => false
  | Raise _ => true
  end.

(** Whether the steps inside the outer [try] raise. *)
Definition steps_fail (website : string) (c : site_config) (w : trial_world)
    : bool :=
  match fst (guarded_steps website c w (entry_frame [])) with
  | Ok _ => false
  | Raise _ => true
  end.
End TagBearingTrial.

(** ** The document, as BeautifulSoup presents it *)

Local Unset Elimination Schemes.
Inductive node : Type :=
  | Text (s : string)
  | Tag (name : string) (attrs : gmap string string) (contents : list node).
Local Set Elimination Schemes.

(** All descendants of a node, in document order. *)
Fixpoint descendants (n : node) : list node :=
  match n with
  | Text _ => []
  | Tag _ _ contents => flat_map (fun c => c :: descendants c) contents
  end.

Definition is_tag_named (name : string) (n : node) : bool :=
  match n with
  | Tag name' _ _ => String.eqb name' name
  | Text _ => false
  end.

(** [soup.head], [soup.body]: the first descendant tag of that name, or
    [None]. *)
Definition soup_attr (name : string) (soup : node) : option node :=
  List.find (is_tag_named name) (descendants soup).

(** The two patterns the program compiles: ['preload'] and ['preload.js'],
    where [.] is any character but a newline. *)
Inductive re_item : Type := Lit (c : ascii) | AnyChar.

Definition re_preload : list re_item :=
  [Lit "p"; Lit "r"; Lit "e"; Lit "l"; Lit "o"; Lit "a"; Lit "d"]%char.

Definition re_preload_js : list re_item :=
  (re_preload ++ [AnyChar; Lit "j"; Lit "s"])%char%list.

Fixpoint match_here (re : list re_item) (s : string) : bool :=
  match re, s with
  | [], _ => true
  | _ :: _, EmptyString => false
  | Lit c :: re', String a s' => Ascii.eqb c a && match_here re' s'
  | AnyChar :: re', String a s' => negb (Ascii.eqb a "010") && match_here re' s'
  end.

(** [pattern.search(s)]: a match starting anywhere in [s]. *)
Fixpoint re_search (re : list re_item) (s : string) : bool :=
  match_here re s ||
  match s with
  | EmptyString => false
  | String _ s' => re_search re s'
  end.

(** The filter [src=pattern]: a tag whose [src] attribute the pattern
    matches. *)
Definition src_matches (re : list re_item) (n : node) : bool :=
  match n with
  | Text _ => false
  | Tag _ attrs _ =>
      match attrs !! "src" with
      | Some v => re_search re v
      | None => false
      end
  end.

(** [tag.find_all(src=pattern)] *)
Definition find_all (re : list re_item) (tag : node) : list node :=
  List.filter (src_matches re) (descendants tag).

(** [tag.find(src=pattern)]: the first matching descendant, given by the
    child indices that lead to it from [tag]; [None] when there is none.
    The path keeps the identity of the element found: two equal subtrees
    at different places are different elements. *)
Fixpoint find_path (p : node -> bool) (tag : node) : option (list nat) :=
  match tag with
  | Text _ => None
  | Tag _ _ contents =>
      (fix scan (cs : list node) (i : nat) : option (list nat) :=
         match cs with
         | [] => None
         | c :: cs' =>
             if p c then Some [i]
             else match find_path p c with
                  | Some path => Some (i :: path)
                  | None => scan cs' (S i)
                  end
         end) contents O
  end.

(** [tag.index(element)] for the element at [path] below [tag]: its place
    among the direct children, [ValueError] when it is not one of them. *)
Definition tag_index (path : list nat) : result nat :=
  match path with
  | [i] => Ok i
  | _ => Raise ValueError
  end.

(** [len(tag)]: the number of direct children. *)
Definition tag_len (tag : node) : nat :=
  match tag with
  | Text _ => O
  | Tag _ _ contents => length contents
  end.

(** ** The no-tag trial and the tag position *)

(** The value stored under ['position']: a boolean, or the pair
    [(flag, reason)]. *)
Inductive position : Type :=
  | PosBool (b : bool)
  | PosPair (flag : bool) (reason : string).

Record notag_repetition_world : Type := {
  nw_delete_all_cookies : answer unit;
  nw_clock_start : Q;
  nw_get : answer unit;
  nw_clock_end : Q
}.

(** [nw_page_source] is the tree BeautifulSoup builds from
    [driver.page_source]. *)
Record notag_world : Type := {
  nw_repetition : nat -> notag_repetition_world;
  nw_page_source : answer node;
  nw_quit : answer unit
}.

Record notag_measures : Type := {
  tm_without_tag : list pyval;
  tm_position : position
}.

(** The local variables of [test_load_time_without_tag]. *)
Record notag_frame : Type := {
  nt_start_loading_page : Q;
  nt_end_loading_page : pyval;
  nt_time_measures : notag_measures;
  nt_driver_calls : list driver_call
}.

Definition nt_set_start_loading_page (v : Q) (s : notag_frame) : notag_frame :=
  {| nt_start_loading_page := v; nt_end_loading_page := nt_end_loading_page s;
     nt_time_measures := nt_time_measures s;
     nt_driver_calls := nt_driver_calls s |}.

Definition nt_set_end_loading_page (v : pyval) (s : notag_frame) : notag_frame :=
  {| nt_start_loading_page := nt_start_loading_page s; nt_end_loading_page := v;
     nt_time_measures := nt_time_measures s;
     nt_driver_calls := nt_driver_calls s |}.

Definition nt_set_time_measures (v : notag_measures) (s : notag_frame) : notag_frame :=
  {| nt_start_loading_page := nt_start_loading_page s;
     nt_end_loading_page := nt_end_loading_page s;
     nt_time_measures := v; nt_driver_calls := nt_driver_calls s |}.

Definition nt_set_driver_calls (v : list driver_call) (s : notag_frame) : notag_frame :=
  {| nt_start_loading_page := nt_start_loading_page s;
     nt_end_loading_page := nt_end_loading_page s;
     nt_time_measures := nt_time_measures s; nt_driver_calls := v |}.

Definition nt_set_position (p : position) (s : notag_frame) : notag_frame :=
  nt_set_time_measures
    {| tm_without_tag := tm_without_tag (nt_time_measures s); tm_position := p |} s.

Definition notag_entry_frame (calls : list driver_call) : notag_frame :=
  {| nt_start_loading_page := 0; nt_end_loading_page := VNone;
     nt_time_measures := {| tm_without_tag := []; tm_position := PosBool false |};
     nt_driver_calls := calls |}.

Definition nt_driver {A} (c : driver_call) (a : answer A) : Eff.M notag_frame A :=
  fun s => (answered a, nt_set_driver_calls (c :: nt_driver_calls s) s).

Section NoTagTrial.
Local Open Scope eff_scope.

(** One pass through the body of the [for] loop: only a page-load timeout
    is caught. *)
Definition notag_repetition (website : string) (w : notag_repetition_world)
    : Eff.M notag_frame unit :=
  nt_driver CallDeleteAllCookies (nw_delete_all_cookies w) ;;
  Eff.modify (nt_set_start_loading_page (nw_clock_start w)) ;;
  Eff.try_except (nt_driver (CallGet website) (nw_get w))
    (fun e => exn_eqb e TimeoutException) (fun _ => Eff.ret tt) ;;
  s ← Eff.get;
  Eff.modify (nt_set_end_loading_page
                (VFloat (nw_clock_end w - nt_start_loading_page s))) ;;
  s ← Eff.get;
  Eff.modify (nt_set_time_measures
    {| tm_without_tag :=
         tm_without_tag (nt_time_measures s) ++ [nt_end_loading_page s];
       tm_position := tm_position (nt_time_measures s) |}).

(** The condition of the [if]: [head.find_all(...) or (body.find(...) and
    body.index(body.find(...)) / float(len(body)) < 0.7)], with Python's
    short-circuit evaluation.  Attribute access on a missing [head] or
    [body] is an [AttributeError]. *)
Definition tag_is_early (source : node) : result bool :=
  match soup_attr "head" source with
  | None => Raise AttributeError
  | Some head =>
      match find_all re_preload head with
      | _ :: _ => Ok true
      | [] =>
          match soup_attr "body" source with
          | None => Raise AttributeError
          | Some source_body =>
              match find_path (src_matches re_preload_js) source_body with
              | None => Ok false
              | Some path =>
                  match tag_index path with
                  | Raise e => Raise e
                  | Ok i =>
                      match tag_len source_body with
                      | O => Raise ZeroDivisionError
                      | n =>
                          Ok (negb (Qle_bool (7 # 10)
                                      (inject_Z (Z.of_nat i)
                                       / inject_Z (Z.of_nat n))))
                      end
                  end
              end
          end
      end
  end.

Definition head_message : string := "Tag is located in <head>".
Definition children_message : string :=
  "Tag is located in one of <body></body> children.".

Definition classify_position (source : node) : Eff.M notag_frame unit :=
  Eff.try_except
    (early ← Eff.lift (tag_is_early source);
     if early : bool then Eff.modify (nt_set_position (PosPair false head_message))
     else Eff.modify (nt_set_position (PosBool true)))
    (fun e => exn_eqb e ValueError)
    (fun _ => Eff.modify (nt_set_position (PosPair false children_message))).

Definition test_load_time_without_tag_body
    (configuration : option (gmap string site_config))
    (world : notag_world) (website : string) : Eff.M notag_frame notag_measures :=
  nt_driver (CallPrepare false) (Done tt) ;;
  Eff.modify (nt_set_time_measures
                {| tm_without_tag := []; tm_position := PosBool false |}) ;;
  c ← Eff.lift (configuration_getitem configuration website);
  Eff.for_each (xrange (scans_number c))
    (fun i => notag_repetition website (nw_repetition world i)) ;;
  source ← nt_driver CallPageSource (nw_page_source world);
  classify_position source ;;
  nt_driver CallQuit (nw_quit world) ;;
  s ← Eff.get;
  Eff.ret (nt_time_measures s).

Definition test_load_time_without_tag
    (configuration : option (gmap string site_config))
    (world : notag_world) (website : string) (calls : list driver_call)
    : result (option notag_measures) * list driver_call :=
  match catching (test_load_time_without_tag_body configuration world website)
          (notag_entry_frame calls) with
  | (r, s) => (r, nt_driver_calls s)
  end.
End NoTagTrial.

(** ** [test_load_time]: both trials of one site *)

(** The keys [calculate_results] adds to a site's dictionary hold a number,
    the pair stored under ['average_unit'], or a unit entry. *)
Inductive stat : Type :=
  | StatNumber (v : pyval)
  | StatAverageUnit (found : option (list (pyobj * pyval))) (mean : pyval)
  | StatUnit (u : pyobj * pyval).

(** A site's dictionary: the seven keys [test_load_time] creates, and the
    keys added afterwards. *)
Record site_result : Type := {
  sr_preload : list pyval;
  sr_without_tag : list pyval;
  sr_990 : list pyval;
  sr_with_tag : list pyval;
  sr_position : position;
  sr_layer : list pyval;
  sr_unit : list (pyobj * pyval);
  sr_stats : gmap string stat
}.

Definition set_stat (key : string) (v : stat) (d : site_result) : site_result :=
  {| sr_preload := sr_preload d; sr_without_tag := sr_without_tag d;
     sr_990 := sr_990 d; sr_with_tag := sr_with_tag d;
     sr_position := sr_position d; sr_layer := sr_layer d;
     sr_unit := sr_unit d; sr_stats := <[key := v]> (sr_stats d) |}.

Record site_world : Type := {
  sw_with_tag : with_tag_world;
  sw_without_tag : notag_world
}.

Section TestLoadTime.
Variable parse_qs : string -> gmap string (list string).

Local Open Scope eff_scope.

(** Subscripting the value a decorated trial returned: [None[...]] is a
    [TypeError]. *)
Definition subscript {A} (o : option A) : result A :=
  match o with
  | Some a => Ok a
  | None => Raise TypeError
  end.

Definition test_load_time_body
    (configuration : option (gmap string site_config))
    (world : site_world) (website : string)
    : Eff.M (list driver_call) site_result :=
  Eff.lift (configuration_getitem configuration website) ;;
  results_with_tag ←
    test_load_time_with_tag parse_qs configuration (sw_with_tag world) website;
  results_without_tag ←
    test_load_time_without_tag configuration (sw_without_tag world) website;
  with_tag ← Eff.lift (subscript results_with_tag);
  without_tag ← Eff.lift (subscript results_without_tag);
  Eff.ret {| sr_preload := tm_preload with_tag;
             sr_without_tag := tm_without_tag without_tag;
             sr_990 := tm_990 with_tag;
             sr_with_tag := tm_with_tag with_tag;
             sr_position := tm_position without_tag;
             sr_layer := tm_layer with_tag;
             sr_unit := tm_unit with_tag;
             sr_stats := ∅ |}.

Definition test_load_time
    (configuration : option (gmap string site_config))
    (world : site_world) (website : string)
    : Eff.M (list driver_call) (option site_result) :=
  catching (test_load_time_body configuration world website).
End TestLoadTime.

(** ** [calculate_results] *)

(** [sum(l) / len(l)] *)
Definition average (l : list pyval) : result pyval :=
  match py_sum l with
  | Ok total => py_div_len total (length l)
  | Raise e => Raise e
  end.

(** [filter(lambda x: x[0], units) or None]: the entries whose first
    component is true, in order; [None] when there is none. *)
Definition found_units (units : list (pyobj * pyval))
    : option (list (pyobj * pyval)) :=
  match List.filter (fun x => obj_truthy (fst x)) units with
  | [] => None
  | l => Some l
  end.

Section CalculateResults.
Local Open Scope eff_scope.

(** The body of the loop, on the dictionary of one site: twelve
    assignments, in the order of the source. *)
Definition calculate_site : Eff.M site_result unit :=
  d ← Eff.get;
  v ← Eff.lift (average (sr_with_tag d));
  Eff.modify (set_stat "average_with_tag" (StatNumber v)) ;;
  v ← Eff.lift (average (sr_without_tag d));
  Eff.modify (set_stat "average_without_tag" (StatNumber v)) ;;
  v ← Eff.lift (py_max (sr_with_tag d));
  Eff.modify (set_stat "max_with_tag" (StatNumber v)) ;;
  v ← Eff.lift (py_max (sr_without_tag d));
  Eff.modify (set_stat "max_without_tag" (StatNumber v)) ;;
  v ← Eff.lift (average (sr_preload d));
  Eff.modify (set_stat "average_preload" (StatNumber v)) ;;
  v ← Eff.lift (average (sr_layer d));
  Eff.modify (set_stat "average_layer" (StatNumber v)) ;;
  v ← Eff.lift (average (sr_990 d));
  Eff.modify (set_stat "average_990" (StatNumber v)) ;;
  v ← Eff.lift (average (List.map snd (sr_unit d)));
  Eff.modify (set_stat "average_unit"
                (StatAverageUnit (found_units (sr_unit d)) v)) ;;
  v ← Eff.lift (py_max (sr_preload d));
  Eff.modify (set_stat "max_preload" (StatNumber v)) ;;
  v ← Eff.lift (py_max (sr_layer d));
  Eff.modify (set_stat "max_layer" (StatNumber v)) ;;
  v ← Eff.lift (py_max (sr_990 d));
  Eff.modify (set_stat "max_990" (StatNumber v)) ;;
  u ← Eff.lift (py_max_by snd (sr_unit d));
  Eff.modify (set_stat "max_unit" (StatUnit u)).

(** [results[website]] is one object, updated in place: what the body
    assigned before it raised stays in the dictionary.  A site whose
    [test_load_time] returned [None] cannot be subscripted. *)
Definition on_site {A} (website : string) (m : Eff.M site_result A)
    : Eff.M (gmap string (option site_result)) A :=
  fun results =>
    match results !! website with
    | Some (Some d) =>
        match m d with
        | (r, d') => (r, <[website := Some d']> results)
        end
    | Some None => (Raise TypeError, results)
    | None => (Raise KeyError, results)
    end.

(** [for website in results]: the keys, in the dictionary's order. *)
Definition dict_keys {V} (m : gmap string V) : list string :=
  (map_to_list m).*1.

Definition calculate_results_body
    : Eff.M (gmap string (option site_result)) unit :=
  results ← Eff.get;
  Eff.for_each (dict_keys results) (fun website => on_site website calculate_site).

Definition calculate_results
    : Eff.M (gmap string (option site_result)) (option unit) :=
  catching calculate_results_body.
End CalculateResults.

(** ** [initialize] *)

Record thresholds : Type := {
  th_slowdown : Q;
  th_preload : Q;
  th_990 : Q;
  th_provider_response : Q
}.

(** The class attributes of [Crawler] that [initialize] fills in. *)
Record crawler : Type := {
  configuration : option (gmap string site_config);
  crawler_thresholds : option thresholds
}.

(** The database and the configuration file as [initialize] meets them:
    [None] where the call raises. *)
Record setup_world : Type := {
  db_query : option (list db_row);
  config_thresholds : option thresholds;
  db_close : option unit
}.

Section Initialize.
Local Open Scope eff_scope.

Definition or_raise {A} (e : exn) (o : option A) : result A :=
  match o with
  | Some a => Ok a
  | None => Raise e
  end.

Definition get_configurations_decorated (w : setup_world)
    : Eff.M crawler (option (gmap string site_config)) :=
  catching (res ← Eff.lift (or_raise OperationalError (db_query w));
            Eff.ret (get_configurations res)).

Definition get_thresholds_decorated (w : setup_world)
    : Eff.M crawler (option unit) :=
  catching (t ← Eff.lift (or_raise ValueError (config_thresholds w));
            Eff.modify (fun s => {| configuration := configuration s;
                                    crawler_thresholds := Some t |})).

(** [d or None] for a dictionary-or-[None] *)
Definition dict_or_none (o : option (gmap string site_config))
    : option (gmap string site_config) :=
  match o with
  | Some d => if bool_decide (d = ∅) then None else Some d
  | None => None
  end.

Definition initialize_body (w : setup_world) : Eff.M crawler unit :=
  c ← get_configurations_decorated w;
  Eff.modify (fun s => {| configuration := dict_or_none c;
                          crawler_thresholds := crawler_thresholds s |}) ;;
  get_thresholds_decorated w ;;
  Eff.lift (or_raise OperationalError (db_close w)) ;;
  s ← Eff.get;
  match dict_or_none (configuration s) with
  | None => Eff.raise SystemExit
  | Some _ => Eff.ret tt
  end.

Definition initialize (w : setup_world) : Eff.M crawler (option unit) :=
  catching (initialize_body w).

Definition fresh_crawler : crawler :=
  {| configuration := None; crawler_thresholds := None |}.
End Initialize.

(** ** What the specification says, in its own words

    Two definitions that follow the specification rather than the source,
    to be compared with the code. *)


(** The sum of the numbers a vector stands for. *)
Definition total (l : list pyval) : Q := fold_right Qplus 0%Q (List.map to_Q l).

(** "The arithmetic mean" of a vector of numbers. *)
Definition arithmetic_mean (l : list pyval) : Q :=
  total l / inject_Z (Z.of_nat (length l)).


(** ** Vectors a trial can produce *)

(** A duration entry is a number. *)
Definition numeric (l : list pyval) : Prop := Forall (fun v => is_num v = true) l.

(** A unit entry carries the [int] [0] or a [float]. *)
Definition unit_elapsed_shape (v : pyval) : bool :=
  match v with
  | VInt 0 => true
  | VFloat _ => true
  | _ => false
  end.

(** A site's dictionary with at least one repetition in every vector. *)
Record measured_site (d : site_result) : Prop := {
  ms_with_tag : sr_with_tag d <> [] /\ numeric (sr_with_tag d);
  ms_without_tag : sr_without_tag d <> [] /\ numeric (sr_without_tag d);
  ms_preload : sr_preload d <> [] /\ numeric (sr_preload d);
  ms_layer : sr_layer d <> [] /\ numeric (sr_layer d);
  ms_990 : sr_990 d <> [] /\ numeric (sr_990 d);
  ms_unit : sr_unit d <> [] /\
            Forall (fun u => unit_elapsed_shape (snd u) = true) (sr_unit d)
}.

(** Every site of the dictionary has been measured. *)
Definition all_measured (results : gmap string (option site_result)) : Prop :=
  forall website entry,
    results !! website = Some entry ->
    exists d, entry = Some d /\ measured_site d.

(** Appending, vector by vector. *)
Definition measures_app (a b : measures) : measures :=
  {| tm_preload := tm_preload a ++ tm_preload b;
     tm_with_tag := tm_with_tag a ++ tm_with_tag b;
     tm_990 := tm_990 a ++ tm_990 b;
     tm_layer := tm_layer a ++ tm_layer b;
     tm_unit := tm_unit a ++ tm_unit b |}.

(** What the repetitions with the given indices record, one after the
    other. *)
Definition recorded_over (parse_qs : string -> gmap string (list string))
    (website : string) (c : site_config) (world : nat -> trial_world)
    (indices : list nat) (before : measures) : measures :=
  fold_left
    (fun acc i => measures_app acc (recorded parse_qs website c (world i)))
    indices before.

(** A no-tag repetition goes through when the cookies are cleared and the
    navigation returns or times out. *)
Definition loads (w : notag_repetition_world) : bool :=
  match nw_delete_all_cookies w, nw_get w with
  | Done _, Done _ => true
  | Done _, Fails DrvTimeout => true
  | _, _ => false
  end.

(** The time a no-tag repetition appends. *)
Definition load_time (w : notag_repetition_world) : pyval :=
  VFloat (nw_clock_end w - nw_clock_start w).

(** The position of the tag can be told: the condition is evaluated, or it
    stops with the [ValueError] the program catches. *)
Definition classifiable (source : node) : bool :=
  match tag_is_early source with
  | Ok _ => true
  | Raise e => exn_eqb e ValueError
  end.

(** The no-tag trial of [n] repetitions runs to its [return]. *)
Definition notag_completes (world : notag_world) (n : nat) : bool :=
  forallb (fun i => loads (nw_repetition world i)) (seq 0 n)
  && match nw_page_source world with
     | Done source => classifiable source
     | Fails _ => false
     end
  && match nw_quit world with
     | Done _ => true
     | Fails _ => false
     end.

(** ** Sample inputs *)

Module Sample.
Definition website : string := "http://site.example/".

Definition site : site_config :=
  {| script := "inject()"; scans_number := 2; geo := "us";
     is_layer_active := true |}.

Definition pixel_url_caps : string := "http://t.example/px?c=1&ai=983&uid=7".
Definition pixel_url_shown : string := "http://t.example/px?c=1&ai=985&uid=7".
Definition pixel_url_ai_first : string := "http://t.example/px?ai=985&uid=7".

(** What [parse_qs] returns on the three addresses above.  It splits its
    whole argument at [&], so everything before the first [=] is the
    first key. *)
Definition parse_qs (qs : string) : gmap string (list string) :=
  if String.eqb qs pixel_url_caps then
    {[ "http://t.example/px?c" := ["1"]; "ai" := ["983"]; "uid" := ["7"] ]}
  else if String.eqb qs pixel_url_shown then
    {[ "http://t.example/px?c" := ["1"]; "ai" := ["985"]; "uid" := ["7"] ]}
  else if String.eqb qs pixel_url_ai_first then
    {[ "http://t.example/px?ai" := ["985"]; "uid" := ["7"] ]}
  else ∅.

(** A repetition in which navigation and injection succeed; the clock
    reads 0 at navigation, 1 after injection, [clock_end_tag] when the
    script element is seen, 4 at the 990 pixel and 9 at the terminal
    pixel. *)
Definition trial (wait_tag wait_990 wait_pixel : answer unit)
    (find_pixel : answer string) (pixel_src : answer (option string))
    (clock_end_tag : Q) : trial_world :=
  {| tw_delete_all_cookies := Done tt;
     tw_clock_start_page := 0;
     tw_get := Done tt;
     tw_execute_script := Done tt;
     tw_clock_start_tag := 1;
     tw_wait_tag := wait_tag;
     tw_clock_end_tag := clock_end_tag;
     tw_clock_start_layer := clock_end_tag;
     tw_wait_990 := wait_990;
     tw_clock_end_page := 4;
     tw_clock_end_990 := 4;
     tw_clock_end_layer := 4;
     tw_wait_pixel := wait_pixel;
     tw_clock_end_unit := 9;
     tw_find_pixel := find_pixel;
     tw_pixel_src := pixel_src |}.

(** Every wait succeeds and the terminal pixel names unit 7. *)
Definition all_found : trial_world :=
  trial (Done tt) (Done tt) (Done tt) (Done "img-1")
    (Done (Some pixel_url_shown)) 3.

(** The script element appears after 2 seconds, the 990 pixel never. *)
Definition pixel_990_times_out : trial_world :=
  trial (Done tt) (Fails DrvTimeout) (Done tt) (Done "img-1")
    (Done (Some pixel_url_shown)) 3.

(** The script element is there at once (the clock has not moved), the
    990 pixel never appears. *)
Definition instant_tag_990_times_out : trial_world :=
  trial (Done tt) (Fails DrvTimeout) (Done tt) (Done "img-1")
    (Done (Some pixel_url_shown)) 1.

(** The terminal pixel carries the caps code. *)
Definition capped : trial_world :=
  trial (Done tt) (Done tt) (Done tt) (Done "img-1")
    (Done (Some pixel_url_caps)) 3.

(** The terminal pixel never appears. *)
Definition terminal_times_out : trial_world :=
  trial (Done tt) (Done tt) (Fails DrvTimeout) (Done "img-1")
    (Done (Some pixel_url_shown)) 3.

(** The terminal pixel is waited for successfully, but is gone when the
    program looks it up. *)
Definition terminal_vanishes : trial_world :=
  trial (Done tt) (Done tt) (Done tt) (Fails DrvNoSuchElement)
    (Done (Some pixel_url_shown)) 3.

(** The terminal pixel's address has [ai] as its first parameter, so
    [parse_qs] files it under another key. *)
Definition terminal_unparsable : trial_world :=
  trial (Done tt) (Done tt) (Done tt) (Done "img-1")
    (Done (Some pixel_url_ai_first)) 3.

(** Navigation raises an error other than a timeout. *)
Definition navigation_fails : trial_world :=
  {| tw_delete_all_cookies := Done tt; tw_clock_start_page := 0;
     tw_get := Fails DrvOther; tw_execute_script := Done tt;
     tw_clock_start_tag := 1; tw_wait_tag := Done tt; tw_clock_end_tag := 3;
     tw_clock_start_layer := 3; tw_wait_990 := Done tt;
     tw_clock_end_page := 4; tw_clock_end_990 := 4; tw_clock_end_layer := 4;
     tw_wait_pixel := Done tt; tw_clock_end_unit := 9;
     tw_find_pixel := Done "img-1";
     tw_pixel_src := Done (Some pixel_url_shown) |}.

Definition configuration : gmap string site_config := {[ website := site ]}.

(** Two repetitions: the first finds everything, the second fails at
    navigation. *)
Definition with_tag : with_tag_world :=
  {| ww_repetition := fun i => match i with O => all_found | _ => navigation_fails end;
     ww_quit := Done tt |}.

(** A page with a preload script among the last children of its body. *)
Definition page : node :=
  Tag "[document]" ∅
    [Tag "html" ∅
       [Tag "head" ∅ [Tag "title" ∅ [Text "t"]];
        Tag "body" ∅
          [Tag "p" ∅ [Text "a"]; Tag "p" ∅ [Text "b"]; Tag "p" ∅ [Text "c"];
           Tag "script" {[ "src" := "http://cdn.example/preload.js" ]} []]]].

Definition document (head body : list node) : node :=
  Tag "[document]" ∅ [Tag "html" ∅ [Tag "head" ∅ head; Tag "body" ∅ body]].

Definition preload_script : node :=
  Tag "script" {[ "src" := "http://cdn.example/preload.js" ]} [].

Definition paragraph (s : string) : node := Tag "p" ∅ [Text s].

(** The preload script referenced from the head. *)
Definition page_with_script_in_head : node :=
  document [preload_script] [paragraph "a"; paragraph "b"].

(** The preload script as the first of four children of the body. *)
Definition page_with_early_script : node :=
  document [] [preload_script; paragraph "a"; paragraph "b"; paragraph "c"].

(** The preload script inside a child of the body. *)
Definition page_with_nested_script : node :=
  document [] [paragraph "a"; Tag "div" ∅ [preload_script]].

(** A document without a head. *)
Definition page_without_head : node :=
  Tag "[document]" ∅ [Tag "body" ∅ [preload_script]].

Definition load (get : answer unit) (clock_end : Q) : notag_repetition_world :=
  {| nw_delete_all_cookies := Done tt; nw_clock_start := 0;
     nw_get := get; nw_clock_end := clock_end |}.

(** Two repetitions without the tag: the first loads in 2 seconds, the
    second runs into the page-load timeout after 30. *)
Definition without_tag : notag_world :=
  {| nw_repetition := fun i => match i with O => load (Done tt) 2
                                       | _ => load (Fails DrvTimeout) 30 end;
     nw_page_source := Done page;
     nw_quit := Done tt |}.

(** The second repetition's navigation raises another error. *)
Definition without_tag_aborting : notag_world :=
  {| nw_repetition := fun i => match i with O => load (Done tt) 2
                                       | _ => load (Fails DrvOther) 30 end;
     nw_page_source := Done page;
     nw_quit := Done tt |}.

(** A stored [scans_number] of 7 gives the two repetitions of [site]. *)
Definition rows : list db_row :=
  [{| website_page := website; website_tag := "inject()";
      row_scans_number := 7; row_geo := "us"; is_layer := true |}].

(** Unit entries of two repetitions that found the same unit. *)
Definition same_unit_twice : list (pyobj * pyval) :=
  [(OStr "7", VFloat (3 # 2)); (OStr "7", VFloat (5 # 2))].

Definition site_dict (units : list (pyobj * pyval)) : site_result :=
  {| sr_preload := [VFloat 2; VInt 100];
     sr_without_tag := [VFloat 2; VFloat 30];
     sr_990 := [VFloat 3; VInt 100];
     sr_with_tag := [VFloat 4; VInt 100];
     sr_position := PosBool true;
     sr_layer := [VFloat 1; VInt 100];
     sr_unit := units;
     sr_stats := ∅ |}.

(** The dictionary of results of a run over that one site. *)
Definition results : gmap string (option site_result) :=
  {[ website := Some (site_dict same_unit_twice) ]}.

(** No row in the database. *)
Definition empty_database : setup_world :=
  {| db_query := Some [];
     config_thresholds :=
       Some {| th_slowdown := 1; th_preload := 1; th_990 := 1;
               th_provider_response := 1 |};
     db_close := Some tt |}.
End Sample.

(** * Further definitions *)
(** ** The calls of a repetition *)

Definition is_wait_for (css_selector : string) (c : driver_call) : bool :=
  match c with
  | CallWaitUntil s => String.eqb s css_selector
  | _ => false
  end.

(** How often [wait.until] was called for a selector. *)
Definition waits_for (css_selector : string) (calls : list driver_call) : nat :=
  length (List.filter (is_wait_for css_selector) calls).

(** What the [except Exception] clause of the loop appends. *)
Definition sentinel_measures : measures :=
  {| tm_preload := [VInt 100]; tm_with_tag := [VInt 100]; tm_990 := [VInt 100];
     tm_layer := [VInt 100]; tm_unit := [(ONone, VInt 0)] |}.

(** ** What [calculate_results] leaves alone *)

(** Two dictionaries of a site with the same seven measured entries. *)
Definition same_measures (d d' : site_result) : Prop :=
  sr_preload d = sr_preload d' /\
  sr_without_tag d = sr_without_tag d' /\
  sr_990 d = sr_990 d' /\
  sr_with_tag d = sr_with_tag d' /\
  sr_position d = sr_position d' /\
  sr_layer d = sr_layer d' /\
  sr_unit d = sr_unit d'.

(** An operation on a site's dictionary that leaves the measured entries
    as they are, also when it raises. *)
Definition keeps_measures {A} (m : Eff.M site_result A) : Prop :=
  forall d, same_measures d (snd (m d)).

(** An entry of the results and what became of it: [None] stays [None], a
    dictionary stays a dictionary with the same measured entries. *)
Definition entry_kept (entry entry' : option site_result) : Prop :=
  match entry, entry' with
  | Some d, Some d' => same_measures d d'
  | None, None => True
  | _, _ => False
  end.

(** The same sites, each with its entry kept. *)
Definition results_kept (results results' : gmap string (option site_result))
    : Prop :=
  forall website,
    match results !! website, results' !! website with
    | Some entry, Some entry' => entry_kept entry entry'
    | None, None => True
    | _, _ => False
    end.

(** One of the six vectors of a site's dictionary is empty. *)
Definition some_vector_empty (d : site_result) : Prop :=
  sr_with_tag d = [] \/ sr_without_tag d = [] \/ sr_preload d = [] \/
  sr_layer d = [] \/ sr_990 d = [] \/ sr_unit d = [].

(** An entry [calculate_results] cannot go through: the [None] of a failed
    [test_load_time], or a dictionary with an empty vector. *)
Definition unmeasured (entry : option site_result) : Prop :=
  match entry with
  | None => True
  | Some d => some_vector_empty d
  end.

(** ** [store]: the csv document *)

(** A cell of the document: a label, a repetition number, a measurement. *)
Inductive cell : Type :=
  | CStr (s : string)
  | CInt (i : Z)
  | CVal (v : pyval).

(** What [store] leaves behind: the rows of the document, in the order
    written ([None] as long as the file has not been opened), and the file
    names [send_mail] was called with. *)
Record report : Type := {
  csv_rows : option (list (list cell));
  mailed : list string
}.

(** The configuration file and the file system as [store] meets them:
    [create_name], itself wrapped by [catching], returns [None] where it
    raises; [open_output] is what opening the file for writing does.
    Writing a row to the open file is taken to succeed. *)
Record store_world : Type := {
  create_name : option string;
  open_output : result unit
}.

(** [range(a, b)] *)
Definition range (a b : Z) : list Z := seqZ a (b - a).

Section Store.
Local Open Scope eff_scope.

(** [open(output_file, 'w+')]: [None] for a name is a [TypeError]; the
    file is created, or emptied when it exists. *)
Definition open_for_writing (w : store_world) : Eff.M report string :=
  match create_name w with
  | None => Eff.raise TypeError
  | Some output_file =>
      Eff.lift (open_output w) ;;
      Eff.modify (fun s => {| csv_rows := Some []; mailed := mailed s |}) ;;
      Eff.ret output_file
  end.

Definition writerow (row : list cell) : Eff.M report unit :=
  Eff.modify (fun s => {| csv_rows := (fun rows => (rows ++ [row])%list) <$> csv_rows s;
                          mailed := mailed s |}).

(** [results[website]], about to be subscripted with the name of a
    vector: [None] there is a [TypeError]. *)
Definition results_getitem (results : gmap string (option site_result))
    (website : string) : result site_result :=
  match results !! website with
  | Some (Some d) => Ok d
  | Some None => Raise TypeError
  | None => Raise KeyError
  end.

(** The body of the loop: seven rows for one site. *)
Definition store_site (configuration : option (gmap string site_config))
    (results : gmap string (option site_result)) (website : string)
    : Eff.M report unit :=
  c ← Eff.lift (configuration_getitem configuration website);
  writerow (CStr website :: List.map CInt (range 1 (scans_number c + 1))) ;;
  d ← Eff.lift (results_getitem results website);
  writerow (CStr "Loading time without tag" :: List.map CVal (sr_without_tag d)) ;;
  d ← Eff.lift (results_getitem results website);
  writerow (CStr "Loading time with tag" :: List.map CVal (sr_with_tag d)) ;;
  d ← Eff.lift (results_getitem results website);
  writerow (CStr "Preload loading time" :: List.map CVal (sr_preload d)) ;;
  d ← Eff.lift (results_getitem results website);
  writerow (CStr "Layer loading time" :: List.map CVal (sr_layer d)) ;;
  d ← Eff.lift (results_getitem results website);
  writerow (CStr "990 loading time" :: List.map CVal (sr_990 d)) ;;
  writerow [].

(** [send_mail] is wrapped by [catching]; of its body only the call is
    kept, with the name of the document to attach. *)
Definition send_mail (output_file : string) : Eff.M report (option unit) :=
  catching
    (Eff.modify (fun s => {| csv_rows := csv_rows s;
                             mailed := (mailed s ++ [output_file])%list |})).

(** The mail is sent after the [with] block, so only when the block was
    left without an exception. *)
Definition store_body (configuration : option (gmap string site_config))
    (w : store_world) (results : gmap string (option site_result))
    : Eff.M report unit :=
  output_file ← open_for_writing w;
  Eff.for_each (dict_keys results) (store_site configuration results) ;;
  send_mail output_file ;;
  Eff.ret tt.

Definition store (configuration : option (gmap string site_config))
    (w : store_world) (results : gmap string (option site_result))
    : Eff.M report (option unit) :=
  catching (store_body configuration w results).
End Store.

(** The seven rows of a site in the document. *)
Definition site_rows (website : string) (c : site_config) (d : site_result)
    : list (list cell) :=
  [ CStr website :: List.map CInt (range 1 (scans_number c + 1));
    CStr "Loading time without tag" :: List.map CVal (sr_without_tag d);
    CStr "Loading time with tag" :: List.map CVal (sr_with_tag d);
    CStr "Preload loading time" :: List.map CVal (sr_preload d);
    CStr "Layer loading time" :: List.map CVal (sr_layer d);
    CStr "990 loading time" :: List.map CVal (sr_990 d);
    [] ].

(** ** [process]: a whole run *)

(** What a run goes through: the calls issued to the drivers, the local
    dictionary [results], and the report. *)
Record run : Type := {
  run_calls : list driver_call;
  run_results : gmap string (option site_result);
  run_report : report
}.

Definition set_run_results (results : gmap string (option site_result))
    (s : run) : run :=
  {| run_calls := run_calls s; run_results := results;
     run_report := run_report s |}.

(** An operation on a part of the run. *)
Definition on_calls {A} (m : Eff.M (list driver_call) A) : Eff.M run A :=
  fun s =>
    match m (run_calls s) with
    | (r, calls) => (r, {| run_calls := calls; run_results := run_results s;
                           run_report := run_report s |})
    end.

Definition on_results {A} (m : Eff.M (gmap string (option site_result)) A)
    : Eff.M run A :=
  fun s =>
    match m (run_results s) with
    | (r, results) => (r, set_run_results results s)
    end.

Definition on_report {A} (m : Eff.M report A) : Eff.M run A :=
  fun s =>
    match m (run_report s) with
    | (r, rep) => (r, {| run_calls := run_calls s; run_results := run_results s;
                         run_report := rep |})
    end.

Section Process.
Variable parse_qs : string -> gmap string (list string).
Local Open Scope eff_scope.

(** [for website in Crawler.configuration]: iterating over [None] is a
    [TypeError]. *)
Definition configured_websites
    (configuration : option (gmap string site_config)) : result (list string) :=
  match configuration with
  | Some cfg => Ok (dict_keys cfg)
  | None => Raise TypeError
  end.

(** The body of the loop: [results[website] = test_load_time(website)]. *)
Definition process_site (configuration : option (gmap string site_config))
    (sites : string -> site_world) (website : string) : Eff.M run unit :=
  r ← on_calls (test_load_time parse_qs configuration (sites website) website);
  s ← Eff.get;
  Eff.modify (set_run_results (<[website := r]> (run_results s))).

Definition process_body (configuration : option (gmap string site_config))
    (sites : string -> site_world) (w : store_world) : Eff.M run unit :=
  Eff.modify (set_run_results ∅) ;;
  websites ← Eff.lift (configured_websites configuration);
  Eff.for_each websites (process_site configuration sites) ;;
  on_results calculate_results ;;
  s ← Eff.get;
  on_report (store configuration w (run_results s)) ;;
  Eff.ret tt.

Definition process (configuration : option (gmap string site_config))
    (sites : string -> site_world) (w : store_world)
    : Eff.M run (option unit) :=
  catching (process_body configuration sites w).
End Process.

(** A site whose two trials run to their [return]. *)
Definition site_completes (c : site_config) (world : site_world) : bool :=
  match ww_quit (sw_with_tag world) with
  | Done _ => true
  | Fails _ => false
  end
  && notag_completes (sw_without_tag world) (Z.to_nat (scans_number c)).

(** ** Further sample inputs *)

Module Scenario.
(** The script element never appears. *)
Definition tag_missing : trial_world :=
  Sample.trial (Fails DrvTimeout) (Done tt) (Done tt) (Done "img-1")
    (Done (Some Sample.pixel_url_shown)) 3.

(** A terminal pixel that names two units. *)
Definition pixel_url_two_units : string :=
  "http://t.example/px?c=1&ai=985&uid=7&uid=8".

(** What [parse_qs] returns on that address, and on the sample ones. *)
Definition parse_qs_with_two_units (qs : string) : gmap string (list string) :=
  if String.eqb qs pixel_url_two_units then
    {[ "http://t.example/px?c" := ["1"]; "ai" := ["985"]; "uid" := ["7"; "8"] ]}
  else Sample.parse_qs qs.

Definition two_units : trial_world :=
  Sample.trial (Done tt) (Done tt) (Done tt) (Done "img-1")
    (Done (Some pixel_url_two_units)) 3.

(** A trial that starts like [Sample.with_tag] and goes on differently. *)
Definition with_tag_capped_later : with_tag_world :=
  {| ww_repetition := fun i => match i with
                               | O => Sample.all_found
                               | _ => Sample.capped
                               end;
     ww_quit := Done tt |}.

(** A trial at whose end [quit] raises. *)
Definition with_tag_quit_fails : with_tag_world :=
  {| ww_repetition := fun _ => Sample.all_found;
     ww_quit := Fails DrvOther |}.

Definition head : node := Tag "head" ∅ [Tag "title" ∅ [Text "t"]].

Definition body : node :=
  Tag "body" ∅
    [Tag "p" ∅ [Text "a"]; Tag "p" ∅ [Text "b"]; Tag "p" ∅ [Text "c"];
     Tag "script" {[ "src" := "http://cdn.example/preload.js" ]} []].

(** A site that runs both trials to their end, and one that does not. *)
Definition sound_site : site_world :=
  {| sw_with_tag := Sample.with_tag; sw_without_tag := Sample.without_tag |}.

Definition failing_site : site_world :=
  {| sw_with_tag := with_tag_quit_fails; sw_without_tag := Sample.without_tag |}.

(** A site stored with five scans: no repetition is left. *)
Definition idle_site : site_config :=
  {| script := "inject()"; scans_number := 0; geo := "us";
     is_layer_active := true |}.

Definition idle_configuration : gmap string site_config :=
  {[ Sample.website := idle_site ]}.

Definition idle_dict : site_result :=
  {| sr_preload := []; sr_without_tag := []; sr_990 := []; sr_with_tag := [];
     sr_position := PosBool true; sr_layer := []; sr_unit := [];
     sr_stats := ∅ |}.

Definition idle_results : gmap string (option site_result) :=
  {[ Sample.website := Some idle_dict ]}.

Definition other_website : string := "http://other.example/".

(** Results in which one site has failed. *)
Definition results_with_failed_site : gmap string (option site_result) :=
  {[ Sample.website := Some (Sample.site_dict Sample.same_unit_twice);
     other_website := None ]}.

(** Two rows for the same page. *)
Definition rows_with_update : list db_row :=
  [{| website_page := Sample.website; website_tag := "old()";
      row_scans_number := 6; row_geo := "us"; is_layer := false |};
   {| website_page := Sample.website; website_tag := "inject()";
      row_scans_number := 7; row_geo := "us"; is_layer := true |}].

Definition files : store_world :=
  {| create_name := Some "results.csv"; open_output := Ok tt |}.

Definition nothing_reported : report := {| csv_rows := None; mailed := [] |}.

Definition start : run :=
  {| run_calls := []; run_results := ∅; run_report := nothing_reported |}.
End Scenario.

(** ** The aggregation in binary64

    Where the outcome depends on the last bit of a [float], the exact
    rationals above say too much.  A binary64 number is a rational, and
    Python's [+] and [/] on floats return the exact result rounded to the
    nearest binary64 number (IEEE 754; results out of range, which clock
    differences do not reach, are left aside).  The definitions of this
    section take that rounding as [round]. *)

Section Binary64.
Variable round : Q -> Q.

(** [a + b]: an [int] operand meeting a [float] is converted first, the
    sum of two floats is rounded. *)
Definition rounded_add (a b : pyval) : result pyval :=
  match a, b with
  | VInt x, VInt y => Ok (VInt (x + y))
  | VInt x, VFloat y => Ok (VFloat (round (round (inject_Z x) + y)))
  | VFloat x, VInt y => Ok (VFloat (round (x + round (inject_Z y))))
  | VFloat x, VFloat y => Ok (VFloat (round (x + y)))
  | _, _ => Raise TypeError
  end.

Fixpoint rounded_sum_from (acc : pyval) (l : list pyval) : result pyval :=
  match l with
  | [] => Ok acc
  | x :: l' =>
      match rounded_add acc x with
      | Ok acc' => rounded_sum_from acc' l'
      | Raise e => Raise e
      end
  end.

(** [sum(l)], which starts from the [int] [0] *)
Definition rounded_sum (l : list pyval) : result pyval :=
  rounded_sum_from (VInt 0) l.

(** [a / n] for a length [n]: floor division on an [int]; on a [float] the
    length is converted and the quotient rounded. *)
Definition rounded_div_len (a : pyval) (n : nat) : result pyval :=
  match a with
  | VNone => Raise TypeError
  | VInt x =>
      match n with
      | O => Raise ZeroDivisionError
      | _ => Ok (VInt (x / Z.of_nat n))
      end
  | VFloat x =>
      match n with
      | O => Raise ZeroDivisionError
      | _ => Ok (VFloat (round (x / round (inject_Z (Z.of_nat n)))))
      end
  end.

(** [sum(l) / len(l)] *)
Definition rounded_average (l : list pyval) : result pyval :=
  match rounded_sum l with
  | Ok total => rounded_div_len total (length l)
  | Raise e => Raise e
  end.
End Binary64.

Section CalculateResultsWith.
Variable mean_of : list pyval -> result pyval.
Local Open Scope eff_scope.

(** The twelve assignments of [calculate_results], with [sum(l) / len(l)]
    computed by [mean_of]; comparisons, and so [max], are exact on floats. *)
Definition calculate_site_with : Eff.M site_result unit :=
  d ← Eff.get;
  v ← Eff.lift (mean_of (sr_with_tag d));
  Eff.modify (set_stat "average_with_tag" (StatNumber v)) ;;
  v ← Eff.lift (mean_of (sr_without_tag d));
  Eff.modify (set_stat "average_without_tag" (StatNumber v)) ;;
  v ← Eff.lift (py_max (sr_with_tag d));
  Eff.modify (set_stat "max_with_tag" (StatNumber v)) ;;
  v ← Eff.lift (py_max (sr_without_tag d));
  Eff.modify (set_stat "max_without_tag" (StatNumber v)) ;;
  v ← Eff.lift (mean_of (sr_preload d));
  Eff.modify (set_stat "average_preload" (StatNumber v)) ;;
  v ← Eff.lift (mean_of (sr_layer d));
  Eff.modify (set_stat "average_layer" (StatNumber v)) ;;
  v ← Eff.lift (mean_of (sr_990 d));
  Eff.modify (set_stat "average_990" (StatNumber v)) ;;
  v ← Eff.lift (mean_of (List.map snd (sr_unit d)));
  Eff.modify (set_stat "average_unit"
                (StatAverageUnit (found_units (sr_unit d)) v)) ;;
  v ← Eff.lift (py_max (sr_preload d));
  Eff.modify (set_stat "max_preload" (StatNumber v)) ;;
  v ← Eff.lift (py_max (sr_layer d));
  Eff.modify (set_stat "max_layer" (StatNumber v)) ;;
  v ← Eff.lift (py_max (sr_990 d));
  Eff.modify (set_stat "max_990" (StatNumber v)) ;;
  u ← Eff.lift (py_max_by snd (sr_unit d));
  Eff.modify (set_stat "max_unit" (StatUnit u)).

Definition calculate_results_with
    : Eff.M (gmap string (option site_result)) (option unit) :=
  catching
    (results ← Eff.get;
     Eff.for_each (dict_keys results)
       (fun website => on_site website calculate_site_with)).
End CalculateResultsWith.

(** [x] is a binary64 number: rounding leaves it as it is. *)
Definition representable (round : Q -> Q) (x : Q) : Prop := (round x == x)%Q.

(** The vector is summed without rounding: its entries, its length and the
    sum of each of its prefixes are binary64 numbers. *)
Definition summed_exactly (round : Q -> Q) (l : list pyval) : Prop :=
  Forall (fun v => representable round (to_Q v)) l /\
  representable round (inject_Z (Z.of_nat (length l))) /\
  Forall (fun k => representable round (total (firstn k l)))
    (seq 0 (S (length l))).

(** Every vector of the site is summed without rounding. *)
Definition site_summed_exactly (round : Q -> Q) (d : site_result) : Prop :=
  summed_exactly round (sr_with_tag d) /\
  summed_exactly round (sr_without_tag d) /\
  summed_exactly round (sr_preload d) /\
  summed_exactly round (sr_layer d) /\
  summed_exactly round (sr_990 d) /\
  summed_exactly round (List.map snd (sr_unit d)).

(** What [mean] is for the vector: the floor of the arithmetic mean when
    it is an [int], the rounded arithmetic mean when it is a [float]. *)
Definition mean_of_vector (round : Q -> Q) (l : list pyval) (mean : pyval)
    : Prop :=
  match mean with
  | VNone => False
  | VInt z =>
      (inject_Z z <= arithmetic_mean l)%Q /\
      (arithmetic_mean l < inject_Z z + 1)%Q
  | VFloat q => (q == round (arithmetic_mean l))%Q
  end.

(** The mean and the maximum stored for a vector: the mean is a number, the
    maximum an entry no entry exceeds, and the mean is not above it in
    Python's order. *)
Definition mean_below_max (round : Q -> Q) (d : site_result)
    (vector : list pyval) (average_key max_key : string) : Prop :=
  exists mean mx,
    sr_stats d !! average_key = Some (StatNumber mean) /\
    sr_stats d !! max_key = Some (StatNumber mx) /\
    mean_of_vector round vector mean /\
    In mx vector /\
    (forall v, In v vector -> py_leb v mx = true) /\
    py_leb mean mx = true.

(** ** Rounding to binary64 *)

(** The integer nearest to [a / c], the even one of two that are equally
    near ([0 <= a], [0 < c]). *)
Definition nearest_even (a c : Z) : Z :=
  let q := a / c in
  match 2 * (a mod c) ?= c with
  | Lt => q
  | Gt => q + 1
  | Eq => if Z.even q then q else q + 1
  end.

(** The binary64 number nearest to [a / b], in units of [2 ^ -1074], the
    smallest positive binary64 number: 53 significant bits, and the even
    significand of two that are equally near. *)
Definition round_scaled (a b : Z) : Z :=
  let e := Z.max 0 (Z.log2 (a / b) - 52) in
  nearest_even a (b * 2 ^ e) * 2 ^ e.

Definition round_magnitude (x : Q) : Q :=
  Qred (Qmake (round_scaled (Qnum x * 2 ^ 1074) (Zpos (Qden x))) (2 ^ 1074)).

(** Round to nearest, ties to even; magnitudes beyond the largest binary64
    number are not looked at. *)
Definition round_binary64 (x : Q) : Q :=
  if Qle_bool 0 x then round_magnitude x else Qopp (round_magnitude (Qopp x)).

(** The binary64 number written [0.1]. *)
Definition one_tenth : Q := 3602879701896397 # 36028797018963968.

(** ** Sample inputs at the edges *)

Module Tenths.
(** Three repetitions that each took the binary64 number written [0.1]. *)
Definition vector : list pyval :=
  [VFloat one_tenth; VFloat one_tenth; VFloat one_tenth].

Definition dictionary : site_result :=
  {| sr_preload := vector; sr_without_tag := vector; sr_990 := vector;
     sr_with_tag := vector; sr_position := PosBool true; sr_layer := vector;
     sr_unit := [(ONone, VFloat one_tenth); (ONone, VFloat one_tenth);
                 (ONone, VFloat one_tenth)];
     sr_stats := ∅ |}.

Definition all_sites : gmap string (option site_result) :=
  {[ Sample.website := Some dictionary ]}.

(** The next binary64 number after [0.1], written [0.10000000000000002]. *)
Definition next_after_one_tenth : Q := 7205759403792795 # 72057594037927936.
End Tenths.

Module FewScans.
(** A site stored with three scans. *)
Definition stored_rows : list db_row :=
  [{| website_page := Sample.website; website_tag := "inject()";
      row_scans_number := 3; row_geo := "us"; is_layer := true |}].

(** A no-tag trial whose first navigation raises an error other than a
    timeout. *)
Definition without_tag_aborting_at_once : notag_world :=
  {| nw_repetition := fun _ => Sample.load (Fails DrvOther) 30;
     nw_page_source := Done Sample.page;
     nw_quit := Done tt |}.
End FewScans.

(** * Properties *)

(** Unfold the monad down to pairs of result and state. *)
Ltac eff_unfold :=
  cbv [Eff.bind Eff.modify Eff.get Eff.ret Eff.lift Eff.raise Eff.try_except
       Eff.try_finally driver nt_driver answered].

(** Case analysis on everything the world and [parse_qs] can answer. *)
Ltac split_answers :=
  repeat match goal with
  | |- context [match ?a with Done _ => _ | Fails _ => _ end] => destruct a; cbn
  | |- context [exn_of ?d] => destruct d; cbn
  | |- context [match ?o with Some _ => _ | None => _ end] => destruct o eqn:?; cbn
  | |- context [dict_getitem _ _] => unfold dict_getitem
  | |- context [list_first ?l] => destruct l; cbn
  | |- context [unpack_single ?l] => destruct l as [|? [|? ?]]; cbn
  | |- context [if String.eqb ?a ?b then _ else _] => destruct (String.eqb a b); cbn
  end.

(** ** The terminal-pixel step *)

Section TerminalStep.
Variable parse_qs : string -> gmap string (list string).

(** The step reads nothing from the frame but the time of injection, and
    assigns [unit_id] and [end_loading_unit] only. *)
Lemma locate_unit_frame w s :
  start_loading_tag s = tw_clock_start_tag w ->
  let r := terminal_outcome parse_qs w in
  locate_unit parse_qs w s =
  (fst r,
   set_unit_id (unit_id (snd r))
     (set_end_loading_unit (end_loading_unit (snd r))
        (set_driver_calls (driver_calls (snd r) ++ driver_calls s) s))).
Proof.
  intros Ht. unfold terminal_outcome.
  destruct w. unfold locate_unit. eff_unfold. cbn in *. rewrite Ht.
  split_answers; reflexivity.
Qed.

Lemma terminal_outcome_raises_Exception w e :
  fst (terminal_outcome parse_qs w) = Raise e -> is_Exception e = true.
Proof.
  unfold terminal_outcome.
  destruct w. unfold locate_unit. eff_unfold. cbn.
  split_answers; intros [=]; subst; reflexivity.
Qed.

(** The step never clears the cookies. *)
Lemma terminal_outcome_starts_nothing w :
  repetitions_started (driver_calls (snd (terminal_outcome parse_qs w))) = O.
Proof.
  unfold terminal_outcome.
  destruct w. unfold locate_unit. eff_unfold. cbn.
  split_answers; reflexivity.
Qed.

(** What the step leaves in [end_loading_unit] is the [int] 0 or a
    [float]. *)
Lemma terminal_outcome_elapsed_shape w :
  unit_elapsed_shape (end_loading_unit (snd (terminal_outcome parse_qs w))) = true.
Proof.
  unfold terminal_outcome.
  destruct w. unfold locate_unit. eff_unfold. cbn.
  split_answers; reflexivity.
Qed.

(** When the terminal pixel is found with the caps code, the step ends
    with the caps marker and the time since injection. *)
Lemma terminal_outcome_caps w element url rest :
  tw_wait_pixel w = Done tt ->
  tw_find_pixel w = Done element ->
  tw_pixel_src w = Done (Some url) ->
  parse_qs url !! "ai" = Some ("983" :: rest) ->
  let r := terminal_outcome parse_qs w in
  fst r = Ok tt /\
  unit_id (snd r) = OStr "Failed on caps" /\
  end_loading_unit (snd r) = VFloat (tw_clock_end_unit w - tw_clock_start_tag w).
Proof.
  intros Hw Hf Hs Hai. unfold terminal_outcome, locate_unit. rewrite Hw, Hf, Hs.
  eff_unfold. cbn. unfold dict_getitem. rewrite Hai. cbn. auto.
Qed.
End TerminalStep.

(** ** One repetition *)

Section Repetition.
Variable parse_qs : string -> gmap string (list string).

Ltac open_repetition :=
  unfold recorded, run_repetition, repetition, guarded_steps,
    init_end_variables, wait_for_tag_and_990, fall_back_to_100,
    append_measures, append_sentinels.

(** Replace each run of the terminal-pixel step by its outcome. *)
Ltac use_terminal_outcome :=
  repeat match goal with
  | |- context [locate_unit _ ?w ?S] =>
      rewrite (locate_unit_frame parse_qs w S eq_refl)
  end; cbn.

Ltac split_terminal_outcome :=
  match goal with
  | |- context [terminal_outcome _ ?w] =>
      let X := fresh "X" in
      let N := fresh "N" in
      let U := fresh "U" in
      pose proof (terminal_outcome_raises_Exception parse_qs w) as X;
      pose proof (terminal_outcome_starts_nothing parse_qs w) as N;
      pose proof (terminal_outcome_elapsed_shape parse_qs w) as U;
      destruct (terminal_outcome parse_qs w) as [[[]|?e] ?s];
      cbn in X, N, U |- *;
      try (rewrite (X _ eq_refl); cbn)
  end.

(** Case analysis on the answers to the steps before the terminal one,
    stopping where the repetition stops. *)
Ltac split_steps w :=
  destruct (tw_delete_all_cookies w) as [[]|[]], (tw_get w) as [[]|[]],
    (tw_execute_script w) as [[]|[]]; cbn;
  try (destruct (tw_wait_tag w) as [[]|[]]; cbn;
       try (destruct (tw_wait_990 w) as [[]|[]]; cbn)).

Lemma repetition_returns website c w s :
  fst (repetition parse_qs website c w s) = Ok tt.
Proof.
  open_repetition. eff_unfold.
  split_steps w; try reflexivity.
  all: use_terminal_outcome; split_terminal_outcome; reflexivity.
Qed.

Lemma repetitions_started_app a b :
  repetitions_started (a ++ b) = (repetitions_started a + repetitions_started b)%nat.
Proof.
  unfold repetitions_started. rewrite List.filter_app, length_app. reflexivity.
Qed.

(** Every repetition clears the cookies exactly once. *)
Lemma repetition_counts website c w s :
  repetitions_started (driver_calls (snd (repetition parse_qs website c w s))) =
  S (repetitions_started (driver_calls s)).
Proof.
  open_repetition. eff_unfold.
  split_steps w; try reflexivity.
  all: use_terminal_outcome; split_terminal_outcome.
  all: unfold repetitions_started in *;
    rewrite List.filter_app, length_app, N; reflexivity.
Qed.

(** A repetition appends to the vectors what it records on its own,
    whatever the frame held before. *)
Lemma repetition_appends website c w s :
  time_measures (snd (repetition parse_qs website c w s)) =
  measures_app (time_measures s) (recorded parse_qs website c w).
Proof.
  open_repetition. eff_unfold.
  split_steps w; try reflexivity.
  all: use_terminal_outcome; split_terminal_outcome; reflexivity.
Qed.

(** What a repetition records: one entry in each vector, a number for each
    duration, the [int] 0 or a [float] with the unit. *)
Lemma recorded_one_entry website c w :
  exists page tag p990 layer unit,
    recorded parse_qs website c w =
      {| tm_preload := [tag]; tm_with_tag := [page]; tm_990 := [p990];
         tm_layer := [layer]; tm_unit := [unit] |} /\
    is_num page = true /\ is_num tag = true /\ is_num p990 = true /\
    is_num layer = true /\ unit_elapsed_shape (snd unit) = true.
Proof.
  open_repetition. eff_unfold.
  split_steps w.
  all: try (do 5 eexists; split; [reflexivity | repeat split; reflexivity]).
  all: use_terminal_outcome; split_terminal_outcome.
  all: do 5 eexists; split; [reflexivity | cbn; repeat split; try reflexivity; try assumption].
  all: unfold py_or; cbn; destruct (Qeq_bool _ _); reflexivity.
Qed.

(** Whether the steps raise is decided by the world alone, not by what the
    frame held before the repetition. *)
Lemma steps_fail_any_frame website c w s :
  steps_fail parse_qs website c w =
  match fst (guarded_steps parse_qs website c w s) with
  | Ok _ => false
  | Raise _ => true
  end.
Proof.
  unfold steps_fail. open_repetition. eff_unfold.
  split_steps w; try reflexivity.
  all: use_terminal_outcome; split_terminal_outcome; reflexivity.
Qed.

(** A repetition whose steps raise records the sentinels. *)
Lemma failed_repetition_records_sentinels website c w :
  steps_fail parse_qs website c w = true ->
  recorded parse_qs website c w =
    {| tm_preload := [VInt 100]; tm_with_tag := [VInt 100];
       tm_990 := [VInt 100]; tm_layer := [VInt 100];
       tm_unit := [(ONone, VInt 0)] |}.
Proof.
  unfold steps_fail. open_repetition. eff_unfold.
  split_steps w; try reflexivity.
  all: use_terminal_outcome; split_terminal_outcome; try reflexivity.
  all: discriminate.
Qed.

(** C1 (amended): when navigation and injection succeed, the wait for the
    script element succeeds and the wait for the 990 pixel fails with a
    timeout or not-found, the repetition records 100 for with_tag, 990
    and layer.  For preload it records the duration measured in step 4,
    except that it records 100 when that duration is zero or when the
    terminal-pixel step lets an exception out. *)
Theorem preload_kept_when_990_wait_fails website c w :
  tw_delete_all_cookies w = Done tt ->
  tw_get w = Done tt ->
  tw_execute_script w = Done tt ->
  tw_wait_tag w = Done tt ->
  tw_wait_990 w = Fails DrvTimeout \/ tw_wait_990 w = Fails DrvNoSuchElement ->
  let m := recorded parse_qs website c w in
  let measured := VFloat (tw_clock_end_tag w - tw_clock_start_tag w) in
  tm_with_tag m = [VInt 100] /\ tm_990 m = [VInt 100] /\
  tm_layer m = [VInt 100] /\
  tm_preload m =
    [if terminal_step_escapes parse_qs w || negb (truthy measured)
     then VInt 100 else measured].
Proof.
  intros Hc Hg Hx Ht H9 m measured. subst m measured.
  unfold terminal_step_escapes. open_repetition.
  rewrite Hc, Hg, Hx, Ht. eff_unfold.
  destruct H9 as [-> | ->]; cbn.
  all: use_terminal_outcome; split_terminal_outcome; auto.
  all: unfold py_or, truthy; destruct (Qeq_bool _ _); cbn; auto.
Qed.

(** C9: when the script element is found with a measured duration of
    exactly zero and the wait for the 990 pixel then fails with a timeout
    or not-found, the inner [try] leaves that zero in [end_loading_tag]
    (a [float], not [None]), and the repetition records 100 for preload all
    the same, since the fallback is [end_loading_tag or 100]. *)
Theorem zero_preload_replaced_by_100 website c w :
  tw_delete_all_cookies w = Done tt ->
  tw_get w = Done tt ->
  tw_execute_script w = Done tt ->
  tw_wait_tag w = Done tt ->
  (tw_clock_end_tag w - tw_clock_start_tag w == 0)%Q ->
  tw_wait_990 w = Fails DrvTimeout \/ tw_wait_990 w = Fails DrvNoSuchElement ->
  (forall s, exists e,
     fst (wait_for_tag_and_990 c w s) = Raise e /\
     timeout_or_no_such_element e = true /\
     end_loading_tag (snd (wait_for_tag_and_990 c w s)) =
       VFloat (tw_clock_end_tag w - start_loading_tag s)) /\
  py_or (VFloat (tw_clock_end_tag w - tw_clock_start_tag w)) (VInt 100) =
    VInt 100 /\
  tm_preload (recorded parse_qs website c w) = [VInt 100].
Proof.
  intros Hc Hg Hx Ht Hz H9.
  apply Qeq_bool_iff in Hz.
  split; [|split].
  - intros s. unfold wait_for_tag_and_990. rewrite Ht. eff_unfold.
    destruct H9 as [-> | ->]; cbn; eauto.
  - unfold py_or, truthy. rewrite Hz. reflexivity.
  - open_repetition. rewrite Hc, Hg, Hx, Ht. eff_unfold.
    destruct H9 as [-> | ->]; cbn.
    all: use_terminal_outcome; split_terminal_outcome; auto.
    all: unfold py_or, truthy; rewrite Hz; reflexivity.
Qed.

(** C4 (amended): in a repetition where navigation and injection succeed,
    the two waits of steps 4 and 5 raise nothing but a timeout or
    not-found, and the terminal pixel is found with [ai] equal to the
    caps code 983, the unit identifier recorded is the string
    "Failed on caps", with the time since injection. *)
Theorem caps_code_recorded_as_failed_on_caps website c w element url rest :
  tw_delete_all_cookies w = Done tt ->
  tw_get w = Done tt ->
  tw_execute_script w = Done tt ->
  tw_wait_tag w <> Fails DrvOther ->
  (tw_wait_tag w = Done tt -> tw_wait_990 w <> Fails DrvOther) ->
  tw_wait_pixel w = Done tt ->
  tw_find_pixel w = Done element ->
  tw_pixel_src w = Done (Some url) ->
  parse_qs url !! "ai" = Some ("983" :: rest) ->
  tm_unit (recorded parse_qs website c w) =
    [(OStr "Failed on caps",
      VFloat (tw_clock_end_unit w - tw_clock_start_tag w))].
Proof.
  intros Hc Hg Hx Ht H9 Hp Hf Hs Hai.
  destruct (terminal_outcome_caps parse_qs w element url rest Hp Hf Hs Hai)
    as (R & U & E).
  open_repetition. rewrite Hc, Hg, Hx. eff_unfold. cbn.
  destruct (tw_wait_tag w) as [[]|[]]; try congruence; cbn.
  1: specialize (H9 eq_refl);
     destruct (tw_wait_990 w) as [[]|[]]; try congruence; cbn.
  all: use_terminal_outcome.
  all: destruct (terminal_outcome parse_qs w) as [r s']; cbn in *; subst r; cbn.
  all: rewrite U, E; reflexivity.
Qed.
End Repetition.

(** ** The loop of the tag-bearing trial *)

Section TagBearingLoop.
Variable parse_qs : string -> gmap string (list string).
Variables (website : string) (c : site_config) (world : nat -> trial_world).

(** The loop never raises; it appends what each repetition records and
    clears the cookies once per index. *)
Lemma with_tag_loop l s :
  exists s',
    Eff.for_each l (fun i => repetition parse_qs website c (world i)) s
      = (Ok tt, s') /\
    time_measures s' =
      recorded_over parse_qs website c world l (time_measures s) /\
    repetitions_started (driver_calls s') =
      (repetitions_started (driver_calls s) + length l)%nat.
Proof.
  revert s. induction l as [|i l IH]; intros s; cbn.
  - exists s. rewrite Nat.add_0_r. auto.
  - unfold Eff.bind.
    pose proof (repetition_returns parse_qs website c (world i) s) as R.
    pose proof (repetition_appends parse_qs website c (world i) s) as A.
    pose proof (repetition_counts parse_qs website c (world i) s) as N.
    destruct (repetition parse_qs website c (world i) s) as [r s1].
    cbn in R, A, N. subst r.
    destruct (IH s1) as (s' & E & M & K). exists s'.
    rewrite E, M, K, A, N. repeat split. lia.
Qed.

Lemma recorded_over_snoc l i before :
  recorded_over parse_qs website c world (l ++ [i]) before =
  measures_app (recorded_over parse_qs website c world l before)
    (recorded parse_qs website c (world i)).
Proof. unfold recorded_over. rewrite fold_left_app. reflexivity. Qed.

(** The vectors after the loop, entry by entry. *)
Lemma recorded_over_entries l :
  let m := recorded_over parse_qs website c world l no_measures in
  let at_ (i : nat) := recorded parse_qs website c (world i) in
  tm_preload m = flat_map (fun i => tm_preload (at_ i)) l /\
  tm_with_tag m = flat_map (fun i => tm_with_tag (at_ i)) l /\
  tm_990 m = flat_map (fun i => tm_990 (at_ i)) l /\
  tm_layer m = flat_map (fun i => tm_layer (at_ i)) l /\
  tm_unit m = flat_map (fun i => tm_unit (at_ i)) l.
Proof.
  induction l as [|i l IH] using rev_ind.
  - repeat split.
  - cbv zeta in *. destruct IH as (P & W & N & L & U).
    rewrite recorded_over_snoc, !flat_map_app. cbn.
    rewrite P, W, N, L, U, !app_nil_r. repeat split.
Qed.

Lemma flat_map_length_one {A B} (f : A -> list B) l :
  (forall a, length (f a) = 1%nat) -> length (flat_map f l) = length l.
Proof.
  intros H. induction l as [|a l IH]; cbn; [reflexivity|].
  rewrite length_app, H, IH. reflexivity.
Qed.

Lemma flat_map_lookup_one {A B} (f : A -> list B) l i a :
  (forall a, length (f a) = 1%nat) ->
  l !! i = Some a -> flat_map f l !! i = f a !! O.
Proof.
  intros H. revert i. induction l as [|b l IH]; intros i Hi; [discriminate|].
  cbn. specialize (H b) as Hb. destruct (f b) as [|x [|? ?]] eqn:E; try discriminate.
  destruct i as [|i]; cbn in *.
  - injection Hi as <-. rewrite E. reflexivity.
  - apply IH, Hi.
Qed.

Lemma recorded_lengths w :
  let m := recorded parse_qs website c w in
  length (tm_preload m) = 1%nat /\ length (tm_with_tag m) = 1%nat /\
  length (tm_990 m) = 1%nat /\ length (tm_layer m) = 1%nat /\
  length (tm_unit m) = 1%nat.
Proof.
  destruct (recorded_one_entry parse_qs website c w)
    as (? & ? & ? & ? & ? & -> & _). cbn. auto.
Qed.
End TagBearingLoop.

(** ** The tag-bearing trial *)

Section TagBearingTrialProperties.
Variable parse_qs : string -> gmap string (list string).

(** With the site configured, the trial returns the vectors of its
    repetitions when [quit] succeeds and [None] when it raises; either
    way it has run every repetition. *)
Lemma with_tag_trial cfg website c world calls :
  cfg !! website = Some c ->
  let l := xrange (scans_number c) in
  exists calls',
    test_load_time_with_tag parse_qs (Some cfg) world website calls =
      (Ok (match ww_quit world with
           | Done _ =>
               Some (recorded_over parse_qs website c (ww_repetition world)
                       l no_measures)
           | Fails _ => None
           end), calls') /\
    repetitions_started calls' = (repetitions_started calls + length l)%nat.
Proof.
  intros Hc l. unfold test_load_time_with_tag, catching,
    test_load_time_with_tag_body, configuration_getitem.
  rewrite Hc. eff_unfold. cbn.
  match goal with
  | |- context [Eff.for_each _ _ ?S] =>
      destruct (with_tag_loop parse_qs website c (ww_repetition world) l S)
        as (s' & E & M & K)
  end.
  fold l. rewrite E. cbn in M, K.
  destruct (ww_quit world) as [[]|d]; cbn.
  - eexists. rewrite M. split; [reflexivity|]. cbn. exact K.
  - destruct d; cbn; eexists; (split; [reflexivity|]); cbn; exact K.
Qed.
End TagBearingTrialProperties.

(** ** The no-tag trial *)

Section NoTagTrialProperties.
Variables (website : string) (world : nat -> notag_repetition_world).

(** A repetition appends its load time when it goes through, and raises
    otherwise; it clears the cookies once in both cases. *)
Lemma notag_repetition_outcome w s :
  match notag_repetition website w s with
  | (Ok _, s') =>
      loads w = true /\
      nt_time_measures s' =
        {| tm_without_tag :=
             tm_without_tag (nt_time_measures s) ++ [load_time w];
           tm_position := tm_position (nt_time_measures s) |}
  | (Raise e, s') => loads w = false /\ is_Exception e = true
  end /\
  repetitions_started (nt_driver_calls (snd (notag_repetition website w s))) =
    S (repetitions_started (nt_driver_calls s)).
Proof.
  unfold notag_repetition, loads, load_time. eff_unfold.
  destruct (nw_delete_all_cookies w) as [[]|[]], (nw_get w) as [[]|[]];
    cbn; auto.
Qed.

Lemma notag_loop l s :
  match Eff.for_each l (fun i => notag_repetition website (world i)) s with
  | (Ok _, s') =>
      forallb (fun i => loads (world i)) l = true /\
      nt_time_measures s' =
        {| tm_without_tag :=
             tm_without_tag (nt_time_measures s)
             ++ List.map (fun i => load_time (world i)) l;
           tm_position := tm_position (nt_time_measures s) |} /\
      repetitions_started (nt_driver_calls s') =
        (repetitions_started (nt_driver_calls s) + length l)%nat
  | (Raise e, s') =>
      forallb (fun i => loads (world i)) l = false /\
      is_Exception e = true /\
      (repetitions_started (nt_driver_calls s') <=
         repetitions_started (nt_driver_calls s) + length l)%nat
  end.
Proof.
  revert s. induction l as [|i l IH]; intros s; cbn.
  - rewrite app_nil_r, Nat.add_0_r. destruct s as [? ? []]. auto.
  - unfold Eff.bind.
    destruct (notag_repetition_outcome (world i) s) as [O N].
    destruct (notag_repetition website (world i) s) as [[[]|e] s1]; cbn in N.
    + destruct O as [-> M]. specialize (IH s1).
      destruct (Eff.for_each l _ s1) as [[[]|e] s2]; cbn.
      * destruct IH as (-> & -> & ->). rewrite M, N. cbn.
        rewrite <- app_assoc. repeat split. lia.
      * destruct IH as (-> & -> & K). repeat split. lia.
    + destruct O as [-> ->]. cbn. repeat split. lia.
Qed.
End NoTagTrialProperties.

Lemma tag_is_early_raises_Exception source e :
  tag_is_early source = Raise e -> is_Exception e = true.
Proof.
  unfold tag_is_early, tag_index.
  destruct (soup_attr "head" source); [|intros [= <-]; reflexivity].
  destruct (find_all _ _); [|discriminate].
  destruct (soup_attr "body" source); [|intros [= <-]; reflexivity].
  destruct (find_path _ _) as [[|? [|? ?]]|]; try discriminate;
    try (intros [= <-]; reflexivity).
  destruct (tag_len _); [intros [= <-]; reflexivity | discriminate].
Qed.

(** The classification stores one of three values, or stops with an
    exception of class [Exception] and stores nothing. *)
Lemma classify_position_outcome source s :
  match classify_position source s with
  | (Ok _, s') =>
      classifiable source = true /\
      tm_without_tag (nt_time_measures s') = tm_without_tag (nt_time_measures s) /\
      nt_driver_calls s' = nt_driver_calls s /\
      (tm_position (nt_time_measures s') = PosBool true \/
       tm_position (nt_time_measures s') = PosPair false "Tag is located in <head>" \/
       tm_position (nt_time_measures s') =
         PosPair false "Tag is located in one of <body></body> children.")
  | (Raise e, s') =>
      classifiable source = false /\ is_Exception e = true /\
      nt_driver_calls s' = nt_driver_calls s
  end.
Proof.
  unfold classify_position, classifiable. eff_unfold.
  pose proof (tag_is_early_raises_Exception source) as X.
  destruct (tag_is_early source) as [[]|e]; cbn; auto 10.
  specialize (X e eq_refl).
  destruct e; cbn; auto 10; discriminate.
Qed.

(** The no-tag trial returns its measures exactly when it runs to its
    [return]; it returns [None] otherwise, and never raises. *)
Lemma without_tag_trial cfg website c world calls :
  cfg !! website = Some c ->
  let n := Z.to_nat (scans_number c) in
  match test_load_time_without_tag (Some cfg) world website calls with
  | (Ok (Some tm), calls') =>
      notag_completes world n = true /\
      tm_without_tag tm =
        List.map (fun i => load_time (nw_repetition world i)) (seq 0 n) /\
      (tm_position tm = PosBool true \/
       tm_position tm = PosPair false "Tag is located in <head>" \/
       tm_position tm =
         PosPair false "Tag is located in one of <body></body> children.") /\
      repetitions_started calls' = (repetitions_started calls + n)%nat
  | (Ok None, calls') =>
      notag_completes world n = false /\
      (repetitions_started calls' <= repetitions_started calls + n)%nat
  | (Raise _, _) => False
  end.
Proof.
  intros Hc n. subst n. unfold test_load_time_without_tag, catching,
    test_load_time_without_tag_body, configuration_getitem, notag_completes.
  rewrite Hc. unfold xrange. eff_unfold. cbn.
  match goal with
  | |- context [Eff.for_each ?l ?f ?S] =>
      pose proof (notag_loop website (nw_repetition world) l S) as L;
      destruct (Eff.for_each l f S) as [[[]|e] s1]
  end; cbn in L; rewrite length_seq in L; unfold repetitions_started in *.
  2: { destruct L as (-> & -> & K). cbn. auto. }
  destruct L as (-> & M & K). cbn.
  destruct (nw_page_source world) as [source|d]; cbn.
  2: { destruct d; cbn; split; auto; lia. }
  match goal with
  | |- context [classify_position source ?S] =>
      pose proof (classify_position_outcome source S) as P;
      destruct (classify_position source S) as [[[]|e] s2]
  end; cbn in P.
  2: { destruct P as (-> & -> & ->). cbn. split; auto. lia. }
  destruct P as (-> & V & C & P). rewrite M in V. cbn in V.
  destruct (nw_quit world) as [[]|d]; cbn.
  - rewrite V, C. cbn. auto.
  - destruct d; cbn; rewrite C; cbn; split; auto; lia.
Qed.

(** ** The configuration *)

(** An entry of the configuration comes from a row, with five taken off the
    stored number of scans. *)
Lemma get_configurations_entry res website c :
  get_configurations res !! website = Some c ->
  exists row,
    In row res /\ website_page row = website /\
    script c = website_tag row /\
    scans_number c = row_scans_number row - 5.
Proof.
  unfold get_configurations.
  assert (forall (acc : gmap string site_config),
            fold_left
              (fun configurations row =>
                 <[website_page row :=
                     {| script := website_tag row;
                        scans_number := row_scans_number row - 5;
                        geo := row_geo row;
                        is_layer_active := is_layer row |}]> configurations)
              res acc !! website = Some c ->
            acc !! website = Some c \/
            exists row, In row res /\ website_page row = website /\
                        script c = website_tag row /\
                        scans_number c = row_scans_number row - 5) as G.
  { induction res as [|row res IH]; intros acc H; cbn in *; [auto|].
    apply IH in H. destruct H as [H | (r & ? & ?)]; [|eauto 6].
    destruct (decide (website_page row = website)) as [E|E].
    - rewrite E, lookup_insert_eq in H. injection H as <-. right.
      exists row. cbn. auto.
    - rewrite lookup_insert_ne in H by exact E. auto. }
  intros H. apply G in H. destruct H as [H|H]; [|exact H].
  rewrite lookup_empty in H. discriminate.
Qed.

(** ** The vectors of a site *)

Lemma map_seq_lookup {B} (f : nat -> B) n i :
  (i < n)%nat -> List.map f (seq 0 n) !! i = Some (f i).
Proof.
  intros H. change (List.map f (seq 0 n)) with (f <$> seq 0 n).
  rewrite list_lookup_fmap, lookup_seq_lt by exact H. reflexivity.
Qed.

Section SiteVectors.
Variable parse_qs : string -> gmap string (list string).

(** C5 (counterexample): in a no-tag trial of two repetitions whose
    second navigation runs into the page-load timeout after 30 seconds,
    the failed repetition contributes those 30 seconds to [without_tag],
    not the sentinel 100; and when the second navigation raises another
    error the trial returns [None], so no vector is produced at all. *)
Lemma timed_out_load_is_not_a_sentinel :
  nw_get (nw_repetition Sample.without_tag 1) = Fails DrvTimeout /\
  (exists calls',
     test_load_time_without_tag (Some Sample.configuration)
       Sample.without_tag Sample.website [] =
     (Ok (Some {| tm_without_tag := [VFloat 2; VFloat 30];
                  tm_position := PosBool true |}), calls')) /\
  fst (test_load_time_without_tag (Some Sample.configuration)
         Sample.without_tag_aborting Sample.website []) = Ok None.
Proof.
  split; [reflexivity|]. split; [eexists|]; vm_compute; reflexivity.
Qed.

(** C5 (amended): for a configured site whose driver quits normally after
    the tag-bearing trial and whose no-tag trial runs to its return, the
    five tag-bearing vectors and [without_tag] have one entry per
    repetition, [max(scans_number, 0)] in all.  A tag-bearing repetition
    whose steps raise contributes 100 to the four durations and
    [(None, 0)] to [unit].  Every no-tag repetition, also one whose
    navigation timed out, contributes its measured load time. *)
Theorem one_entry_per_repetition cfg website c ww nw calls :
  cfg !! website = Some c ->
  ww_quit ww = Done tt ->
  notag_completes nw (Z.to_nat (scans_number c)) = true ->
  let n := Z.to_nat (scans_number c) in
  exists tm calls1 nt calls2,
    test_load_time_with_tag parse_qs (Some cfg) ww website calls =
      (Ok (Some tm), calls1) /\
    test_load_time_without_tag (Some cfg) nw website calls1 =
      (Ok (Some nt), calls2) /\
    (length (tm_with_tag tm) = n /\ length (tm_preload tm) = n /\
     length (tm_990 tm) = n /\ length (tm_layer tm) = n /\
     length (tm_unit tm) = n /\ length (tm_without_tag nt) = n) /\
    (forall i, (i < n)%nat ->
       steps_fail parse_qs website c (ww_repetition ww i) = true ->
       tm_with_tag tm !! i = Some (VInt 100) /\
       tm_preload tm !! i = Some (VInt 100) /\
       tm_990 tm !! i = Some (VInt 100) /\
       tm_layer tm !! i = Some (VInt 100) /\
       tm_unit tm !! i = Some (ONone, VInt 0)) /\
    (forall i, (i < n)%nat ->
       tm_without_tag nt !! i = Some (load_time (nw_repetition nw i))).
Proof.
  intros Hc Hq Hn n.
  destruct (with_tag_trial parse_qs cfg website c ww calls Hc) as (calls1 & E & _).
  rewrite Hq in E.
  pose proof (without_tag_trial cfg website c nw calls1 Hc) as N.
  cbv zeta in N. fold n in N, Hn.
  destruct (test_load_time_without_tag (Some cfg) nw website calls1)
    as [[[nt|]|e] calls2] eqn:EN; [|destruct N; congruence|contradiction].
  destruct N as (_ & V & _ & _).
  eexists _, calls1, nt, calls2. split; [exact E|]. split; [exact EN|].
  destruct (recorded_over_entries parse_qs website c (ww_repetition ww)
              (xrange (scans_number c))) as (P & W & N9 & L & U).
  cbv zeta in *. rewrite P, W, N9, L, U, V. unfold xrange. fold n.
  split; [|split].
  - rewrite !flat_map_length_one, length_map, length_seq;
      try (intros; apply (recorded_lengths parse_qs website c)).
    repeat split.
  - intros i Hi F.
    apply failed_repetition_records_sentinels in F.
    pose proof (lookup_seq_lt 0 n i Hi) as S. cbn in S.
    rewrite !(flat_map_lookup_one _ _ i i);
      try exact S; try (intros; apply (recorded_lengths parse_qs website c)).
    rewrite F. repeat split.
  - intros i Hi.
    apply (map_seq_lookup (fun i => load_time (nw_repetition nw i))), Hi.
Qed.

(** C8 (amended): the configuration entry of a site holds the stored
    [scans_number] of one of its rows minus 5, and that many repetitions,
    none when it is negative, are run with the tag and, when the no-tag
    trial runs to its return, without it; a no-tag trial that stops early
    has run no more. *)
Theorem repetitions_are_stored_scans_minus_5 res website c ww nw calls :
  get_configurations res !! website = Some c ->
  let configuration := Some (get_configurations res) in
  let n := Z.to_nat (scans_number c) in
  (exists row,
     In row res /\ website_page row = website /\
     scans_number c = row_scans_number row - 5 /\
     Z.of_nat n = Z.max 0 (row_scans_number row - 5)) /\
  repetitions_started
    (snd (test_load_time_with_tag parse_qs configuration ww website calls)) =
    (repetitions_started calls + n)%nat /\
  (repetitions_started
     (snd (test_load_time_without_tag configuration nw website calls)) <=
     repetitions_started calls + n)%nat /\
  (notag_completes nw n = true ->
   repetitions_started
     (snd (test_load_time_without_tag configuration nw website calls)) =
     (repetitions_started calls + n)%nat).
Proof.
  intros Hc configuration n. subst configuration.
  split; [|split; [|split]].
  - destruct (get_configurations_entry res website c Hc) as (row & I & P & _ & S).
    exists row. repeat split; auto. subst n. rewrite S. lia.
  - destruct (with_tag_trial parse_qs _ website c ww calls Hc) as (calls' & -> & K).
    cbn [snd]. rewrite K. unfold xrange. rewrite length_seq. reflexivity.
  - pose proof (without_tag_trial _ website c nw calls Hc) as N. cbv zeta in N.
    destruct (test_load_time_without_tag _ nw website calls)
      as [[[nt|]|e] calls']; cbn [snd]; [| |contradiction].
    + destruct N as (_ & _ & _ & ->). reflexivity.
    + apply N.
  - intros Hn.
    pose proof (without_tag_trial _ website c nw calls Hc) as N. cbv zeta in N.
    destruct (test_load_time_without_tag _ nw website calls)
      as [[[nt|]|e] calls']; cbn [snd]; [| |contradiction].
    + apply N.
    + destruct N as [N _]. fold n in N. congruence.
Qed.
End SiteVectors.

(** The amended C5 on the sample site: two repetitions with the tag, two
    without. *)
Lemma one_entry_per_repetition_witness :
  exists tm calls1 nt calls2,
    test_load_time_with_tag Sample.parse_qs (Some Sample.configuration)
      Sample.with_tag Sample.website [] = (Ok (Some tm), calls1) /\
    test_load_time_without_tag (Some Sample.configuration) Sample.without_tag
      Sample.website calls1 = (Ok (Some nt), calls2) /\
    (length (tm_with_tag tm) = 2%nat /\ length (tm_preload tm) = 2%nat /\
     length (tm_990 tm) = 2%nat /\ length (tm_layer tm) = 2%nat /\
     length (tm_unit tm) = 2%nat /\ length (tm_without_tag nt) = 2%nat) /\
    (forall i, (i < 2)%nat ->
       steps_fail Sample.parse_qs Sample.website Sample.site
         (ww_repetition Sample.with_tag i) = true ->
       tm_with_tag tm !! i = Some (VInt 100) /\
       tm_preload tm !! i = Some (VInt 100) /\
       tm_990 tm !! i = Some (VInt 100) /\
       tm_layer tm !! i = Some (VInt 100) /\
       tm_unit tm !! i = Some (ONone, VInt 0)) /\
    (forall i, (i < 2)%nat ->
       tm_without_tag nt !! i =
         Some (load_time (nw_repetition Sample.without_tag i))).
Proof.
  apply (one_entry_per_repetition Sample.parse_qs Sample.configuration
           Sample.website Sample.site Sample.with_tag Sample.without_tag []);
    vm_compute; reflexivity.
Defined.

(** C8 on the sample rows: 7 scans stored, 2 repetitions run. *)
Lemma repetitions_are_stored_scans_minus_5_witness :
  (exists row,
     In row Sample.rows /\ website_page row = Sample.website /\
     scans_number Sample.site = row_scans_number row - 5 /\
     Z.of_nat 2 = Z.max 0 (row_scans_number row - 5)) /\
  repetitions_started
    (snd (test_load_time_with_tag Sample.parse_qs
            (Some (get_configurations Sample.rows)) Sample.with_tag
            Sample.website [])) = 2%nat /\
  (repetitions_started
     (snd (test_load_time_without_tag (Some (get_configurations Sample.rows))
             Sample.without_tag Sample.website [])) <= 2)%nat /\
  (notag_completes Sample.without_tag 2 = true ->
   repetitions_started
     (snd (test_load_time_without_tag (Some (get_configurations Sample.rows))
             Sample.without_tag Sample.website [])) = 2%nat).
Proof.
  apply (repetitions_are_stored_scans_minus_5 Sample.parse_qs Sample.rows
           Sample.website Sample.site Sample.with_tag Sample.without_tag []).
  vm_compute. reflexivity.
Defined.

(** C8 (counterexample): a site stored with 3 scans is configured with -2
    and neither trial runs a repetition, so the number of repetitions run
    is not the stored number minus 5; and of the 2 repetitions of the
    sample site (7 stored), a no-tag trial whose first navigation fails
    runs 1. *)
Lemma three_stored_scans_run_no_repetition :
  scans_number <$> get_configurations FewScans.stored_rows !! Sample.website
    = Some (3 - 5) /\
  repetitions_started
    (snd (test_load_time_with_tag Sample.parse_qs
            (Some (get_configurations FewScans.stored_rows)) Sample.with_tag
            Sample.website [])) = 0%nat /\
  repetitions_started
    (snd (test_load_time_without_tag (Some (get_configurations FewScans.stored_rows))
            Sample.without_tag Sample.website [])) = 0%nat /\
  scans_number <$> get_configurations Sample.rows !! Sample.website
    = Some (7 - 5) /\
  test_load_time_without_tag (Some (get_configurations Sample.rows))
    FewScans.without_tag_aborting_at_once Sample.website []
    = (Ok None, [CallGet Sample.website; CallDeleteAllCookies;
                 CallPrepare false]) /\
  repetitions_started
    (snd (test_load_time_without_tag (Some (get_configurations Sample.rows))
            FewScans.without_tag_aborting_at_once Sample.website [])) = 1%nat.
Proof. vm_compute. repeat split. Qed.

(** ** The position of the tag *)

(** C6: whatever the configuration, the pages and the driver do, the no-tag
    trial never raises, and when it returns its measures rather than
    [None], the value under ['position'] is [True], or
    [(False, "Tag is located in <head>")], or
    [(False, "Tag is located in one of <body></body> children.")]; the
    [False] the dictionary is created with is never returned. *)
Theorem position_is_one_of_three configuration world website calls :
  match fst (test_load_time_without_tag configuration world website calls) with
  | Ok (Some tm) =>
      tm_position tm = PosBool true \/
      tm_position tm = PosPair false "Tag is located in <head>" \/
      tm_position tm =
        PosPair false "Tag is located in one of <body></body> children."
  | Ok None => True
  | Raise _ => False
  end.
Proof.
  destruct configuration as [cfg|]; [|exact I].
  destruct (cfg !! website) as [c|] eqn:Hc.
  - pose proof (without_tag_trial cfg website c world calls Hc) as N.
    cbv zeta in N.
    destruct (test_load_time_without_tag (Some cfg) world website calls)
      as [[[tm|]|e] calls']; cbn; [apply N|exact I|exact N].
  - unfold test_load_time_without_tag, catching,
      test_load_time_without_tag_body, configuration_getitem.
    rewrite Hc. exact I.
Qed.

(** ** Sums, means and maxima of vectors *)

Section Aggregates.
Local Open Scope Q_scope.

Lemma py_add_numeric a b :
  is_num a = true -> is_num b = true ->
  exists v, py_add a b = Ok v /\ is_num v = true /\ to_Q v == to_Q a + to_Q b.
Proof.
  destruct a, b; try discriminate; intros _ _; unfold py_add;
    eexists; (split; [reflexivity|]); (split; [reflexivity|]);
    cbn [to_Q]; try reflexivity.
  rewrite inject_Z_plus. reflexivity.
Qed.

Lemma sum_from_numeric l : forall acc,
  is_num acc = true -> numeric l ->
  exists v, sum_from acc l = Ok v /\ is_num v = true /\
            to_Q v == to_Q acc + total l.
Proof.
  induction l as [|x l IH]; intros acc Ha Hl; cbn.
  - exists acc. repeat split; auto. unfold total. cbn. lra.
  - inversion Hl as [|? ? Hx Hl']; subst.
    destruct (py_add_numeric acc x Ha Hx) as (a' & -> & Ha' & E).
    destruct (IH a' Ha' Hl') as (v & -> & Hv & E').
    exists v. repeat split; auto. rewrite E', E. unfold total. cbn. lra.
Qed.

Lemma floor_division_below x n :
  (0 < n)%Z -> inject_Z (x / n) <= inject_Z x / inject_Z n.
Proof.
  intros Hn. apply Qle_shift_div_l.
  - change 0 with (inject_Z 0). rewrite <- Zlt_Qlt. exact Hn.
  - rewrite <- inject_Z_mult, <- Zle_Qle. rewrite Z.mul_comm.
    apply Z.mul_div_le, Hn.
Qed.

(** [sum(l) / len(l)] on a non-empty vector of numbers is a number, at
    most their arithmetic mean: equal to it on a [float] sum, its floor on
    an [int] sum. *)
Lemma average_numeric l :
  l <> [] -> numeric l ->
  exists v, average l = Ok v /\ is_num v = true /\
            to_Q v <= arithmetic_mean l /\
            (forall q, v = VFloat q -> q == arithmetic_mean l).
Proof.
  intros Hne Hl. unfold average, py_sum, arithmetic_mean.
  destruct (sum_from_numeric l (VInt 0) eq_refl Hl) as (s & -> & Hs & E).
  cbn in E. rewrite Qplus_0_l in E.
  destruct l as [|x l']; [congruence|].
  set (n := length (x :: l')) in *.
  assert (0 < Z.of_nat n)%Z as Hn by (subst n; cbn; lia).
  destruct s as [|z|q]; [discriminate| |]; cbn in E |- *; subst n; cbn [length].
  - eexists. split; [reflexivity|]. split; [reflexivity|]. split.
    + cbn [to_Q]. rewrite <- E. apply floor_division_below, Hn.
    + discriminate.
  - eexists. split; [reflexivity|]. split; [reflexivity|]. split.
    + cbn [to_Q]. rewrite E. apply Qle_refl.
    + intros ? [= <-]. rewrite E. reflexivity.
Qed.

(** On unit entries, whose elapsed time is the [int] 0 or a [float], the
    sum is the [int] 0 only when every entry is, so the division is
    exact. *)
Lemma sum_from_unit_shape l : forall acc,
  unit_elapsed_shape acc = true ->
  Forall (fun v => unit_elapsed_shape v = true) l ->
  exists v, sum_from acc l = Ok v /\ unit_elapsed_shape v = true /\
            to_Q v == to_Q acc + total l.
Proof.
  induction l as [|x l IH]; intros acc Ha Hl; cbn.
  - exists acc. repeat split; auto. unfold total. cbn. lra.
  - inversion Hl as [|? ? Hx Hl']; subst.
    assert (exists a', py_add acc x = Ok a' /\ unit_elapsed_shape a' = true /\
                       to_Q a' == to_Q acc + to_Q x) as (a' & -> & Ha' & E).
    { destruct acc as [|[| |]|], x as [|[| |]|]; try discriminate; cbn;
        eexists; (split; [reflexivity|]); split; reflexivity. }
    destruct (IH a' Ha' Hl') as (v & -> & Hv & E').
    exists v. repeat split; auto. rewrite E', E. unfold total. cbn. lra.
Qed.

Lemma average_unit_exact l :
  l <> [] -> Forall (fun v => unit_elapsed_shape v = true) l ->
  exists v, average l = Ok v /\ is_num v = true /\ to_Q v == arithmetic_mean l.
Proof.
  intros Hne Hl. unfold average, py_sum, arithmetic_mean.
  destruct (sum_from_unit_shape l (VInt 0) eq_refl Hl) as (s & -> & Hs & E).
  cbn in E. rewrite Qplus_0_l in E.
  destruct l as [|x l']; [congruence|].
  destruct s as [|[| |]|q]; try discriminate; cbn in E |- *.
  - eexists. split; [reflexivity|]. split; [reflexivity|].
    cbn. rewrite <- E. reflexivity.
  - eexists. split; [reflexivity|]. split; [reflexivity|].
    cbn. rewrite E. reflexivity.
Qed.

Lemma py_ltb_numeric a b :
  is_num a = true -> is_num b = true ->
  py_ltb a b = negb (Qle_bool (to_Q b) (to_Q a)).
Proof. destruct a, b; try discriminate; reflexivity. Qed.

(** [max] by a numeric key returns an element of the list that no
    element exceeds. *)
Lemma max_from_numeric {A} (key : A -> pyval) l : forall best,
  Forall (fun x => is_num (key x) = true) (best :: l) ->
  let m := max_from key best l in
  In m (best :: l) /\
  forall x, In x (best :: l) -> to_Q (key x) <= to_Q (key m).
Proof.
  induction l as [|y l IH]; intros best H; cbn.
  - split; [auto|]. intros x [<-|[]]. apply Qle_refl.
  - inversion H as [|? ? Hb H']; subst. inversion H' as [|? ? Hy Hl]; subst.
    rewrite (py_ltb_numeric _ _ Hb Hy).
    destruct (Qle_bool (to_Q (key y)) (to_Q (key best))) eqn:C; cbn.
    + apply Qle_bool_iff in C.
      destruct (IH best ltac:(constructor; assumption)) as [I M]. split.
      * destruct I as [<-|I]; auto.
      * intros x [<-|[<-|Hx]]; [apply M; left; reflexivity | | apply M; right; exact Hx].
        eapply Qle_trans; [exact C|]. apply M. left. reflexivity.
    + assert (to_Q (key best) <= to_Q (key y)) as C'.
      { destruct (Qlt_le_dec (to_Q (key best)) (to_Q (key y))) as [L|L].
        - apply Qlt_le_weak, L.
        - apply Qle_bool_iff in L. congruence. }
      destruct (IH y ltac:(constructor; assumption)) as [I M]. split.
      * destruct I as [<-|I]; auto.
      * intros x [<-|[<-|Hx]]; [ | apply M; left; reflexivity | apply M; right; exact Hx].
        eapply Qle_trans; [exact C'|]. apply M. left. reflexivity.
Qed.

Lemma py_max_by_numeric {A} (key : A -> pyval) l :
  l <> [] -> Forall (fun x => is_num (key x) = true) l ->
  exists m, py_max_by key l = Ok m /\ In m l /\
            forall x, In x l -> to_Q (key x) <= to_Q (key m).
Proof.
  intros Hne H. destruct l as [|x l]; [congruence|].
  exists (max_from key x l). split; [reflexivity|].
  apply max_from_numeric, H.
Qed.

(** The arithmetic mean does not exceed a bound on the entries. *)
Lemma arithmetic_mean_bounded l bound :
  l <> [] -> (forall x, In x l -> to_Q x <= bound) ->
  arithmetic_mean l <= bound.
Proof.
  intros Hne H. unfold arithmetic_mean.
  assert (total l <= bound * inject_Z (Z.of_nat (length l))) as T.
  { clear Hne. induction l as [|x l IH].
    - unfold total. cbn. change (inject_Z (Z.of_nat 0)) with 0. lra.
    - unfold total in *. cbn [List.map fold_right length].
      rewrite Nat2Z.inj_succ, <- Z.add_1_r, inject_Z_plus.
      specialize (H x (or_introl eq_refl)) as Hx.
      specialize (IH (fun y Hy => H y (or_intror Hy))).
      change (inject_Z 1) with 1. lra. }
  apply Qle_shift_div_r; [|exact T].
  change 0 with (inject_Z 0). rewrite <- Zlt_Qlt.
  destruct l; [congruence|cbn; lia].
Qed.

(** Mean and maximum of a non-empty vector of numbers, as
    [calculate_results] computes them. *)
Lemma average_le_max l :
  l <> [] -> numeric l ->
  exists mean mx,
    average l = Ok mean /\ py_max l = Ok mx /\
    is_num mean = true /\ is_num mx = true /\ In mx l /\
    to_Q mean <= to_Q mx /\ py_leb mean mx = true.
Proof.
  intros Hne Hl.
  destruct (average_numeric l Hne Hl) as (mean & Ea & Hm & Le & _).
  destruct (py_max_by_numeric (fun v => v) l Hne Hl) as (mx & Em & I & M).
  assert (is_num mx = true) as Hx.
  { unfold numeric in Hl. rewrite Forall_forall in Hl. apply Hl.
    apply list_elem_of_In, I. }
  assert (to_Q mean <= to_Q mx) as L.
  { eapply Qle_trans; [exact Le|]. apply arithmetic_mean_bounded; assumption. }
  exists mean, mx. repeat split; auto.
  unfold py_leb. rewrite (py_ltb_numeric _ _ Hx Hm), negb_involutive.
  apply Qle_bool_iff, L.
Qed.
End Aggregates.

(** ** [calculate_results] on measured sites *)

(** The site's dictionary after the twelve assignments. *)
Lemma calculate_site_measured d :
  measured_site d ->
  exists awt awo mwt mwo ap al a9 au mp ml m9 mu,
    average (sr_with_tag d) = Ok awt /\
    average (sr_without_tag d) = Ok awo /\
    py_max (sr_with_tag d) = Ok mwt /\
    py_max (sr_without_tag d) = Ok mwo /\
    average (sr_preload d) = Ok ap /\
    average (sr_layer d) = Ok al /\
    average (sr_990 d) = Ok a9 /\
    average (List.map snd (sr_unit d)) = Ok au /\
    py_max (sr_preload d) = Ok mp /\
    py_max (sr_layer d) = Ok ml /\
    py_max (sr_990 d) = Ok m9 /\
    py_max_by snd (sr_unit d) = Ok mu /\
    calculate_site d =
      (Ok tt,
       set_stat "max_unit" (StatUnit mu)
         (set_stat "max_990" (StatNumber m9)
            (set_stat "max_layer" (StatNumber ml)
               (set_stat "max_preload" (StatNumber mp)
                  (set_stat "average_unit"
                     (StatAverageUnit (found_units (sr_unit d)) au)
                     (set_stat "average_990" (StatNumber a9)
                        (set_stat "average_layer" (StatNumber al)
                           (set_stat "average_preload" (StatNumber ap)
                              (set_stat "max_without_tag" (StatNumber mwo)
                                 (set_stat "max_with_tag" (StatNumber mwt)
                                    (set_stat "average_without_tag" (StatNumber awo)
                                       (set_stat "average_with_tag"
                                          (StatNumber awt) d)))))))))))).
Proof.
  intros [[N1 V1] [N2 V2] [N3 V3] [N4 V4] [N5 V5] [N6 V6]].
  destruct (average_le_max _ N1 V1) as (awt & mwt & E1 & E2 & _).
  destruct (average_le_max _ N2 V2) as (awo & mwo & E3 & E4 & _).
  destruct (average_le_max _ N3 V3) as (ap & mp & E5 & E6 & _).
  destruct (average_le_max _ N4 V4) as (al & ml & E7 & E8 & _).
  destruct (average_le_max _ N5 V5) as (a9 & m9 & E9 & E10 & _).
  assert (List.map snd (sr_unit d) <> []) as N6'
    by (destruct (sr_unit d); [congruence|discriminate]).
  assert (Forall (fun v => unit_elapsed_shape v = true) (List.map snd (sr_unit d)))
    as V6' by (apply Forall_map; exact V6).
  destruct (average_unit_exact _ N6' V6') as (au & E11 & _).
  assert (exists mu, py_max_by snd (sr_unit d) = Ok mu) as (mu & E12)
    by (destruct (sr_unit d); [congruence|eexists; reflexivity]).
  exists awt, awo, mwt, mwo, ap, al, a9, au, mp, ml, m9, mu.
  repeat (split; [assumption|]).
  unfold calculate_site. eff_unfold.
  rewrite E1, E3, E2, E4, E5, E7, E9, E11, E6, E8, E10, E12. reflexivity.
Qed.

(** The loop of [calculate_results] over distinct sites, all measured:
    each is replaced by its dictionary after [calculate_site]. *)
Lemma calculate_loop l : forall results : gmap string (option site_result),
  NoDup l ->
  (forall website, website ∈ l ->
     exists d, results !! website = Some (Some d) /\ measured_site d) ->
  exists results',
    Eff.for_each l (fun website => on_site website calculate_site) results
      = (Ok tt, results') /\
    forall website,
      results' !! website =
        if decide (website ∈ l)
        then (fun entry => match entry with
                           | Some d => Some (snd (calculate_site d))
                           | None => None
                           end) <$> results !! website
        else results !! website.
Proof.
  induction l as [|w l IH]; intros results ND H; cbn [Eff.for_each].
  - exists results. split; [reflexivity|]. intros website.
    destruct (decide (website ∈ [])) as [I|_]; [|reflexivity].
    apply not_elem_of_nil in I. contradiction.
  - apply NoDup_cons in ND as [Hw ND].
    destruct (H w) as (d & Ed & Md); [left|].
    destruct (calculate_site_measured d Md)
      as (? & ? & ? & ? & ? & ? & ? & ? & ? & ? & ? & ? & _ & _ & _ & _ & _ & _
          & _ & _ & _ & _ & _ & _ & Ec).
    unfold Eff.bind, on_site at 1. rewrite Ed, Ec.
    match goal with
    | |- context [Eff.for_each l _ ?R] => destruct (IH R ND) as (results' & E & L)
    end.
    { intros k Hk. destruct (H k) as (dk & Ek & Mk); [right; exact Hk|].
      exists dk. split; [|exact Mk].
      rewrite lookup_insert_ne; [exact Ek|]. intros ->. contradiction. }
    exists results'. split; [exact E|]. intros k. rewrite L.
    destruct (decide (k = w)) as [->|Hk].
    + destruct (decide (w ∈ l)) as [|_]; [contradiction|].
      destruct (decide (w ∈ w :: l)) as [_|N]; [|exfalso; apply N; left].
      rewrite lookup_insert_eq, Ed. cbv [fmap option_fmap option_map].
      rewrite Ec. reflexivity.
    + rewrite lookup_insert_ne by congruence.
      destruct (decide (k ∈ l)) as [I|I], (decide (k ∈ w :: l)) as [I'|I'];
        try reflexivity.
      * exfalso. apply I'. right. exact I.
      * exfalso. apply elem_of_cons in I' as [->|I']; contradiction.
Qed.

Lemma dict_keys_spec {V} (m : gmap string V) :
  NoDup (dict_keys m) /\ forall k, k ∈ dict_keys m <-> is_Some (m !! k).
Proof.
  unfold dict_keys. split; [apply NoDup_fst_map_to_list|].
  intros k. rewrite list_elem_of_fmap. split.
  - intros ([k' v] & -> & I). apply elem_of_map_to_list in I. cbn. eauto.
  - intros [v I]. exists (k, v). split; [reflexivity|].
    apply elem_of_map_to_list, I.
Qed.

(** On a dictionary of measured sites [calculate_results] runs through, and
    leaves under each site its dictionary after [calculate_site]. *)
Lemma calculate_results_measured results :
  all_measured results ->
  exists results',
    calculate_results results = (Ok (Some tt), results') /\
    forall website d,
      results !! website = Some (Some d) ->
      results' !! website = Some (Some (snd (calculate_site d))).
Proof.
  intros H. destruct (dict_keys_spec results) as [ND K].
  destruct (calculate_loop (dict_keys results) results ND) as (results' & E & L).
  { intros w Hw. apply K in Hw as [e He].
    destruct (H w e He) as (d & -> & Md). eauto. }
  exists results'. split.
  - unfold calculate_results, catching, calculate_results_body, Eff.bind, Eff.get.
    rewrite E. reflexivity.
  - intros w d Hd. rewrite L, Hd.
    destruct (decide (w ∈ dict_keys results)) as [_|N]; [reflexivity|].
    exfalso. apply N, K. eauto.
Qed.

(** ** The aggregates of a site *)

Ltac stat_lookup :=
  cbn [sr_stats set_stat];
  repeat (rewrite lookup_insert_ne by discriminate);
  apply lookup_insert_eq.

Lemma unit_elapsed_numeric v : unit_elapsed_shape v = true -> is_num v = true.
Proof. destruct v as [|[| |]|]; auto. Qed.



(** ** The mean and the maximum in binary64 *)

Lemma floor_division_above x n :
  (0 < n)%Z -> (inject_Z x / inject_Z n < inject_Z (x / n) + 1)%Q.
Proof.
  intros Hn. apply Qlt_shift_div_r.
  - change 0%Q with (inject_Z 0). rewrite <- Zlt_Qlt. exact Hn.
  - change 1%Q with (inject_Z 1).
    rewrite <- inject_Z_plus, <- inject_Z_mult, <- Zlt_Qlt.
    pose proof (Z.mul_succ_div_gt x n Hn). lia.
Qed.

Lemma py_leb_numeric a b :
  is_num a = true -> is_num b = true ->
  (py_leb a b = true <-> (to_Q a <= to_Q b)%Q).
Proof.
  intros Ha Hb. unfold py_leb.
  rewrite (py_ltb_numeric _ _ Hb Ha), negb_involutive. apply Qle_bool_iff.
Qed.

Section RoundedAggregates.
Variable round : Q -> Q.
Hypothesis round_monotone : forall x y, (x <= y)%Q -> (round x <= round y)%Q.
Local Open Scope Q_scope.

Lemma round_proper x y : x == y -> round x == round y.
Proof.
  intros E. apply Qle_antisym; apply round_monotone; rewrite E; apply Qle_refl.
Qed.

Lemma representable_proper x y :
  x == y -> representable round x -> representable round y.
Proof.
  unfold representable. intros E H. rewrite <- (round_proper x y E), H. exact E.
Qed.

(** Adding two numbers whose sum is a binary64 number rounds nothing. *)
Lemma rounded_add_exact a b :
  is_num a = true -> is_num b = true ->
  representable round (to_Q a) -> representable round (to_Q b) ->
  representable round (to_Q a + to_Q b) ->
  exists v, rounded_add round a b = Ok v /\ is_num v = true /\
            to_Q v == to_Q a + to_Q b.
Proof.
  unfold representable.
  destruct a as [|x|x], b as [|y|y]; try discriminate; intros _ _ Ra Rb Rs;
    cbn [to_Q] in *; unfold rounded_add;
    eexists; (split; [reflexivity|]); (split; [reflexivity|]); cbn [to_Q].
  - rewrite inject_Z_plus. reflexivity.
  - rewrite (round_proper _ (inject_Z x + y)); [exact Rs|]. rewrite Ra. reflexivity.
  - rewrite (round_proper _ (x + inject_Z y)); [exact Rs|]. rewrite Rb. reflexivity.
  - exact Rs.
Qed.

Lemma total_nil : total [] == 0.
Proof. reflexivity. Qed.

Lemma total_cons x l : total (x :: l) == to_Q x + total l.
Proof. unfold total. cbn. reflexivity. Qed.

(** A summation in which every running sum is a binary64 number gives the
    exact sum. *)
Lemma rounded_sum_from_exact l : forall acc,
  is_num acc = true -> numeric l ->
  Forall (fun v => representable round (to_Q v)) l ->
  (forall k, representable round (to_Q acc + total (firstn k l))) ->
  exists v, rounded_sum_from round acc l = Ok v /\ is_num v = true /\
            to_Q v == to_Q acc + total l.
Proof.
  induction l as [|x l IH]; intros acc Ha Hl Rl Rk; cbn [rounded_sum_from].
  - exists acc. repeat split; auto. rewrite total_nil, Qplus_0_r. reflexivity.
  - inversion Hl as [|? ? Hx Hl']; subst. inversion Rl as [|? ? Rx Rl']; subst.
    assert (representable round (to_Q acc)) as Racc.
    { apply (representable_proper (to_Q acc + total (firstn 0 (x :: l)))); [|apply Rk].
      cbn [firstn]. rewrite total_nil, Qplus_0_r. reflexivity. }
    assert (representable round (to_Q acc + to_Q x)) as Rs.
    { apply (representable_proper (to_Q acc + total (firstn 1 (x :: l)))); [|apply Rk].
      cbn [firstn]. rewrite total_cons, total_nil, Qplus_0_r. reflexivity. }
    destruct (rounded_add_exact acc x Ha Hx Racc Rx Rs) as (a' & -> & Ha' & E).
    destruct (IH a' Ha' Hl' Rl') as (v & -> & Hv & E').
    { intros k.
      apply (representable_proper (to_Q acc + total (firstn (S k) (x :: l))));
        [|apply Rk].
      cbn [firstn]. rewrite total_cons, E. apply Qplus_assoc. }
    exists v. repeat split; auto. rewrite E', E, total_cons.
    symmetry. apply Qplus_assoc.
Qed.

Lemma summed_exactly_prefixes l k :
  summed_exactly round l -> representable round (total (firstn k l)).
Proof.
  intros (_ & _ & H). rewrite Forall_forall in H.
  destruct (le_lt_dec k (length l)) as [L|L].
  - apply H. apply list_elem_of_In, in_seq. lia.
  - rewrite firstn_all2 by lia. rewrite <- (firstn_all l) at 1.
    apply H. apply list_elem_of_In, in_seq. lia.
Qed.

(** The mean of a vector summed without rounding is not above its maximum:
    the exact mean is not, the maximum is a binary64 number, and rounding
    is monotone. *)
Lemma rounded_average_below_max l :
  l <> [] -> numeric l -> summed_exactly round l ->
  exists mean mx,
    rounded_average round l = Ok mean /\ py_max l = Ok mx /\
    mean_of_vector round l mean /\ In mx l /\
    (forall v, In v l -> py_leb v mx = true) /\
    py_leb mean mx = true.
Proof.
  intros Hne Hl Hs.
  destruct (py_max_by_numeric (fun v => v) l Hne Hl) as (mx & Em & I & M).
  assert (forall v, In v l -> is_num v = true) as Num.
  { intros v Hv. unfold numeric in Hl. rewrite Forall_forall in Hl.
    apply Hl, list_elem_of_In, Hv. }
  assert (forall v, In v l -> representable round (to_Q v)) as Rep.
  { intros v Hv. destruct Hs as (R & _). rewrite Forall_forall in R.
    apply R, list_elem_of_In, Hv. }
  pose proof (arithmetic_mean_bounded l (to_Q mx) Hne M) as B.
  destruct (rounded_sum_from_exact l (VInt 0) eq_refl Hl (proj1 Hs))
    as (s & Es & Ns & E).
  { intros k. apply (representable_proper (total (firstn k l)));
      [|apply summed_exactly_prefixes, Hs].
    cbn [to_Q]. change (inject_Z 0) with 0. rewrite Qplus_0_l. reflexivity. }
  cbn [to_Q] in E. rewrite Qplus_0_l in E.
  assert (0 < Z.of_nat (length l))%Z as Hn by (destruct l; [congruence|cbn [length]; lia]).
  unfold rounded_average, rounded_sum. rewrite Es.
  assert (exists mean,
            rounded_div_len round s (length l) = Ok mean /\
            mean_of_vector round l mean /\ is_num mean = true /\
            to_Q mean <= to_Q mx) as (mean & Ed & Hv & Nm & Le).
  { unfold arithmetic_mean in *. destruct Hs as (_ & Rn & _).
    unfold representable in Rn.
    destruct l as [|x l']; [congruence|]. set (l := x :: l') in *.
    unfold rounded_div_len. change (length l) with (S (length l')) at 1 2.
    destruct s as [|z|q]; [discriminate| |]; cbn [to_Q] in E.
    - eexists. split; [reflexivity|]. cbn [mean_of_vector to_Q].
      change (S (length l')) with (length l). unfold arithmetic_mean.
      rewrite <- E. repeat split.
      + apply floor_division_below, Hn.
      + apply floor_division_above, Hn.
      + eapply Qle_trans; [|exact B]. rewrite <- E.
        apply floor_division_below, Hn.
    - assert (q / round (inject_Z (Z.of_nat (length l)))
              == total l / inject_Z (Z.of_nat (length l))) as Eq
        by (rewrite Rn, E; reflexivity).
      eexists. split; [reflexivity|]. cbn [mean_of_vector to_Q].
      change (S (length l')) with (length l). unfold arithmetic_mean.
      repeat split.
      + apply round_proper, Eq.
      + eapply Qle_trans; [apply round_monotone; rewrite Eq; exact B|].
        pose proof (Rep mx I) as Rx. unfold representable in Rx.
        rewrite Rx. apply Qle_refl. }
  exists mean, mx. rewrite Ed. repeat split; auto.
  - intros v Iv. apply py_leb_numeric; auto.
  - apply py_leb_numeric; auto.
Qed.
End RoundedAggregates.

(** ** Rounding to binary64 is monotone *)

Section NearestEven.
Local Open Scope Z_scope.

(** The nearest integer is within one half, and even where it is exactly
    one half away. *)
Lemma nearest_even_spec a c :
  0 <= a -> 0 < c ->
  let m := nearest_even a c in
  a / c <= m <= a / c + 1 /\
  (2 * m - 1) * c <= 2 * a <= (2 * m + 1) * c /\
  (2 * a = (2 * m - 1) * c \/ 2 * a = (2 * m + 1) * c -> Z.even m = true).
Proof.
  intros Ha Hc m. subst m. unfold nearest_even.
  pose proof (Z.div_mod a c ltac:(lia)) as D.
  pose proof (Z.mod_pos_bound a c Hc) as B.
  set (q := a / c) in *. set (r := a mod c) in *.
  destruct (Z.compare_spec (2 * r) c) as [E|L|G].
  - destruct (Z.even q) eqn:P.
    + split; [lia|]. split; [nia|]. auto.
    + split; [lia|]. split; [nia|]. intros _.
      rewrite Z.even_add, P. reflexivity.
  - split; [lia|]. split; [nia|]. intros [E|E]; nia.
  - split; [lia|]. split; [nia|]. intros [E|E]; nia.
Qed.

Lemma nearest_even_monotone a c a' c' :
  0 <= a -> 0 < c -> 0 <= a' -> 0 < c' ->
  a * c' <= a' * c ->
  nearest_even a c <= nearest_even a' c'.
Proof.
  intros Ha Hc Ha' Hc' L.
  destruct (nearest_even_spec a c Ha Hc) as (_ & [Lo _] & Ev).
  destruct (nearest_even_spec a' c' Ha' Hc') as (_ & [_ Hi'] & Ev').
  set (m := nearest_even a c) in *. set (m' := nearest_even a' c') in *.
  destruct (Z_le_gt_dec m m') as [|G]; [assumption|exfalso].
  assert ((2 * m - 1) * (c * c') <= (2 * m' + 1) * (c * c')) as C.
  { transitivity (2 * a * c'); [nia|]. transitivity (2 * a' * c); nia. }
  assert (m = m' + 1) as Em by nia.
  assert (2 * a = (2 * m - 1) * c) as E by nia.
  assert (2 * a' = (2 * m' + 1) * c') as E' by nia.
  specialize (Ev (or_introl E)). specialize (Ev' (or_intror E')).
  rewrite Em, Z.even_add, Ev' in Ev. discriminate.
Qed.

Lemma floor_monotone a c a' c' :
  0 < c -> 0 < c' -> a * c' <= a' * c -> a / c <= a' / c'.
Proof.
  intros Hc Hc' L. apply Z.div_le_lower_bound; [exact Hc'|].
  pose proof (Z.mul_div_le a c Hc). nia.
Qed.

(** The exponent of the grid on which [a / b] is rounded, and the
    binade it puts [a / b] in. *)
Lemma grid_exponent a b :
  0 <= a -> 0 < b ->
  let e := Z.max 0 (Z.log2 (a / b) - 52) in
  0 <= e /\ a < b * 2 ^ (53 + e) /\ (0 < e -> b * 2 ^ (52 + e) <= a).
Proof.
  intros Ha Hb e.
  assert (0 <= a / b) as Hn by (apply Z.div_pos; lia).
  pose proof (Z.log2_nonneg (a / b)) as Hl.
  assert (a / b < 2 ^ (53 + e)) as Up.
  { destruct (Z.eq_dec (a / b) 0) as [->|Nz].
    - apply Z.pow_pos_nonneg; lia.
    - pose proof (Z.log2_spec (a / b) ltac:(lia)) as [_ U].
      eapply Z.lt_le_trans; [exact U|].
      apply Z.pow_le_mono_r; lia. }
  split; [lia|]. split.
  - pose proof (Z.pow_pos_nonneg 2 (53 + e) ltac:(lia) ltac:(lia)).
    pose proof (Z.div_mod a b ltac:(lia)).
    pose proof (Z.mod_pos_bound a b Hb). nia.
  - intros He. assert (e = Z.log2 (a / b) - 52) as Ee by lia.
    assert (0 < a / b) as Pos.
    { destruct (Z.eq_dec (a / b) 0) as [E0|]; [|lia].
      rewrite E0 in Ee. cbn in Ee. lia. }
    pose proof (Z.log2_spec (a / b) Pos) as [Lo _].
    replace (52 + e) with (Z.log2 (a / b)) by lia.
    pose proof (Z.mul_div_le a b Hb).
    pose proof (Z.pow_pos_nonneg 2 (Z.log2 (a / b)) ltac:(lia) Hl). nia.
Qed.

(** What is rounded lies in the binade of its grid. *)
Lemma round_scaled_bounds a b :
  0 <= a -> 0 < b ->
  let e := Z.max 0 (Z.log2 (a / b) - 52) in
  0 <= round_scaled a b <= 2 ^ (53 + e) /\
  (0 < e -> 2 ^ (52 + e) <= round_scaled a b).
Proof.
  intros Ha Hb e. unfold round_scaled. fold e.
  destruct (grid_exponent a b Ha Hb) as (He & Up & Lo). fold e in He, Up, Lo.
  pose proof (Z.pow_pos_nonneg 2 e ltac:(lia) He) as Pe.
  assert (0 < b * 2 ^ e) as Hc by nia.
  destruct (nearest_even_spec a (b * 2 ^ e) Ha Hc) as ([Q1 Q2] & _ & _).
  set (m := nearest_even a (b * 2 ^ e)) in *.
  assert (0 <= a / (b * 2 ^ e)) as Hq by (apply Z.div_pos; lia).
  rewrite !Z.pow_add_r by lia.
  split; [split; [nia|]|].
  - assert (a / (b * 2 ^ e) < 2 ^ 53) as Q.
    { apply Z.div_lt_upper_bound; [exact Hc|].
      rewrite Z.pow_add_r in Up by lia. nia. }
    nia.
  - intros P. specialize (Lo P). rewrite Z.pow_add_r in Lo by lia.
    assert (2 ^ 52 <= a / (b * 2 ^ e)) as Q.
    { apply Z.div_le_lower_bound; [exact Hc|]. nia. }
    nia.
Qed.

Lemma round_scaled_monotone a b a' b' :
  0 <= a -> 0 < b -> 0 <= a' -> 0 < b' ->
  a * b' <= a' * b ->
  round_scaled a b <= round_scaled a' b'.
Proof.
  intros Ha Hb Ha' Hb' L.
  pose proof (floor_monotone a b a' b' Hb Hb' L) as F.
  pose proof (Z.log2_le_mono _ _ F) as Lg.
  destruct (round_scaled_bounds a b Ha Hb) as ([_ Up] & _).
  destruct (round_scaled_bounds a' b' Ha' Hb') as (_ & Lo').
  set (e := Z.max 0 (Z.log2 (a / b) - 52)) in *.
  set (e' := Z.max 0 (Z.log2 (a' / b') - 52)) in *.
  assert (0 <= e <= e') as [He Le] by lia.
  destruct (Z.eq_dec e e') as [E|N].
  - unfold round_scaled. fold e e'. rewrite <- E.
    pose proof (Z.pow_pos_nonneg 2 e ltac:(lia) He) as Pe.
    apply Z.mul_le_mono_nonneg_r; [lia|].
    apply nearest_even_monotone; nia.
  - transitivity (2 ^ (53 + e)); [exact Up|].
    transitivity (2 ^ (52 + e')); [|apply Lo'; lia].
    apply Z.pow_le_mono_r; lia.
Qed.
End NearestEven.

Section RoundBinary64.
Local Open Scope Q_scope.

Lemma round_magnitude_nonneg x : 0 <= x -> 0 <= round_magnitude x.
Proof.
  intros Hx. unfold round_magnitude. rewrite Qred_correct.
  unfold Qle in *. cbn in *. rewrite Z.mul_1_r in *.
  apply (round_scaled_bounds (Qnum x * 2 ^ 1074) (Zpos (Qden x))); lia.
Qed.

Lemma round_magnitude_monotone x y :
  0 <= x -> x <= y -> round_magnitude x <= round_magnitude y.
Proof.
  intros Hx L. assert (0 <= y) as Hy by (eapply Qle_trans; eassumption).
  unfold round_magnitude. rewrite !Qred_correct.
  unfold Qle in *. cbn [Qnum Qden] in *. rewrite Z.mul_1_r in *.
  apply Z.mul_le_mono_nonneg_r; [lia|].
  apply round_scaled_monotone; lia.
Qed.

(** Rounding to the nearest binary64 number preserves the order. *)
Lemma round_binary64_monotone x y :
  x <= y -> round_binary64 x <= round_binary64 y.
Proof.
  intros L. unfold round_binary64.
  destruct (Qle_bool 0 x) eqn:Px, (Qle_bool 0 y) eqn:Py.
  - apply Qle_bool_iff in Px. apply round_magnitude_monotone; assumption.
  - apply Qle_bool_iff in Px.
    assert (0 <= y) as Hy by (eapply Qle_trans; eassumption).
    apply Qle_bool_iff in Hy. congruence.
  - apply Qle_bool_iff in Py.
    assert (0 <= - x) as Hx.
    { destruct (Qlt_le_dec x 0) as [N|N].
      - apply (Qopp_le_compat x 0), Qlt_le_weak, N.
      - apply Qle_bool_iff in N. congruence. }
    apply Qle_trans with 0; [|apply round_magnitude_nonneg, Py].
    apply (Qopp_le_compat 0 (round_magnitude (- x))).
    apply round_magnitude_nonneg, Hx.
  - assert (0 <= - y) as Hy.
    { destruct (Qlt_le_dec y 0) as [N|N].
      - apply (Qopp_le_compat y 0), Qlt_le_weak, N.
      - apply Qle_bool_iff in N. congruence. }
    apply Qopp_le_compat. apply round_magnitude_monotone; [exact Hy|].
    apply Qopp_le_compat, L.
Qed.
End RoundBinary64.

(** Rounding on some numbers: [1/10] goes to the number written [0.1]; an
    integer halfway between two binary64 numbers goes to the one with the
    even significand; half the smallest positive number goes to zero. *)
Example round_binary64_samples :
  (round_binary64 (1 # 10) == one_tenth)%Q /\
  (round_binary64 (inject_Z (2 ^ 53 + 1)) == inject_Z (2 ^ 53))%Q /\
  (round_binary64 (inject_Z (2 ^ 53 + 3)) == inject_Z (2 ^ 53 + 4))%Q /\
  (round_binary64 (- inject_Z (2 ^ 53 + 3)) == - inject_Z (2 ^ 53 + 4))%Q /\
  (round_binary64 (Qmake 1 (2 ^ 1075)) == 0)%Q /\
  (round_binary64 (Qmake 3 (2 ^ 1075)) == Qmake 1 (2 ^ 1073))%Q.
Proof. repeat split; vm_compute; reflexivity. Qed.

(** ** [calculate_results] in binary64 *)

Section CalculateResultsWithProperties.
Variable mean_of : list pyval -> result pyval.

(** A site whose six means and six maxima can be computed. *)
Lemma calculate_site_with_runs d awt awo mwt mwo ap al a9 au mp ml m9 mu :
  mean_of (sr_with_tag d) = Ok awt ->
  mean_of (sr_without_tag d) = Ok awo ->
  py_max (sr_with_tag d) = Ok mwt ->
  py_max (sr_without_tag d) = Ok mwo ->
  mean_of (sr_preload d) = Ok ap ->
  mean_of (sr_layer d) = Ok al ->
  mean_of (sr_990 d) = Ok a9 ->
  mean_of (List.map snd (sr_unit d)) = Ok au ->
  py_max (sr_preload d) = Ok mp ->
  py_max (sr_layer d) = Ok ml ->
  py_max (sr_990 d) = Ok m9 ->
  py_max_by snd (sr_unit d) = Ok mu ->
  calculate_site_with mean_of d =
    (Ok tt,
     set_stat "max_unit" (StatUnit mu)
       (set_stat "max_990" (StatNumber m9)
          (set_stat "max_layer" (StatNumber ml)
             (set_stat "max_preload" (StatNumber mp)
                (set_stat "average_unit"
                   (StatAverageUnit (found_units (sr_unit d)) au)
                   (set_stat "average_990" (StatNumber a9)
                      (set_stat "average_layer" (StatNumber al)
                         (set_stat "average_preload" (StatNumber ap)
                            (set_stat "max_without_tag" (StatNumber mwo)
                               (set_stat "max_with_tag" (StatNumber mwt)
                                  (set_stat "average_without_tag" (StatNumber awo)
                                     (set_stat "average_with_tag"
                                        (StatNumber awt) d)))))))))))).
Proof.
  intros E1 E2 E3 E4 E5 E6 E7 E8 E9 E10 E11 E12.
  unfold calculate_site_with. eff_unfold.
  rewrite E1, E2, E3, E4, E5, E6, E7, E8, E9, E10, E11, E12. reflexivity.
Qed.

(** The loop over distinct sites on each of which the twelve assignments
    run through. *)
Lemma calculate_loop_with l : forall results : gmap string (option site_result),
  NoDup l ->
  (forall website, website ∈ l ->
     exists d, results !! website = Some (Some d) /\
               fst (calculate_site_with mean_of d) = Ok tt) ->
  exists results',
    Eff.for_each l (fun website => on_site website (calculate_site_with mean_of))
      results = (Ok tt, results') /\
    forall website,
      results' !! website =
        if decide (website ∈ l)
        then (fun entry => match entry with
                           | Some d => Some (snd (calculate_site_with mean_of d))
                           | None => None
                           end) <$> results !! website
        else results !! website.
Proof.
  induction l as [|w l IH]; intros results ND H; cbn [Eff.for_each].
  - exists results. split; [reflexivity|]. intros website.
    destruct (decide (website ∈ [])) as [I|_]; [|reflexivity].
    apply not_elem_of_nil in I. contradiction.
  - apply NoDup_cons in ND as [Hw ND].
    destruct (H w) as (d & Ed & Rd); [left|].
    unfold Eff.bind, on_site at 1. rewrite Ed.
    destruct (calculate_site_with mean_of d) as [r d'] eqn:Ec.
    cbn in Rd. subst r.
    match goal with
    | |- context [Eff.for_each l _ ?R] => destruct (IH R ND) as (results' & E & L)
    end.
    { intros k Hk. destruct (H k) as (dk & Ek & Rk); [right; exact Hk|].
      exists dk. split; [|exact Rk].
      rewrite lookup_insert_ne; [exact Ek|]. intros ->. contradiction. }
    exists results'. split; [exact E|]. intros k. rewrite L.
    destruct (decide (k = w)) as [->|Hk].
    + destruct (decide (w ∈ l)) as [|_]; [contradiction|].
      destruct (decide (w ∈ w :: l)) as [_|N]; [|exfalso; apply N; left].
      rewrite lookup_insert_eq, Ed. cbv [fmap option_fmap option_map].
      rewrite Ec. reflexivity.
    + rewrite lookup_insert_ne by congruence.
      destruct (decide (k ∈ l)) as [I|I], (decide (k ∈ w :: l)) as [I'|I'];
        try reflexivity.
      * exfalso. apply I'. right. exact I.
      * exfalso. apply elem_of_cons in I' as [->|I']; contradiction.
Qed.

Lemma calculate_results_with_runs results :
  (forall website entry,
     results !! website = Some entry ->
     exists d, entry = Some d /\ fst (calculate_site_with mean_of d) = Ok tt) ->
  exists results',
    calculate_results_with mean_of results = (Ok (Some tt), results') /\
    forall website d,
      results !! website = Some (Some d) ->
      results' !! website = Some (Some (snd (calculate_site_with mean_of d))).
Proof.
  intros H. destruct (dict_keys_spec results) as [ND K].
  destruct (calculate_loop_with (dict_keys results) results ND) as (results' & E & L).
  { intros w Hw. apply K in Hw as [e He].
    destruct (H w e He) as (d & -> & Rd). eauto. }
  exists results'. split.
  - unfold calculate_results_with, catching, Eff.bind, Eff.get.
    rewrite E. reflexivity.
  - intros w d Hd. rewrite L, Hd.
    destruct (decide (w ∈ dict_keys results)) as [_|N]; [reflexivity|].
    exfalso. apply N, K. eauto.
Qed.
End CalculateResultsWithProperties.

(** With exact arithmetic in place of the rounded one, this is the
    [calculate_results] of the sections above. *)
Lemma calculate_results_with_exact_mean :
  calculate_results_with average = calculate_results.
Proof. reflexivity. Qed.

Section MeanAndMax.
Variable round : Q -> Q.
Hypothesis round_monotone : forall x y, (x <= y)%Q -> (round x <= round y)%Q.

(** The aggregates of a measured site whose vectors are summed without
    rounding. *)
Lemma site_mean_below_max d :
  measured_site d -> site_summed_exactly round d ->
  let d' := snd (calculate_site_with (rounded_average round) d) in
  fst (calculate_site_with (rounded_average round) d) = Ok tt /\
  mean_below_max round d' (sr_with_tag d) "average_with_tag" "max_with_tag" /\
  mean_below_max round d' (sr_without_tag d)
    "average_without_tag" "max_without_tag" /\
  mean_below_max round d' (sr_preload d) "average_preload" "max_preload" /\
  mean_below_max round d' (sr_layer d) "average_layer" "max_layer" /\
  mean_below_max round d' (sr_990 d) "average_990" "max_990" /\
  exists found mean u,
    sr_stats d' !! "average_unit" = Some (StatAverageUnit found mean) /\
    sr_stats d' !! "max_unit" = Some (StatUnit u) /\
    mean_of_vector round (List.map snd (sr_unit d)) mean /\
    In u (sr_unit d) /\
    (forall v, In v (sr_unit d) -> py_leb (snd v) (snd u) = true) /\
    py_leb mean (snd u) = true.
Proof.
  intros [[N1 V1] [N2 V2] [N3 V3] [N4 V4] [N5 V5] [N6 V6]]
         (S1 & S2 & S3 & S4 & S5 & S6) d'.
  destruct (rounded_average_below_max round round_monotone _ N1 V1 S1)
    as (awt & mwt & E1 & E2 & A1 & B1 & C1 & D1).
  destruct (rounded_average_below_max round round_monotone _ N2 V2 S2)
    as (awo & mwo & E3 & E4 & A2 & B2 & C2 & D2).
  destruct (rounded_average_below_max round round_monotone _ N3 V3 S3)
    as (ap & mp & E5 & E6 & A3 & B3 & C3 & D3).
  destruct (rounded_average_below_max round round_monotone _ N4 V4 S4)
    as (al & ml & E7 & E8 & A4 & B4 & C4 & D4).
  destruct (rounded_average_below_max round round_monotone _ N5 V5 S5)
    as (a9 & m9 & E9 & E10 & A5 & B5 & C5 & D5).
  assert (List.map snd (sr_unit d) <> []) as N6'
    by (destruct (sr_unit d); [congruence|discriminate]).
  assert (numeric (List.map snd (sr_unit d))) as V6'.
  { apply Forall_map. eapply Forall_impl; [exact V6|].
    intros u. apply unit_elapsed_numeric. }
  destruct (rounded_average_below_max round round_monotone _ N6' V6' S6)
    as (au & mxu & E11 & _ & A6 & B6 & C6 & D6).
  destruct (py_max_by_numeric snd (sr_unit d) N6) as (mu & E12 & Iu & Mu).
  { eapply Forall_impl; [exact V6|]. intros u. apply unit_elapsed_numeric. }
  pose proof (calculate_site_with_runs (rounded_average round) d
                awt awo mwt mwo ap al a9 au mp ml m9 mu
                E1 E3 E2 E4 E5 E7 E9 E11 E6 E8 E10 E12) as Ec.
  subst d'. rewrite Ec. cbn [fst snd]. split; [reflexivity|].
  assert (forall v, In v (sr_unit d) -> is_num (snd v) = true) as Nu.
  { intros v Hv. rewrite Forall_forall in V6.
    apply unit_elapsed_numeric, V6, list_elem_of_In, Hv. }
  assert (is_num au = true) as Nau by (destruct au; [destruct A6| |]; reflexivity).
  repeat split.
  - exists awt, mwt. repeat split; auto; stat_lookup.
  - exists awo, mwo. repeat split; auto; stat_lookup.
  - exists ap, mp. repeat split; auto; stat_lookup.
  - exists al, ml. repeat split; auto; stat_lookup.
  - exists a9, m9. repeat split; auto; stat_lookup.
  - exists (found_units (sr_unit d)), au, mu. split; [stat_lookup|].
    split; [stat_lookup|]. split; [exact A6|]. split; [exact Iu|]. split.
    + intros v Hv. apply py_leb_numeric; auto.
    + apply in_map_iff in B6 as (v & <- & Hv).
      apply py_leb_numeric; auto.
      apply Qle_trans with (to_Q (snd v)); [|apply Mu, Hv].
      apply py_leb_numeric; auto.
Qed.

(** C7 (amended): in binary64, with the rounding of [+] and [/] taken as
    any monotone [round], on a dictionary whose sites all have non-empty
    vectors of numbers that are summed without rounding (the entries, the
    length and every running sum are binary64 numbers), [calculate_results]
    returns, and for every site and each of with_tag, without_tag, preload,
    layer and 990 the stored average is a number, the floor of the
    arithmetic mean for an [int] and the rounded arithmetic mean for a
    [float], the stored maximum is an entry of the vector that no entry
    exceeds, and the average is at most the maximum; the mean elapsed time
    of the unit metric is at most the elapsed time of its maximum. *)
Theorem mean_is_at_most_max results :
  all_measured results ->
  (forall website d,
     results !! website = Some (Some d) -> site_summed_exactly round d) ->
  exists results',
    calculate_results_with (rounded_average round) results
      = (Ok (Some tt), results') /\
    forall website d,
      results !! website = Some (Some d) ->
      exists d',
        results' !! website = Some (Some d') /\
        mean_below_max round d' (sr_with_tag d) "average_with_tag" "max_with_tag" /\
        mean_below_max round d' (sr_without_tag d)
          "average_without_tag" "max_without_tag" /\
        mean_below_max round d' (sr_preload d) "average_preload" "max_preload" /\
        mean_below_max round d' (sr_layer d) "average_layer" "max_layer" /\
        mean_below_max round d' (sr_990 d) "average_990" "max_990" /\
        exists found mean u,
          sr_stats d' !! "average_unit" = Some (StatAverageUnit found mean) /\
          sr_stats d' !! "max_unit" = Some (StatUnit u) /\
          mean_of_vector round (List.map snd (sr_unit d)) mean /\
          In u (sr_unit d) /\
          (forall v, In v (sr_unit d) -> py_leb (snd v) (snd u) = true) /\
          py_leb mean (snd u) = true.
Proof.
  intros H S.
  destruct (calculate_results_with_runs (rounded_average round) results)
    as (results' & E & L).
  { intros w entry Hw. destruct (H w entry Hw) as (d & -> & M).
    exists d. split; [reflexivity|]. apply site_mean_below_max; eauto. }
  exists results'. split; [exact E|]. intros website d Hd.
  destruct (H website _ Hd) as (d0 & [= <-] & M).
  exists (snd (calculate_site_with (rounded_average round) d)).
  split; [apply L, Hd|].
  apply (site_mean_below_max d M (S website d Hd)).
Qed.
End MeanAndMax.


(** ** What [catching] lets through *)

Section Containment.
Context {S : Type}.

Lemma contained_ret {A} (a : A) : contained (S:=S) (Eff.ret a).
Proof. intros s e [=]. Qed.

Lemma contained_get : contained (S:=S) Eff.get.
Proof. intros s e [=]. Qed.

Lemma contained_modify f : contained (S:=S) (Eff.modify f).
Proof. intros s e [=]. Qed.

Lemma contained_lift {A} (r : result A) :
  (forall e, r = Raise e -> is_Exception e = true) ->
  contained (S:=S) (Eff.lift r).
Proof. intros H s e. cbn. apply H. Qed.

Lemma contained_bind {A B} (m : Eff.M S A) (k : A -> Eff.M S B) :
  contained m -> (forall a, contained (k a)) -> contained (Eff.bind m k).
Proof.
  intros Hm Hk s e. unfold Eff.bind.
  specialize (Hm s). destruct (m s) as [[a|e'] s1]; cbn in *.
  - apply Hk.
  - intros [= <-]. apply Hm. reflexivity.
Qed.

Lemma contained_for_each {I} (l : list I) (body : I -> Eff.M S unit) :
  (forall i, contained (body i)) -> contained (Eff.for_each l body).
Proof.
  intros H. induction l as [|i l IH]; cbn [Eff.for_each].
  - apply contained_ret.
  - apply contained_bind; [apply H|intros _; exact IH].
Qed.

(** A decorated operation whose body is contained never raises. *)
Lemma catching_contained {A} (func : Eff.M S A) s :
  contained func -> exists r s', catching func s = (Ok r, s').
Proof.
  intros H. unfold catching. specialize (H s).
  destruct (func s) as [[a|e] s1]; cbn in H; [eauto|].
  rewrite (H e eq_refl). eauto.
Qed.
End Containment.

Lemma sum_from_raises_Exception l : forall acc e,
  sum_from acc l = Raise e -> is_Exception e = true.
Proof.
  induction l as [|x l IH]; intros acc e; cbn; [discriminate|].
  destruct (py_add acc x) as [a|e'] eqn:P; [apply IH|].
  intros [= <-]. destruct acc, x; cbn in P; try discriminate;
    injection P as <-; reflexivity.
Qed.

Lemma average_raises_Exception l e : average l = Raise e -> is_Exception e = true.
Proof.
  unfold average, py_sum.
  destruct (sum_from (VInt 0) l) as [v|e'] eqn:E.
  - unfold py_div_len. destruct v, (length l); intros [= <-]; reflexivity.
  - intros [= <-]. eapply sum_from_raises_Exception, E.
Qed.

Lemma py_max_by_raises_Exception {A} (key : A -> pyval) l e :
  py_max_by key l = Raise e -> is_Exception e = true.
Proof. destruct l; cbn; [intros [= <-]; reflexivity|discriminate]. Qed.

Lemma calculate_site_contained : contained calculate_site.
Proof.
  unfold calculate_site.
  repeat first
    [ apply contained_modify
    | apply contained_get
    | apply contained_lift; intros ?;
      first [apply average_raises_Exception | apply py_max_by_raises_Exception]
    | apply contained_bind; [|intros ?] ].
Qed.

Lemma on_site_contained {A} website (m : Eff.M site_result A) :
  contained m -> contained (on_site website m).
Proof.
  intros H results e. unfold on_site.
  destruct (results !! website) as [[d|]|]; cbn; try (intros [= <-]; reflexivity).
  specialize (H d). destruct (m d) as [r d']. cbn in *. apply H.
Qed.

Lemma calculate_results_never_raises results :
  exists r results', calculate_results results = (Ok r, results').
Proof.
  apply catching_contained. unfold calculate_results_body.
  apply contained_bind; [apply contained_get|]. intros r.
  apply contained_for_each. intros website.
  apply on_site_contained, calculate_site_contained.
Qed.

(** ** The decorated operations *)

Section DecoratedTrials.
Variable parse_qs : string -> gmap string (list string).

(** The tag-bearing trial never raises, and returns [None] when [quit]
    does. *)
Lemma with_tag_returns configuration ww website calls :
  exists r calls',
    test_load_time_with_tag parse_qs configuration ww website calls
      = (Ok r, calls') /\
    match ww_quit ww with
    | Done _ => True
    | Fails _ => r = None
    end.
Proof.
  destruct configuration as [cfg|].
  2: { do 2 eexists. split; [reflexivity|]. destruct (ww_quit ww); auto. }
  destruct (cfg !! website) as [c|] eqn:Hc.
  - destruct (with_tag_trial parse_qs cfg website c ww calls Hc) as (calls' & E & _).
    do 2 eexists. split; [exact E|]. destruct (ww_quit ww); auto.
  - unfold test_load_time_with_tag, catching, test_load_time_with_tag_body,
      configuration_getitem. eff_unfold. rewrite Hc. cbn.
    do 2 eexists. split; [reflexivity|]. destruct (ww_quit ww); auto.
Qed.

(** The no-tag trial never raises; what it returns is [None] or measures
    whose position is one of three values. *)
Lemma without_tag_returns configuration nw website calls :
  exists r calls',
    test_load_time_without_tag configuration nw website calls = (Ok r, calls') /\
    match r with
    | Some tm =>
        tm_position tm = PosBool true \/
        tm_position tm = PosPair false "Tag is located in <head>" \/
        tm_position tm =
          PosPair false "Tag is located in one of <body></body> children."
    | None => True
    end.
Proof.
  destruct configuration as [cfg|]; [|do 2 eexists; split; [reflexivity|exact I]].
  destruct (cfg !! website) as [c|] eqn:Hc.
  - pose proof (without_tag_trial cfg website c nw calls Hc) as N.
    cbv zeta in N.
    destruct (test_load_time_without_tag (Some cfg) nw website calls)
      as [[[tm|]|e] calls']; [| |contradiction]; do 2 eexists;
      (split; [reflexivity|]); [apply N|exact I].
  - unfold test_load_time_without_tag, catching,
      test_load_time_without_tag_body, configuration_getitem.
    eff_unfold. rewrite Hc. cbn. do 2 eexists. split; [reflexivity|exact I].
Qed.

(** [test_load_time] never raises, and returns [None] when the
    tag-bearing trial did. *)
Lemma test_load_time_returns configuration world website calls :
  exists r calls',
    test_load_time parse_qs configuration world website calls = (Ok r, calls') /\
    match ww_quit (sw_with_tag world) with
    | Done _ => True
    | Fails _ => r = None
    end.
Proof.
  unfold test_load_time, catching, test_load_time_body. eff_unfold.
  destruct (configuration_getitem configuration website) as [c|e] eqn:Hc.
  2: { assert (is_Exception e = true) as ->.
       { unfold configuration_getitem in Hc. destruct configuration as [cfg|];
           [destruct (cfg !! website)|]; try discriminate;
           injection Hc as <-; reflexivity. }
       do 2 eexists. split; [reflexivity|]. destruct (ww_quit _); auto. }
  destruct (with_tag_returns configuration (sw_with_tag world) website calls)
    as (r1 & calls1 & -> & Q).
  destruct (without_tag_returns configuration (sw_without_tag world) website calls1)
    as (r2 & calls2 & -> & _).
  destruct r1 as [tm|], r2 as [nt|]; cbn; do 2 eexists;
    (split; [reflexivity|]); destruct (ww_quit _); auto; discriminate.
Qed.

Lemma Forall_flat_map_all {A B} (P : B -> Prop) (f : A -> list B) l :
  (forall a, Forall P (f a)) -> Forall P (flat_map f l).
Proof.
  intros H. induction l as [|a l IH]; cbn; [constructor|].
  apply Forall_app. split; [apply H|exact IH].
Qed.

Lemma numeric_flat_map {A} (f : A -> list pyval) l :
  (forall a, numeric (f a)) -> numeric (flat_map f l).
Proof. apply Forall_flat_map_all. Qed.

(** The dictionary [test_load_time] returns for a site with at least one
    repetition is a measured one: every vector is non-empty and holds
    numbers. *)
Lemma test_load_time_measured cfg world website c calls d calls' :
  cfg !! website = Some c ->
  0 < scans_number c ->
  test_load_time parse_qs (Some cfg) world website calls = (Ok (Some d), calls') ->
  measured_site d.
Proof.
  intros Hc Hn. unfold test_load_time, catching, test_load_time_body.
  eff_unfold. cbn [configuration_getitem]. rewrite Hc.
  destruct (with_tag_trial parse_qs cfg website c (sw_with_tag world) calls Hc)
    as (calls1 & -> & _).
  pose proof (without_tag_trial cfg website c (sw_without_tag world) calls1 Hc) as N.
  cbv zeta in N.
  destruct (test_load_time_without_tag (Some cfg) (sw_without_tag world) website calls1)
    as [[[nt|]|e] calls2]; [| |contradiction].
  2: { destruct (ww_quit _); cbn; discriminate. }
  destruct (ww_quit (sw_with_tag world)); cbn; [|discriminate].
  intros [= <- _]. destruct N as (_ & V & _ & _).
  destruct (recorded_over_entries parse_qs website c
              (ww_repetition (sw_with_tag world)) (xrange (scans_number c)))
    as (P & W & N9 & L & U). cbv zeta in *.
  assert (forall {B} (f : nat -> list B),
            (forall i, length (f i) = 1%nat) ->
            flat_map f (xrange (scans_number c)) <> []) as NE.
  { intros B f H E. apply (f_equal (@length B)) in E.
    rewrite flat_map_length_one in E by exact H.
    unfold xrange in E. rewrite length_seq in E. cbn in E. lia. }
  assert (forall w, numeric (tm_with_tag (recorded parse_qs website c w)) /\
                    numeric (tm_preload (recorded parse_qs website c w)) /\
                    numeric (tm_990 (recorded parse_qs website c w)) /\
                    numeric (tm_layer (recorded parse_qs website c w)) /\
                    Forall (fun u => unit_elapsed_shape (snd u) = true)
                      (tm_unit (recorded parse_qs website c w))) as Sh.
  { intros w. destruct (recorded_one_entry parse_qs website c w)
      as (? & ? & ? & ? & ? & -> & ? & ? & ? & ? & ?).
    cbn. repeat split; repeat constructor; assumption. }
  constructor; cbn [sr_with_tag sr_without_tag sr_preload sr_layer sr_990 sr_unit].
  - rewrite W. split; [apply NE|apply numeric_flat_map]; intros; try apply Sh.
    apply (recorded_lengths parse_qs website c).
  - rewrite V. split.
    + unfold xrange. destruct (Z.to_nat (scans_number c)) eqn:Z; [lia|discriminate].
    + unfold numeric. apply Forall_map, Forall_forall. reflexivity.
  - rewrite P. split; [apply NE|apply numeric_flat_map]; intros; try apply Sh.
    apply (recorded_lengths parse_qs website c).
  - rewrite L. split; [apply NE|apply numeric_flat_map]; intros; try apply Sh.
    apply (recorded_lengths parse_qs website c).
  - rewrite N9. split; [apply NE|apply numeric_flat_map]; intros; try apply Sh.
    apply (recorded_lengths parse_qs website c).
  - rewrite U. split; [apply NE; intros; apply (recorded_lengths parse_qs website c)|].
    apply Forall_flat_map_all. intros; apply Sh.
Qed.

(** C10 (amended): [catching] returns the value of the body, or [None]
    when the body raises an exception of class [Exception]; an exception
    outside that class, the [SystemExit] of [exit(1)], goes through to
    the caller.  The two trials, [test_load_time] and
    [calculate_results] raise nothing outside [Exception], so they never
    raise; and when [quit] raises at the end of the tag-bearing trial,
    that trial and [test_load_time] return [None], not a dictionary of
    sentinel vectors. *)
Theorem catching_contains_Exception_only :
  (forall (S A : Type) (func : Eff.M S A) (s : S),
     match func s with
     | (Ok a, s') => catching func s = (Ok (Some a), s')
     | (Raise e, s') =>
         if is_Exception e then catching func s = (Ok None, s')
         else e = SystemExit /\ catching func s = (Raise SystemExit, s')
     end) /\
  (forall configuration world website calls,
     exists r calls',
       test_load_time_with_tag parse_qs configuration (sw_with_tag world)
         website calls = (Ok r, calls') /\
       match ww_quit (sw_with_tag world) with
       | Done _ => True
       | Fails _ => r = None
       end) /\
  (forall configuration world website calls,
     exists r calls',
       test_load_time_without_tag configuration world website calls
         = (Ok r, calls')) /\
  (forall configuration world website calls,
     exists r calls',
       test_load_time parse_qs configuration world website calls
         = (Ok r, calls') /\
       match ww_quit (sw_with_tag world) with
       | Done _ => True
       | Fails _ => r = None
       end) /\
  (forall results,
     exists r results', calculate_results results = (Ok r, results')) /\
  (forall w s,
     match fst (initialize w s) with
     | Ok _ => True
     | Raise e => e = SystemExit
     end).
Proof.
  split; [|split; [|split; [|split; [|split]]]].
  - intros S A func s. unfold catching.
    destruct (func s) as [[a|e] s']; [reflexivity|].
    destruct e; cbn; auto.
  - intros. apply with_tag_returns.
  - intros configuration world website calls.
    destruct (without_tag_returns configuration world website calls)
      as (r & calls' & E & _). eauto.
  - intros. apply test_load_time_returns.
  - apply calculate_results_never_raises.
  - intros w s. unfold initialize, catching.
    destruct (initialize_body w s) as [[a|e] s']; cbn; [exact I|].
    destruct e; cbn; auto.
Qed.
End DecoratedTrials.

(** C10 (counterexample): with no row in the database, [initialize], which
    is decorated like every other operation, raises [SystemExit] to its
    caller. *)
Lemma initialize_exits_through_catching :
  db_query Sample.empty_database = Some [] /\
  fst (initialize Sample.empty_database fresh_crawler) = Raise SystemExit.
Proof. split; reflexivity. Qed.

(** ** The claims on sample inputs *)

(** The position of the tag on four pages, and a page that cannot be
    classified. *)
Example position_of_late_script :
  tag_is_early Sample.page = Ok false.
Proof. reflexivity. Qed.

Example position_of_script_in_head :
  tag_is_early Sample.page_with_script_in_head = Ok true.
Proof. reflexivity. Qed.

Example position_of_early_script :
  tag_is_early Sample.page_with_early_script = Ok true.
Proof. reflexivity. Qed.

Example position_of_nested_script :
  tag_is_early Sample.page_with_nested_script = Raise ValueError.
Proof. reflexivity. Qed.

Example position_without_head :
  tag_is_early Sample.page_without_head = Raise AttributeError.
Proof. reflexivity. Qed.

(** A repetition in which every milestone is found. *)
Example all_found_records_measurements :
  recorded Sample.parse_qs Sample.website Sample.site Sample.all_found =
    {| tm_preload := [VFloat 2]; tm_with_tag := [VFloat 4]; tm_990 := [VFloat 3];
       tm_layer := [VFloat 1]; tm_unit := [(OStr "7", VFloat 8)] |}.
Proof. vm_compute. reflexivity. Qed.

(** C1 (counterexample): the script element is seen 2 seconds after
    injection and the wait for the 990 pixel times out; the repetition
    records 100 for with_tag, 990 and layer, and the measured 2 seconds,
    not 100, for preload. *)
Lemma preload_not_overwritten_example :
  tw_wait_tag Sample.pixel_990_times_out = Done tt /\
  tw_wait_990 Sample.pixel_990_times_out = Fails DrvTimeout /\
  tm_with_tag (recorded Sample.parse_qs Sample.website Sample.site
                 Sample.pixel_990_times_out) = [VInt 100] /\
  tm_preload (recorded Sample.parse_qs Sample.website Sample.site
                Sample.pixel_990_times_out) = [VFloat 2] /\
  tm_preload (recorded Sample.parse_qs Sample.website Sample.site
                Sample.pixel_990_times_out) <> [VInt 100].
Proof. vm_compute. repeat split; discriminate. Qed.

(** The amended C1 on the repetition whose 990 pixel never appears. *)
Lemma preload_kept_when_990_wait_fails_witness :
  let m := recorded Sample.parse_qs Sample.website Sample.site
             Sample.pixel_990_times_out in
  tm_with_tag m = [VInt 100] /\ tm_990 m = [VInt 100] /\
  tm_layer m = [VInt 100] /\
  tm_preload m =
    [if terminal_step_escapes Sample.parse_qs Sample.pixel_990_times_out
        || negb (truthy (VFloat (3 - 1)))
     then VInt 100 else VFloat (3 - 1)].
Proof.
  apply (preload_kept_when_990_wait_fails Sample.parse_qs Sample.website
           Sample.site Sample.pixel_990_times_out); vm_compute; auto.
Defined.

(** C2: the unit pair recorded on three failures of the terminal-pixel
    step.  After a timeout of the wait it is [(None, 0)].  When the pixel is
    gone at the lookup that follows the wait, it is [None] with the 8
    seconds already measured.  When the address has no [ai] key for
    [parse_qs], it is the dictionary [parse_qs] returned, with those 8
    seconds. *)
Theorem unit_pair_after_terminal_failure :
  tm_unit (recorded Sample.parse_qs Sample.website Sample.site
             Sample.terminal_times_out) = [(ONone, VInt 0)] /\
  tm_unit (recorded Sample.parse_qs Sample.website Sample.site
             Sample.terminal_vanishes) = [(ONone, VFloat 8)] /\
  tm_unit (recorded Sample.parse_qs Sample.website Sample.site
             Sample.terminal_unparsable) =
    [(ODict {[ "http://t.example/px?ai" := ["985"]; "uid" := ["7"] ]}, VFloat 8)].
Proof. vm_compute. repeat split. Qed.

(** C4 (counterexample): the terminal pixel is found with [ai=983], and
    the identifier recorded is "Failed on caps", not "capped". *)
Lemma caps_marker_is_not_capped :
  tw_wait_pixel Sample.capped = Done tt /\
  Sample.parse_qs Sample.pixel_url_caps !! "ai" = Some ["983"] /\
  tm_unit (recorded Sample.parse_qs Sample.website Sample.site Sample.capped) =
    [(OStr "Failed on caps", VFloat 8)] /\
  OStr "Failed on caps" <> OStr "capped".
Proof. vm_compute. repeat split; discriminate. Qed.

(** The amended C4 on the repetition whose terminal pixel carries the caps
    code. *)
Lemma caps_code_recorded_as_failed_on_caps_witness :
  tm_unit (recorded Sample.parse_qs Sample.website Sample.site Sample.capped) =
    [(OStr "Failed on caps", VFloat (9 - 1))].
Proof.
  apply (caps_code_recorded_as_failed_on_caps Sample.parse_qs Sample.website
           Sample.site Sample.capped "img-1" Sample.pixel_url_caps []);
    vm_compute; (reflexivity || discriminate).
Defined.

(** C9 on the repetition whose script element is there at once. *)
Lemma zero_preload_replaced_by_100_witness :
  (forall s, exists e,
     fst (wait_for_tag_and_990 Sample.site Sample.instant_tag_990_times_out s)
       = Raise e /\
     timeout_or_no_such_element e = true /\
     end_loading_tag
       (snd (wait_for_tag_and_990 Sample.site Sample.instant_tag_990_times_out s))
       = VFloat (1 - start_loading_tag s)) /\
  py_or (VFloat (1 - 1)) (VInt 100) = VInt 100 /\
  tm_preload (recorded Sample.parse_qs Sample.website Sample.site
                Sample.instant_tag_990_times_out) = [VInt 100].
Proof.
  apply (zero_preload_replaced_by_100 Sample.parse_qs Sample.website Sample.site
           Sample.instant_tag_990_times_out); vm_compute; auto.
Defined.


(** The sample dictionary holds one measured site. *)
Lemma sample_results_measured : all_measured Sample.results.
Proof.
  intros w e H. unfold Sample.results in H.
  apply lookup_singleton_Some in H as [_ <-].
  eexists. split; [reflexivity|].
  constructor; cbn; (split; [discriminate|repeat constructor]).
Defined.

(** Goals about sample vectors: the structure is taken apart first, and
    each rounding is then evaluated on its own. *)
Ltac evaluate_roundings :=
  repeat match goal with
  | |- _ /\ _ => split
  | |- Forall _ [] => constructor
  | |- Forall _ (_ :: _) => constructor; cbv beta
  | |- (_ == _)%Q => vm_compute; reflexivity
  end.

(** The vectors of the sample dictionary are summed without rounding. *)
Lemma sample_results_summed_exactly website d :
  Sample.results !! website = Some (Some d) ->
  site_summed_exactly round_binary64 d.
Proof.
  intros H. unfold Sample.results in H.
  apply lookup_singleton_Some in H as [_ [= <-]].
  unfold site_summed_exactly, summed_exactly, representable.
  cbn [Sample.site_dict sr_with_tag sr_without_tag sr_preload sr_layer sr_990
       sr_unit length seq List.map Sample.same_unit_twice snd].
  evaluate_roundings.
Defined.

(** The amended C7 on the sample dictionary, with rounding to the nearest
    binary64 number. *)
Lemma mean_is_at_most_max_witness :
  exists results',
    calculate_results_with (rounded_average round_binary64) Sample.results
      = (Ok (Some tt), results') /\
    forall website d,
      Sample.results !! website = Some (Some d) ->
      exists d',
        results' !! website = Some (Some d') /\
        mean_below_max round_binary64 d' (sr_with_tag d)
          "average_with_tag" "max_with_tag" /\
        mean_below_max round_binary64 d' (sr_without_tag d)
          "average_without_tag" "max_without_tag" /\
        mean_below_max round_binary64 d' (sr_preload d)
          "average_preload" "max_preload" /\
        mean_below_max round_binary64 d' (sr_layer d)
          "average_layer" "max_layer" /\
        mean_below_max round_binary64 d' (sr_990 d) "average_990" "max_990" /\
        exists found mean u,
          sr_stats d' !! "average_unit" = Some (StatAverageUnit found mean) /\
          sr_stats d' !! "max_unit" = Some (StatUnit u) /\
          mean_of_vector round_binary64 (List.map snd (sr_unit d)) mean /\
          In u (sr_unit d) /\
          (forall v, In v (sr_unit d) -> py_leb (snd v) (snd u) = true) /\
          py_leb mean (snd u) = true.
Proof.
  apply (mean_is_at_most_max round_binary64 round_binary64_monotone
           Sample.results).
  - exact sample_results_measured.
  - exact sample_results_summed_exactly.
Defined.

(** C7 (counterexample): three repetitions of [0.1] each.  The vectors are
    non-empty and hold numbers; the sum [0.1 + 0.1 + 0.1] is rounded to
    [0.30000000000000004], its third to [0.10000000000000002], and
    [calculate_results] stores that as the average, above the maximum
    [0.1]. *)
Lemma rounded_mean_exceeds_max :
  (round_binary64 (1 # 10) == one_tenth)%Q /\
  measured_site Tenths.dictionary /\
  rounded_sum round_binary64 Tenths.vector
    = Ok (VFloat (1351079888211149 # 4503599627370496)) /\
  let r := calculate_results_with (rounded_average round_binary64)
             Tenths.all_sites in
  fst r = Ok (Some tt) /\
  match snd r !! Sample.website with
  | Some (Some d') =>
      sr_stats d' !! "average_with_tag"
        = Some (StatNumber (VFloat Tenths.next_after_one_tenth)) /\
      sr_stats d' !! "max_with_tag" = Some (StatNumber (VFloat one_tenth)) /\
      py_leb (VFloat Tenths.next_after_one_tenth) (VFloat one_tenth) = false /\
      py_ltb (VFloat one_tenth) (VFloat Tenths.next_after_one_tenth) = true
  | _ => False
  end.
Proof.
  split; [vm_compute; reflexivity|]. split.
  { constructor; cbn; (split; [discriminate|repeat constructor]). }
  vm_compute. repeat split.
Qed.


(** * Further properties *)

(** ** The terminal-pixel step, case by case *)

Section TerminalStepCases.
Variable parse_qs : string -> gmap string (list string).

(** The step waits for the terminal pixel once, and for nothing else. *)
Lemma terminal_outcome_waits w :
  waits_for pixel_990_selector
    (driver_calls (snd (terminal_outcome parse_qs w))) = O /\
  waits_for terminal_pixel_selector
    (driver_calls (snd (terminal_outcome parse_qs w))) = 1%nat.
Proof.
  unfold terminal_outcome.
  destruct w. unfold locate_unit. eff_unfold. cbn.
  split_answers; split; reflexivity.
Qed.

(** When the wait itself fails, the defaults assigned before it stay. *)
Lemma terminal_outcome_wait_fails w d :
  tw_wait_pixel w = Fails d ->
  unit_id (snd (terminal_outcome parse_qs w)) = ONone /\
  end_loading_unit (snd (terminal_outcome parse_qs w)) = VInt 0.
Proof.
  intros H. unfold terminal_outcome, locate_unit. rewrite H. eff_unfold.
  destruct d; cbn; auto.
Qed.

(** The pixel is found with a code other than the caps code and one
    [uid]. *)
Lemma terminal_outcome_shown w element url code rest u :
  tw_wait_pixel w = Done tt ->
  tw_find_pixel w = Done element ->
  tw_pixel_src w = Done (Some url) ->
  parse_qs url !! "ai" = Some (code :: rest) ->
  String.eqb code "983" = false ->
  parse_qs url !! "uid" = Some [u] ->
  let r := terminal_outcome parse_qs w in
  fst r = Ok tt /\
  unit_id (snd r) = OStr u /\
  end_loading_unit (snd r) = VFloat (tw_clock_end_unit w - tw_clock_start_tag w).
Proof.
  intros Hw Hf Hs Hai Hc Hu. unfold terminal_outcome, locate_unit.
  rewrite Hw, Hf, Hs. eff_unfold. cbn. unfold dict_getitem.
  rewrite Hai. cbn. rewrite Hc, Hu. cbn. auto.
Qed.

(** The pixel is found with a code other than the caps code, and [uid]
    does not have exactly one value: the unpacking raises [ValueError],
    which no clause of the step catches. *)
Lemma terminal_outcome_uid_not_single w element url code rest uid :
  tw_wait_pixel w = Done tt ->
  tw_find_pixel w = Done element ->
  tw_pixel_src w = Done (Some url) ->
  parse_qs url !! "ai" = Some (code :: rest) ->
  String.eqb code "983" = false ->
  parse_qs url !! "uid" = Some uid ->
  length uid <> 1%nat ->
  fst (terminal_outcome parse_qs w) = Raise ValueError.
Proof.
  intros Hw Hf Hs Hai Hc Hu Hl. unfold terminal_outcome, locate_unit.
  rewrite Hw, Hf, Hs. eff_unfold. cbn. unfold dict_getitem.
  rewrite Hai. cbn. rewrite Hc, Hu. cbn.
  destruct uid as [|? [|? ?]]; cbn in *; congruence.
Qed.
End TerminalStepCases.

(** ** One repetition, step by step *)

Section RepetitionSteps.
Variable parse_qs : string -> gmap string (list string).

Ltac unfold_repetition :=
  unfold recorded, run_repetition, repetition, guarded_steps,
    init_end_variables, wait_for_tag_and_990, fall_back_to_100,
    append_measures, append_sentinels.

Ltac rewrite_terminal_step :=
  repeat match goal with
  | |- context [locate_unit _ ?w ?S] =>
      rewrite (locate_unit_frame parse_qs w S eq_refl)
  end; cbn.

Ltac case_terminal_step :=
  match goal with
  | |- context [terminal_outcome _ ?w] =>
      let X := fresh "X" in
      pose proof (terminal_outcome_raises_Exception parse_qs w) as X;
      destruct (terminal_outcome parse_qs w) as [[[]|?e] ?s];
      cbn in X |- *;
      try (rewrite (X _ eq_refl); cbn)
  end.

Ltac case_steps w :=
  destruct (tw_delete_all_cookies w) as [[]|[]], (tw_get w) as [[]|[]],
    (tw_execute_script w) as [[]|[]]; cbn;
  try (destruct (tw_wait_tag w) as [[]|[]]; cbn;
       try (destruct (tw_wait_990 w) as [[]|[]]; cbn)).

(** X1: when navigation, injection and both waits succeed and the
    terminal-pixel step lets no exception out, the repetition records the
    four measured differences of clock readings as they are, with no
    fallback to 100, also when one of them is zero. *)
Theorem found_milestones_are_recorded_as_measured website c w :
  tw_delete_all_cookies w = Done tt ->
  tw_get w = Done tt ->
  tw_execute_script w = Done tt ->
  tw_wait_tag w = Done tt ->
  tw_wait_990 w = Done tt ->
  terminal_step_escapes parse_qs w = false ->
  let m := recorded parse_qs website c w in
  tm_preload m = [VFloat (tw_clock_end_tag w - tw_clock_start_tag w)] /\
  tm_with_tag m = [VFloat (tw_clock_end_page w - tw_clock_start_page w)] /\
  tm_990 m = [VFloat (tw_clock_end_990 w - tw_clock_start_tag w)] /\
  tm_layer m = [VFloat (tw_clock_end_layer w - tw_clock_start_layer w)].
Proof.
  intros Hc Hg Hx Ht H9 He m. subst m. revert He.
  unfold terminal_step_escapes. unfold_repetition.
  rewrite Hc, Hg, Hx, Ht, H9. eff_unfold. cbn.
  rewrite_terminal_step. case_terminal_step; [auto|discriminate].
Qed.

(** X2: when the wait for the script element fails, with a timeout,
    not-found or anything else, the four durations are recorded as 100,
    the 990 pixel is never waited for, and the terminal pixel is still
    waited for once. *)
Theorem missing_tag_skips_the_990_wait website c w d :
  tw_delete_all_cookies w = Done tt ->
  tw_get w = Done tt ->
  tw_execute_script w = Done tt ->
  tw_wait_tag w = Fails d ->
  let r := run_repetition parse_qs website c w in
  tm_preload (time_measures (snd r)) = [VInt 100] /\
  tm_with_tag (time_measures (snd r)) = [VInt 100] /\
  tm_990 (time_measures (snd r)) = [VInt 100] /\
  tm_layer (time_measures (snd r)) = [VInt 100] /\
  waits_for pixel_990_selector (driver_calls (snd r)) = O /\
  waits_for terminal_pixel_selector (driver_calls (snd r)) = 1%nat.
Proof.
  intros Hc Hg Hx Ht r. subst r.
  pose proof (terminal_outcome_waits parse_qs w) as [W9 WT].
  unfold_repetition. rewrite Hc, Hg, Hx, Ht. eff_unfold.
  destruct d; cbn; rewrite_terminal_step.
  all: destruct (terminal_outcome parse_qs w) as [[[]|e] s] eqn:E; cbn in *.
  all: try (rewrite (terminal_outcome_raises_Exception parse_qs w e)
              by (rewrite E; reflexivity); cbn).
  all: unfold waits_for in *; rewrite !List.filter_app, !length_app, W9, WT.
  all: unfold tag_selector, tag_lookup_name; destruct (is_layer_active c); cbn.
  all: repeat split.
Qed.

(** X3: the terminal pixel is waited for exactly once in every repetition
    whose cookies were cleared, whose navigation returned and whose
    injection ran, whatever the two waits before it did; a repetition that
    stops before the injection waits for nothing. *)
Theorem terminal_wait_follows_every_injection website c w :
  waits_for terminal_pixel_selector
    (driver_calls (snd (run_repetition parse_qs website c w))) =
  match tw_delete_all_cookies w, tw_get w, tw_execute_script w with
  | Done _, Done _, Done _ => 1%nat
  | _, _, _ => O
  end.
Proof.
  pose proof (terminal_outcome_waits parse_qs w) as [_ WT].
  unfold_repetition. eff_unfold.
  case_steps w; try reflexivity.
  all: rewrite_terminal_step; case_terminal_step; cbn in WT.
  all: unfold waits_for in *; rewrite !List.filter_app, !length_app, WT.
  all: unfold tag_selector, tag_lookup_name; destruct (is_layer_active c); reflexivity.
Qed.

(** X4: whenever the wait for the terminal pixel fails, the unit pair of
    the repetition is [(None, 0)], whatever happened before. *)
Theorem failed_terminal_wait_records_none_zero website c w d :
  tw_wait_pixel w = Fails d ->
  tm_unit (recorded parse_qs website c w) = [(ONone, VInt 0)].
Proof.
  intros H.
  destruct (terminal_outcome_wait_fails parse_qs w d H) as [U E].
  unfold_repetition. eff_unfold.
  case_steps w; try reflexivity.
  all: rewrite_terminal_step.
  all: destruct (terminal_outcome parse_qs w) as [[[]|e] s] eqn:T; cbn in *.
  all: try (rewrite (terminal_outcome_raises_Exception parse_qs w e)
              by (rewrite T; reflexivity); cbn).
  all: try rewrite U, E; reflexivity.
Qed.

(** X5: in a repetition that is not aborted, a terminal pixel whose [ai]
    code is not the caps code and whose [uid] has one value gives that
    value as the unit identifier, with the time since injection. *)
Theorem shown_unit_identifier_is_recorded website c w element url code rest u :
  tw_delete_all_cookies w = Done tt ->
  tw_get w = Done tt ->
  tw_execute_script w = Done tt ->
  tw_wait_tag w <> Fails DrvOther ->
  (tw_wait_tag w = Done tt -> tw_wait_990 w <> Fails DrvOther) ->
  tw_wait_pixel w = Done tt ->
  tw_find_pixel w = Done element ->
  tw_pixel_src w = Done (Some url) ->
  parse_qs url !! "ai" = Some (code :: rest) ->
  String.eqb code "983" = false ->
  parse_qs url !! "uid" = Some [u] ->
  tm_unit (recorded parse_qs website c w) =
    [(OStr u, VFloat (tw_clock_end_unit w - tw_clock_start_tag w))].
Proof.
  intros Hc Hg Hx Ht H9 Hp Hf Hs Hai Hcode Hu.
  destruct (terminal_outcome_shown parse_qs w element url code rest u
              Hp Hf Hs Hai Hcode Hu) as (R & U & E).
  unfold_repetition. rewrite Hc, Hg, Hx. eff_unfold. cbn.
  destruct (tw_wait_tag w) as [[]|[]]; try congruence; cbn.
  1: specialize (H9 eq_refl);
     destruct (tw_wait_990 w) as [[]|[]]; try congruence; cbn.
  all: rewrite_terminal_step.
  all: destruct (terminal_outcome parse_qs w) as [r s']; cbn in *; subst r; cbn.
  all: rewrite U, E; reflexivity.
Qed.

(** X6: a terminal pixel whose [uid] parameter does not have exactly one
    value makes the repetition record the sentinels for all five metrics,
    also when both waits before it succeeded and were measured. *)
Theorem uid_not_single_aborts_the_repetition
    website c w element url code rest uid :
  tw_wait_pixel w = Done tt ->
  tw_find_pixel w = Done element ->
  tw_pixel_src w = Done (Some url) ->
  parse_qs url !! "ai" = Some (code :: rest) ->
  String.eqb code "983" = false ->
  parse_qs url !! "uid" = Some uid ->
  length uid <> 1%nat ->
  recorded parse_qs website c w = sentinel_measures.
Proof.
  intros Hp Hf Hs Hai Hcode Hu Hl.
  pose proof (terminal_outcome_uid_not_single parse_qs w element url code rest
                uid Hp Hf Hs Hai Hcode Hu Hl) as R.
  unfold_repetition. eff_unfold.
  case_steps w; try reflexivity.
  all: rewrite_terminal_step.
  all: destruct (terminal_outcome parse_qs w) as [r s']; cbn in *; subst r; cbn.
  all: reflexivity.
Qed.
End RepetitionSteps.

(** ** The trials as wholes *)

Section WholeTrials.
Variable parse_qs : string -> gmap string (list string).

(** The vectors of a trial that returns, entry by entry. *)
Lemma with_tag_trial_entries cfg website c ww calls :
  cfg !! website = Some c ->
  ww_quit ww = Done tt ->
  exists tm calls',
    test_load_time_with_tag parse_qs (Some cfg) ww website calls
      = (Ok (Some tm), calls') /\
    forall i, (i < Z.to_nat (scans_number c))%nat ->
      let alone := recorded parse_qs website c (ww_repetition ww i) in
      tm_preload tm !! i = tm_preload alone !! O /\
      tm_with_tag tm !! i = tm_with_tag alone !! O /\
      tm_990 tm !! i = tm_990 alone !! O /\
      tm_layer tm !! i = tm_layer alone !! O /\
      tm_unit tm !! i = tm_unit alone !! O.
Proof.
  intros Hc Hq.
  destruct (with_tag_trial parse_qs cfg website c ww calls Hc) as (calls' & E & _).
  rewrite Hq in E. eexists _, calls'. split; [exact E|].
  intros i Hi alone. subst alone.
  destruct (recorded_over_entries parse_qs website c (ww_repetition ww)
              (xrange (scans_number c))) as (P & W & N9 & L & U).
  cbv zeta in *. rewrite P, W, N9, L, U. unfold xrange.
  pose proof (lookup_seq_lt 0 (Z.to_nat (scans_number c)) i Hi) as S. cbn in S.
  rewrite !(flat_map_lookup_one _ _ i i);
    try exact S; try (intros; apply (recorded_lengths parse_qs website c)).
  repeat split.
Qed.

(** X7: what a tag-bearing trial holds at index [i] of each vector is what
    repetition [i] records on its own: two runs of a site whose worlds
    agree on that repetition agree on that index, whatever the other
    repetitions did. *)
Theorem repetitions_are_isolated cfg website c ww ww' calls calls0 i :
  cfg !! website = Some c ->
  ww_quit ww = Done tt ->
  ww_quit ww' = Done tt ->
  (i < Z.to_nat (scans_number c))%nat ->
  ww_repetition ww i = ww_repetition ww' i ->
  exists tm tm' k k',
    test_load_time_with_tag parse_qs (Some cfg) ww website calls
      = (Ok (Some tm), k) /\
    test_load_time_with_tag parse_qs (Some cfg) ww' website calls0
      = (Ok (Some tm'), k') /\
    tm_preload tm !! i = tm_preload tm' !! i /\
    tm_with_tag tm !! i = tm_with_tag tm' !! i /\
    tm_990 tm !! i = tm_990 tm' !! i /\
    tm_layer tm !! i = tm_layer tm' !! i /\
    tm_unit tm !! i = tm_unit tm' !! i /\
    tm_unit tm !! i =
      tm_unit (recorded parse_qs website c (ww_repetition ww i)) !! O.
Proof.
  intros Hc Hq Hq' Hi Hw.
  destruct (with_tag_trial_entries cfg website c ww calls Hc Hq)
    as (tm & k & E & A).
  destruct (with_tag_trial_entries cfg website c ww' calls0 Hc Hq')
    as (tm' & k' & E' & A').
  exists tm, tm', k, k'. split; [exact E|]. split; [exact E'|].
  destruct (A i Hi) as (P & W & N9 & L & U).
  destruct (A' i Hi) as (P' & W' & N9' & L' & U').
  rewrite <- Hw in P', W', N9', L', U'.
  rewrite P, W, N9, L, U, P', W', N9', L', U'. repeat split.
Qed.
End WholeTrials.

(** X8: for a configured site the no-tag trial returns its measures exactly
    when every repetition clears the cookies and has its navigation return
    or time out, the page source is read, the position can be told and
    [quit] succeeds; in every other case it returns [None]. *)
Theorem no_tag_trial_returns_iff_it_completes cfg website c nw calls :
  cfg !! website = Some c ->
  (notag_completes nw (Z.to_nat (scans_number c)) = true <->
   exists tm calls',
     test_load_time_without_tag (Some cfg) nw website calls
       = (Ok (Some tm), calls')) /\
  (notag_completes nw (Z.to_nat (scans_number c)) = false <->
   exists calls',
     test_load_time_without_tag (Some cfg) nw website calls = (Ok None, calls')).
Proof.
  intros Hc.
  pose proof (without_tag_trial cfg website c nw calls Hc) as N. cbv zeta in N.
  destruct (test_load_time_without_tag (Some cfg) nw website calls)
    as [[[tm|]|e] calls']; [| |contradiction].
  - destruct N as (C & _). rewrite C. split; split; eauto; try discriminate.
    intros (? & [=]).
  - destruct N as (C & _). rewrite C. split; split; eauto; try discriminate.
    intros (? & ? & [=]).
Qed.

(** ** The position of the tag *)

(** The search below a tag goes through its children from the left; the
    path it returns starts at a child that exists. *)
Lemma find_path_scan (p : node -> bool) (cs : list node) : forall k path,
  (fix scan (cs : list node) (i : nat) : option (list nat) :=
     match cs with
     | [] => None
     | c :: cs' =>
         if p c then Some [i]
         else match find_path p c with
              | Some path => Some (i :: path)
              | None => scan cs' (S i)
              end
     end) cs k = Some path ->
  exists j rest, path = j :: rest /\ (k <= j < k + length cs)%nat.
Proof.
  induction cs as [|c cs IH]; intros k path; [discriminate|].
  destruct (p c).
  - intros [= <-]. exists k, []. cbn. split; [reflexivity|lia].
  - destruct (find_path p c) as [sub|].
    + intros [= <-]. exists k, sub. cbn. split; [reflexivity|lia].
    + intros H. apply IH in H as (j & rest & -> & B).
      exists j, rest. cbn. split; [reflexivity|lia].
Qed.

Lemma find_path_bound (p : node -> bool) tag i rest :
  find_path p tag = Some (i :: rest) -> (i < tag_len tag)%nat.
Proof.
  destruct tag as [|name attrs contents]; [discriminate|]. cbn.
  intros H. apply find_path_scan in H as (j & r & [= -> ->] & B). lia.
Qed.

(** Children that neither match nor hold a match are passed over. *)
Lemma find_path_skips (p : node -> bool) name attrs before c rest :
  Forall (fun b => p b = false /\ find_path p b = None) before ->
  p c = true \/ is_Some (find_path p c) ->
  find_path p (Tag name attrs (before ++ c :: rest)%list) =
    if p c then Some [length before]
    else cons (length before) <$> find_path p c.
Proof.
  intros H Hc. cbn [find_path].
  assert (forall k,
    (fix scan (cs : list node) (i : nat) : option (list nat) :=
       match cs with
       | [] => None
       | c :: cs' =>
           if p c then Some [i]
           else match find_path p c with
                | Some path => Some (i :: path)
                | None => scan cs' (S i)
                end
       end) (before ++ c :: rest)%list k =
    if p c then Some [(k + length before)%nat]
    else cons (k + length before)%nat <$> find_path p c) as G.
  { induction H as [|b before [Hb Hn] _ IH]; intros k; cbn [app length].
    - rewrite Nat.add_0_r. destruct (p c); [reflexivity|].
      destruct Hc as [|[path Hp]]; [discriminate|]. rewrite Hp. reflexivity.
    - rewrite Hb, Hn, IH. replace (S k + length before)%nat
        with (k + S (length before))%nat by lia. reflexivity. }
  apply (G O).
Qed.

Lemma early_threshold i n :
  (0 < n)%nat ->
  negb (Qle_bool (7 # 10) (inject_Z (Z.of_nat i) / inject_Z (Z.of_nat n))) =
  (10 * Z.of_nat i <? 7 * Z.of_nat n).
Proof.
  intros Hn.
  assert (0 < inject_Z (Z.of_nat n))%Q as Pn.
  { change 0%Q with (inject_Z 0). rewrite <- Zlt_Qlt. lia. }
  destruct (Z.ltb_spec (10 * Z.of_nat i) (7 * Z.of_nat n)) as [L|L].
  - apply negb_true_iff. destruct (Qle_bool _ _) eqn:C; [|reflexivity].
    apply Qle_bool_iff in C.
    apply (Qmult_le_r _ _ _ Pn) in C.
    unfold Qdiv in C. rewrite <- Qmult_assoc, (Qmult_comm (/ _)), Qmult_inv_r,
      Qmult_1_r in C by (intros E; rewrite E in Pn; inversion Pn).
    unfold Qle, Qmult, inject_Z in C. cbn in C. lia.
  - apply negb_false_iff, Qle_bool_iff.
    apply Qle_shift_div_l; [exact Pn|].
    unfold Qle, Qmult, inject_Z. cbn. lia.
Qed.

(** X9: when the head refers to no preload resource and the first
    [preload.js] reference of the body is its child number [i] (from 0) of
    [n], the position stored is [(False, "Tag is located in <head>")] if
    [10 * i < 7 * n] and [True] otherwise. *)
Theorem position_of_a_direct_child source head body i s :
  soup_attr "head" source = Some head ->
  find_all re_preload head = [] ->
  soup_attr "body" source = Some body ->
  find_path (src_matches re_preload_js) body = Some [i] ->
  fst (classify_position source s) = Ok tt /\
  tm_position (nt_time_measures (snd (classify_position source s))) =
    if 10 * Z.of_nat i <? 7 * Z.of_nat (tag_len body)
    then PosPair false "Tag is located in <head>"
    else PosBool true.
Proof.
  intros Hh Hf Hb Hp.
  pose proof (find_path_bound _ _ _ _ Hp) as B.
  unfold classify_position, tag_is_early. rewrite Hh, Hf, Hb, Hp.
  cbn [tag_index]. destruct (tag_len body) as [|n] eqn:N; [lia|].
  rewrite early_threshold by lia. eff_unfold.
  destruct (10 * Z.of_nat i <? 7 * Z.of_nat (S n)); cbn; auto.
Qed.

(** X10: when the head refers to no preload resource and the first
    [preload.js] reference of the body, in document order, lies inside one
    of its children, the position stored is
    [(False, "Tag is located in one of <body></body> children.")], also
    when a later child of the body is such a reference itself. *)
Theorem position_of_a_nested_script
    source head name attrs before c rest path s :
  soup_attr "head" source = Some head ->
  find_all re_preload head = [] ->
  soup_attr "body" source = Some (Tag name attrs (before ++ c :: rest)%list) ->
  Forall (fun b => src_matches re_preload_js b = false /\
                   find_path (src_matches re_preload_js) b = None) before ->
  src_matches re_preload_js c = false ->
  find_path (src_matches re_preload_js) c = Some path ->
  fst (classify_position source s) = Ok tt /\
  tm_position (nt_time_measures (snd (classify_position source s))) =
    PosPair false "Tag is located in one of <body></body> children.".
Proof.
  intros Hh Hf Hb Hbefore Hc Hp.
  assert (exists j rest', path = j :: rest') as (j & rest' & ->).
  { destruct c as [|n a cs]; [discriminate|]. cbn in Hp.
    apply find_path_scan in Hp as (j & r & -> & _). eauto. }
  unfold classify_position, tag_is_early. rewrite Hh, Hf, Hb.
  rewrite (find_path_skips _ name attrs before c rest Hbefore), Hc, Hp
    by (right; rewrite Hp; eauto).
  eff_unfold. cbn. auto.
Qed.

Lemma match_here_prefix re1 re2 : forall s,
  match_here (re1 ++ re2) s = true -> match_here re1 s = true.
Proof.
  induction re1 as [|x re1 IH]; intros s; [reflexivity|].
  destruct s as [|a s]; cbn; [destruct x; discriminate|].
  destruct x; intros H; apply andb_true_iff in H as [H1 H2];
    rewrite H1, (IH s H2); reflexivity.
Qed.

(** X11: every address the body's pattern ['preload.js'] finds a match in
    is one the head's pattern ['preload'] finds a match in. *)
Theorem body_pattern_implies_head_pattern s :
  re_search re_preload_js s = true -> re_search re_preload s = true.
Proof.
  induction s as [|a s IH]; cbn [re_search].
  - intros H. apply orb_true_iff in H as [H|H]; [|discriminate].
    apply (match_here_prefix re_preload) in H. rewrite H. reflexivity.
  - intros H. apply orb_true_iff in H as [H|H].
    + apply (match_here_prefix re_preload) in H. rewrite H. reflexivity.
    + rewrite (IH H). apply orb_true_r.
Qed.

(** ** The configuration and the start of a run *)

(** The entry a row gives. *)
Lemma get_configurations_snoc res row website :
  get_configurations (res ++ [row]) !! website =
    if decide (website_page row = website)
    then Some {| script := website_tag row;
                 scans_number := row_scans_number row - 5;
                 geo := row_geo row;
                 is_layer_active := is_layer row |}
    else get_configurations res !! website.
Proof.
  unfold get_configurations. rewrite fold_left_app. cbn.
  apply lookup_insert.
Qed.

(** X12: the configuration has an entry for exactly the pages of the rows,
    and when several rows name the same page the last of them gives the
    entry. *)
Theorem get_configurations_last_row_wins res :
  (forall website,
     is_Some (get_configurations res !! website) <->
     exists row, In row res /\ website_page row = website) /\
  (forall earlier row later,
     res = (earlier ++ row :: later)%list ->
     Forall (fun r => website_page r <> website_page row) later ->
     get_configurations res !! website_page row =
       Some {| script := website_tag row;
               scans_number := row_scans_number row - 5;
               geo := row_geo row;
               is_layer_active := is_layer row |}).
Proof.
  split.
  - intros website. induction res as [|row res IH] using rev_ind.
    + split; [intros [c H]; discriminate|intros (? & [] & _)].
    + rewrite get_configurations_snoc.
      destruct (decide (website_page row = website)) as [E|E].
      * split; [|eauto]. intros _. exists row. split; [|exact E].
        apply in_or_app. right. left. reflexivity.
      * rewrite IH. split.
        -- intros (r & I & P). exists r. split; [|exact P].
           apply in_or_app. left. exact I.
        -- intros (r & I & P). apply in_app_or in I as [I|[<-|[]]];
             [eauto|contradiction].
  - intros earlier row later -> H.
    induction later as [|r later IH] using rev_ind.
    + rewrite get_configurations_snoc.
      destruct (decide (website_page row = website_page row)); [reflexivity|contradiction].
    + apply Forall_app in H as [H1 H2]. apply Forall_cons in H2 as [H2 _].
      change (earlier ++ row :: later ++ [r])%list
        with (earlier ++ (row :: later) ++ [r])%list.
      rewrite app_assoc, get_configurations_snoc.
      destruct (decide (website_page r = website_page row)); [contradiction|].
      apply IH, H1.
Qed.

(** X13: what [initialize] does, case by case.  A query that fails counts
    as a query without rows.  The thresholds are stored when they can be
    read and left as they were otherwise.  When closing the database raises,
    [initialize] returns [None] and does not exit, also with no
    configuration; otherwise it exits with [SystemExit] when there is no
    configuration and returns normally when there is one. *)
Theorem initialize_outcome w s :
  let loaded :=
    match db_query w with
    | Some res => dict_or_none (Some (get_configurations res))
    | None => None
    end in
  initialize w s =
    (match db_close w with
     | None => Ok None
     | Some _ =>
         match loaded with
         | None => Raise SystemExit
         | Some _ => Ok (Some tt)
         end
     end,
     {| configuration := loaded;
        crawler_thresholds :=
          match config_thresholds w with
          | Some t => Some t
          | None => crawler_thresholds s
          end |}).
Proof.
  unfold initialize, initialize_body, get_configurations_decorated,
    get_thresholds_decorated, catching, or_raise. eff_unfold.
  destruct (db_query w) as [res|], (config_thresholds w) as [t|],
    (db_close w) as [[]|]; cbn; try reflexivity.
  all: unfold dict_or_none;
    destruct (bool_decide (get_configurations res = ∅)) eqn:B; cbn;
    rewrite ?B; reflexivity.
Qed.

(** ** [calculate_results] on any dictionary *)

Lemma same_measures_refl d : same_measures d d.
Proof. repeat split. Qed.

Lemma same_measures_trans a b c :
  same_measures a b -> same_measures b c -> same_measures a c.
Proof.
  intros (A1 & A2 & A3 & A4 & A5 & A6 & A7) (B1 & B2 & B3 & B4 & B5 & B6 & B7).
  repeat split; congruence.
Qed.

Lemma keeps_measures_bind {A B} (m : Eff.M site_result A)
    (k : A -> Eff.M site_result B) :
  keeps_measures m -> (forall a, keeps_measures (k a)) ->
  keeps_measures (Eff.bind m k).
Proof.
  intros Hm Hk d. unfold Eff.bind. specialize (Hm d).
  destruct (m d) as [[a|e] d1]; cbn in *; [|exact Hm].
  eapply same_measures_trans; [exact Hm|apply Hk].
Qed.

Lemma keeps_measures_set_stat key v :
  keeps_measures (Eff.modify (set_stat key v)).
Proof. intros d. repeat split. Qed.

Lemma keeps_measures_lift {A} (r : result A) : keeps_measures (Eff.lift r).
Proof. intros d. apply same_measures_refl. Qed.

(** The twelve assignments add keys and touch nothing else, wherever they
    stop. *)
Lemma calculate_site_keeps_measures : keeps_measures calculate_site.
Proof.
  unfold calculate_site.
  repeat first
    [ apply keeps_measures_set_stat
    | apply keeps_measures_lift
    | apply keeps_measures_bind; [|intros ?] ].
  intros d. apply same_measures_refl.
Qed.

Lemma entry_kept_refl entry : entry_kept entry entry.
Proof. destruct entry; cbn; [apply same_measures_refl|exact I]. Qed.

Lemma results_kept_refl results : results_kept results results.
Proof.
  intros w. destruct (results !! w); [apply entry_kept_refl|exact I].
Qed.

Lemma results_kept_trans a b c :
  results_kept a b -> results_kept b c -> results_kept a c.
Proof.
  intros H1 H2 w. specialize (H1 w). specialize (H2 w).
  destruct (a !! w) as [[x|]|], (b !! w) as [[y|]|], (c !! w) as [[z|]|];
    cbn in *; try contradiction; try exact I.
  eapply same_measures_trans; eassumption.
Qed.

Lemma on_site_kept website :
  forall results, results_kept results (snd (on_site website calculate_site results)).
Proof.
  intros results. unfold on_site.
  destruct (results !! website) as [[d|]|] eqn:E; cbn [snd];
    try apply results_kept_refl.
  pose proof (calculate_site_keeps_measures d) as K.
  destruct (calculate_site d) as [r d']. cbn [snd] in *.
  intros w. destruct (decide (w = website)) as [->|N].
  - rewrite lookup_insert_eq, E. exact K.
  - rewrite lookup_insert_ne by congruence.
    destruct (results !! w); [apply entry_kept_refl|exact I].
Qed.

Lemma calculate_loop_kept l : forall results,
  results_kept results
    (snd (Eff.for_each l (fun website => on_site website calculate_site) results)).
Proof.
  induction l as [|w l IH]; intros results; cbn [Eff.for_each].
  - apply results_kept_refl.
  - unfold Eff.bind. pose proof (on_site_kept w results) as K.
    destruct (on_site w calculate_site results) as [[[]|e] r1]; cbn in K.
    + eapply results_kept_trans; [exact K|apply IH].
    + exact K.
Qed.

Lemma calculate_results_kept results :
  results_kept results (snd (calculate_results results)).
Proof.
  unfold calculate_results, catching, calculate_results_body, Eff.bind, Eff.get.
  pose proof (calculate_loop_kept (dict_keys results) results) as K.
  destruct (Eff.for_each _ _ results) as [[[]|e] r1]; cbn in *; [exact K|].
  destruct (is_Exception e); exact K.
Qed.

(** X17: [calculate_results] only adds the aggregate keys.  Whether it runs
    through or stops at a site, the dictionary afterwards has the same
    sites, an entry is [None] afterwards exactly when it was [None]
    before, and every site's dictionary has the seven measured entries it
    had. *)
Theorem calculate_results_keeps_the_measures results website :
  let results' := snd (calculate_results results) in
  (results' !! website = None <-> results !! website = None) /\
  (results' !! website = Some None <-> results !! website = Some None) /\
  (forall d', results' !! website = Some (Some d') ->
     exists d, results !! website = Some (Some d) /\
       sr_preload d' = sr_preload d /\
       sr_without_tag d' = sr_without_tag d /\
       sr_990 d' = sr_990 d /\
       sr_with_tag d' = sr_with_tag d /\
       sr_position d' = sr_position d /\
       sr_layer d' = sr_layer d /\
       sr_unit d' = sr_unit d).
Proof.
  intros results'. pose proof (calculate_results_kept results website) as K.
  fold results' in K.
  destruct (results !! website) as [[d|]|], (results' !! website) as [[d'|]|];
    cbn in K; try contradiction;
    (split; [split; congruence|]); (split; [split; congruence|]);
    try discriminate.
  intros ? [= <-]. exists d. split; [reflexivity|].
  destruct K as (K1 & K2 & K3 & K4 & K5 & K6 & K7). repeat split; congruence.
Qed.

(** A dictionary with an empty vector stops the twelve assignments. *)
Lemma calculate_site_needs_entries d :
  some_vector_empty d -> exists e, fst (calculate_site d) = Raise e.
Proof.
  intros H. unfold calculate_site. eff_unfold.
  repeat match goal with
  | |- context [match average ?l with _ => _ end] =>
      let E := fresh "E" in destruct (average l) eqn:E; cbn; [|eauto]
  | |- context [match py_max ?l with _ => _ end] =>
      let E := fresh "E" in destruct (py_max l) eqn:E; cbn; [|eauto]
  | |- context [match py_max_by ?k ?l with _ => _ end] =>
      let E := fresh "E" in destruct (py_max_by k l) eqn:E; cbn; [|eauto]
  end.
  all: try (eexists; reflexivity).
  exfalso.
  destruct H as [H|[H|[H|[H|[H|H]]]]]; rewrite H in *; discriminate.
Qed.

(** The loop stops at the latest at an entry it cannot go through. *)
Lemma calculate_loop_stops l website entry : forall results,
  website ∈ l ->
  results !! website = Some entry ->
  unmeasured entry ->
  exists e results',
    Eff.for_each l (fun website => on_site website calculate_site) results
      = (Raise e, results').
Proof.
  induction l as [|w l IH]; intros results I E U.
  - apply elem_of_nil in I. contradiction.
  - cbn [Eff.for_each]. unfold Eff.bind.
    destruct (decide (w = website)) as [->|N].
    + unfold on_site. rewrite E. destruct entry as [d|]; [|eauto].
      destruct (calculate_site_needs_entries d U) as [e He].
      destruct (calculate_site d) as [r d']. cbn in He. subst r. eauto.
    + destruct (on_site w calculate_site results) as [[[]|e] r1] eqn:O; [|eauto].
      apply IH; [|clear IH|exact U].
      * apply elem_of_cons in I as [->|I]; [contradiction|exact I].
      * unfold on_site in O.
        destruct (results !! w) as [[d|]|]; try discriminate.
        destruct (calculate_site d) as [r d']. injection O as _ <-.
        rewrite lookup_insert_ne by congruence. exact E.
Qed.

Lemma calculate_results_stops results website entry :
  results !! website = Some entry ->
  unmeasured entry ->
  exists results', calculate_results results = (Ok None, results').
Proof.
  intros E U. destruct (dict_keys_spec results) as [_ K].
  destruct (calculate_loop_stops (dict_keys results) website entry results)
    as (e & results' & L); [apply K; eauto|exact E|exact U|].
  destruct (calculate_results_never_raises results) as (r & results'' & R).
  unfold calculate_results, catching, calculate_results_body, Eff.bind, Eff.get in *.
  rewrite L in *. destruct (is_Exception e); [eauto|discriminate].
Qed.

(** X14: one site is enough to fail the aggregation of all.  When the
    dictionary holds a site whose [test_load_time] returned [None], or a
    site with an empty vector, [calculate_results] returns [None] instead
    of running through. *)
Theorem one_unmeasured_site_fails_the_aggregation results website entry :
  results !! website = Some entry ->
  unmeasured entry ->
  exists results',
    calculate_results results = (Ok None, results') /\
    results_kept results results'.
Proof.
  intros E U. destruct (calculate_results_stops results website entry E U)
    as (results' & R).
  exists results'. split; [exact R|].
  pose proof (calculate_results_kept results) as K. rewrite R in K. exact K.
Qed.

(** ** [store] *)

Section StoreProperties.
Variable configuration : option (gmap string site_config).
Variable results : gmap string (option site_result).

(** A site with its configuration and its vectors gets its seven rows. *)
Lemma store_site_writes website c d rows sent :
  configuration_getitem configuration website = Ok c ->
  results !! website = Some (Some d) ->
  store_site configuration results website
      {| csv_rows := Some rows; mailed := sent |} =
    (Ok tt, {| csv_rows := Some (rows ++ site_rows website c d)%list;
               mailed := sent |}).
Proof.
  intros Hc Hd. unfold store_site, writerow, results_getitem. eff_unfold.
  rewrite Hc, Hd. cbn. rewrite <- !app_assoc. reflexivity.
Qed.

(** Whatever the site, the body of the loop leaves an open document open,
    calls [send_mail] never, and raises inside [Exception] if at all. *)
Lemma store_site_outcome website rows sent :
  exists r rows',
    store_site configuration results website
        {| csv_rows := Some rows; mailed := sent |} =
      (r, {| csv_rows := Some rows'; mailed := sent |}) /\
    (forall e, r = Raise e -> is_Exception e = true) /\
    (results !! website = Some None -> exists e, r = Raise e).
Proof.
  unfold store_site, writerow, results_getitem, configuration_getitem. eff_unfold.
  destruct configuration as [cfg|]; [destruct (cfg !! website) as [c|]|]; cbn.
  2,3: do 2 eexists; split; [reflexivity|]; split; [intros e [= <-]|]; eauto.
  destruct (results !! website) as [[d|]|]; cbn;
    do 2 eexists; (split; [reflexivity|]); split;
    try (intros e [= <-]; reflexivity); try discriminate; eauto.
Qed.

Lemma store_loop_writes l : forall rows sent,
  (forall website, website ∈ l ->
     exists c d, configuration_getitem configuration website = Ok c /\
                 results !! website = Some (Some d)) ->
  exists written,
    Eff.for_each l (store_site configuration results)
        {| csv_rows := Some rows; mailed := sent |} =
      (Ok tt, {| csv_rows := Some (rows ++ written)%list; mailed := sent |}) /\
    length written = (7 * length l)%nat /\
    (forall row, row ∈ written ->
       exists website c d,
         configuration_getitem configuration website = Ok c /\
         results !! website = Some (Some d) /\
         row ∈ site_rows website c d) /\
    (forall website c d,
       website ∈ l ->
       configuration_getitem configuration website = Ok c ->
       results !! website = Some (Some d) ->
       exists before after,
         written = (before ++ site_rows website c d ++ after)%list).
Proof.
  induction l as [|w l IH]; intros rows sent H.
  - exists []. rewrite app_nil_r. repeat split; try reflexivity.
    + intros row I. apply elem_of_nil in I. contradiction.
    + intros ? ? ? I. apply elem_of_nil in I. contradiction.
  - destruct (H w) as (c & d & Hc & Hd); [left|].
    cbn [Eff.for_each]. unfold Eff.bind.
    rewrite (store_site_writes w c d rows sent Hc Hd).
    destruct (IH (rows ++ site_rows w c d)%list sent) as (written & E & L & R & B).
    { intros k Hk. apply H. right. exact Hk. }
    exists (site_rows w c d ++ written)%list. rewrite E, app_assoc.
    split; [reflexivity|]. split; [|split].
    + rewrite length_app, L. cbn. lia.
    + intros row I. apply elem_of_app in I as [I|I]; [|apply R, I].
      exists w, c, d. auto.
    + intros k ck dk I Hck Hdk. apply elem_of_cons in I as [->|I].
      * exists [], written. rewrite Hc in Hck. rewrite Hd in Hdk.
        injection Hck as <-. injection Hdk as <-. reflexivity.
      * destruct (B k ck dk I Hck Hdk) as (before & after & ->).
        exists (site_rows w c d ++ before)%list, after.
        rewrite <- app_assoc. reflexivity.
Qed.

Lemma store_loop_outcome l : forall rows sent,
  exists r rows',
    Eff.for_each l (store_site configuration results)
        {| csv_rows := Some rows; mailed := sent |} =
      (r, {| csv_rows := Some rows'; mailed := sent |}) /\
    (forall e, r = Raise e -> is_Exception e = true) /\
    (forall website, website ∈ l -> results !! website = Some None ->
       exists e, r = Raise e).
Proof.
  induction l as [|w l IH]; intros rows sent.
  - exists (Ok tt), rows. split; [reflexivity|]. split; [discriminate|].
    intros ? I. apply elem_of_nil in I. contradiction.
  - cbn [Eff.for_each]. unfold Eff.bind.
    destruct (store_site_outcome w rows sent) as (r & rows1 & -> & X & N).
    destruct r as [[]|e].
    + destruct (IH rows1 sent) as (r & rows2 & -> & X2 & N2).
      exists r, rows2. split; [reflexivity|]. split; [exact X2|].
      intros k I Hk. apply elem_of_cons in I as [->|I]; [|eauto].
      destruct (N Hk) as [e [=]].
    + exists (Raise e), rows1. split; [reflexivity|]. split; [exact X|]. eauto.
Qed.

(** With a name, a file that opens and every site configured and measured,
    [store] runs through. *)
Lemma store_runs_through w name s :
  create_name w = Some name ->
  open_output w = Ok tt ->
  (forall website entry,
     results !! website = Some entry ->
     exists c d, configuration_getitem configuration website = Ok c /\
                 entry = Some d) ->
  exists rows,
    store configuration w results s =
      (Ok (Some tt),
       {| csv_rows := Some rows; mailed := (mailed s ++ [name])%list |}) /\
    length rows = (7 * size results)%nat /\
    (forall row, row ∈ rows ->
       exists website c d,
         configuration_getitem configuration website = Ok c /\
         results !! website = Some (Some d) /\
         row ∈ site_rows website c d) /\
    (forall website c d,
       configuration_getitem configuration website = Ok c ->
       results !! website = Some (Some d) ->
       exists before after,
         rows = (before ++ site_rows website c d ++ after)%list).
Proof.
  intros Hn Ho H. destruct (dict_keys_spec results) as [_ K].
  destruct (store_loop_writes (dict_keys results) [] (mailed s))
    as (written & E & L & R & B).
  { intros k Hk. apply K in Hk as [entry Hk].
    destruct (H k entry Hk) as (c & d & Hc & ->). eauto. }
  exists written. split; [|split; [|split]].
  - unfold store, catching, store_body, open_for_writing, send_mail, catching.
    rewrite Hn, Ho. eff_unfold. cbn. rewrite E. reflexivity.
  - rewrite L. unfold dict_keys. rewrite length_fmap, length_map_to_list.
    reflexivity.
  - exact R.
  - intros k c d Hc Hd. apply B; [|exact Hc|exact Hd]. apply K. eauto.
Qed.

(** X18: with a name for the document, a file that opens, and every site
    of the results configured and measured, [store] empties the file,
    writes seven rows for each site, the rows of a site next to one
    another, and then calls [send_mail] once with the document. *)
Theorem store_writes_seven_rows_per_site w name s :
  create_name w = Some name ->
  open_output w = Ok tt ->
  (forall website entry,
     results !! website = Some entry ->
     exists c d, configuration_getitem configuration website = Ok c /\
                 entry = Some d) ->
  exists rows,
    store configuration w results s =
      (Ok (Some tt),
       {| csv_rows := Some rows; mailed := (mailed s ++ [name])%list |}) /\
    length rows = (7 * size results)%nat /\
    forall website c d,
      configuration_getitem configuration website = Ok c ->
      results !! website = Some (Some d) ->
      exists before after, rows = (before ++ site_rows website c d ++ after)%list.
Proof.
  intros Hn Ho H.
  destruct (store_runs_through w name s Hn Ho H) as (rows & E & L & _ & B).
  exists rows. auto.
Qed.

(** X19: a site whose [test_load_time] returned [None] stops the document.
    The file has been opened and is left with the rows written so far,
    [store] returns [None], and [send_mail] is not called. *)
Theorem store_sends_no_mail_after_a_failed_site w name website s :
  create_name w = Some name ->
  open_output w = Ok tt ->
  results !! website = Some None ->
  exists rows,
    store configuration w results s =
      (Ok None, {| csv_rows := Some rows; mailed := mailed s |}).
Proof.
  intros Hn Ho Hw. destruct (dict_keys_spec results) as [_ K].
  destruct (store_loop_outcome (dict_keys results) [] (mailed s))
    as (r & rows & E & X & N).
  destruct (N website) as [e ->]; [apply K; eauto|exact Hw|].
  exists rows.
  unfold store, catching, store_body, open_for_writing, send_mail, catching.
  rewrite Hn, Ho. eff_unfold. cbn. rewrite E. cbn.
  rewrite (X e eq_refl). reflexivity.
Qed.

(** Without a failed site or with one, [send_mail] is called at most once,
    and not at all after a site that failed. *)
Lemma store_mail w s :
  let s' := snd (store configuration w results s) in
  (mailed s' = mailed s \/ exists name, mailed s' = (mailed s ++ [name])%list) /\
  forall website, results !! website = Some None -> mailed s' = mailed s.
Proof.
  unfold store, catching, store_body, open_for_writing, send_mail, catching.
  destruct (dict_keys_spec results) as [_ K].
  destruct (create_name w) as [name|]; [|cbn; auto].
  eff_unfold. destruct (open_output w) as [[]|e]; cbn.
  2: { destruct (is_Exception e); cbn; auto. }
  destruct (store_loop_outcome (dict_keys results) [] (mailed s))
    as (r & rows & E & X & N).
  rewrite E. destruct r as [[]|e]; cbn.
  - split; [eauto|]. intros website Hw.
    destruct (N website) as [e [=]]; [apply K; eauto|exact Hw].
  - destruct (is_Exception e); cbn; auto.
Qed.
End StoreProperties.

(** ** [test_load_time] by what the site does *)

Section SiteOutcome.
Variable parse_qs : string -> gmap string (list string).

(** The dictionary of a configured site, from the two trials. *)
Lemma test_load_time_outcome cfg world website c calls :
  cfg !! website = Some c ->
  let n := Z.to_nat (scans_number c) in
  exists r calls',
    test_load_time parse_qs (Some cfg) world website calls = (Ok r, calls') /\
    match r with
    | Some d =>
        site_completes c world = true /\
        length (sr_preload d) = n /\ length (sr_without_tag d) = n /\
        length (sr_990 d) = n /\ length (sr_with_tag d) = n /\
        length (sr_layer d) = n /\ length (sr_unit d) = n /\
        sr_stats d = ∅ /\
        repetitions_started calls' = (repetitions_started calls + 2 * n)%nat
    | None => site_completes c world = false
    end.
Proof.
  intros Hc n. unfold test_load_time, catching, test_load_time_body, site_completes.
  eff_unfold. cbn [configuration_getitem]. rewrite Hc.
  destruct (with_tag_trial parse_qs cfg website c (sw_with_tag world) calls Hc)
    as (calls1 & -> & K1).
  pose proof (without_tag_trial cfg website c (sw_without_tag world) calls1 Hc) as N.
  cbv zeta in N. fold n in N.
  destruct (test_load_time_without_tag (Some cfg) (sw_without_tag world) website calls1)
    as [[[nt|]|e] calls2]; [| |contradiction].
  - destruct N as (C & V & _ & K2). fold n. rewrite C.
    destruct (ww_quit (sw_with_tag world)); cbn.
    2: { do 2 eexists. split; reflexivity. }
    do 2 eexists. split; [reflexivity|]. cbn.
    destruct (recorded_over_entries parse_qs website c
                (ww_repetition (sw_with_tag world)) (xrange (scans_number c)))
      as (P & W & N9 & L & U). cbv zeta in *.
    rewrite P, W, N9, L, U, V, length_map, length_seq.
    rewrite !flat_map_length_one
      by (intros; apply (recorded_lengths parse_qs website c)).
    unfold xrange in *. rewrite length_seq in *. fold n in K1 |- *.
    repeat split; try reflexivity. lia.
  - destruct N as (C & _). fold n. rewrite C, andb_false_r.
    destruct (ww_quit (sw_with_tag world)); cbn; do 2 eexists; split; reflexivity.
Qed.

(** X16: for a configured site [test_load_time] returns a dictionary
    exactly when both trials run to their end, and [None] in every other
    case; the dictionary has no aggregate yet, and the two trials have
    loaded the page twice for each repetition. *)
Theorem both_trials_must_complete cfg world website c calls :
  cfg !! website = Some c ->
  exists r calls',
    test_load_time parse_qs (Some cfg) world website calls = (Ok r, calls') /\
    (is_Some r <-> site_completes c world = true) /\
    forall d, r = Some d ->
      sr_stats d = ∅ /\
      repetitions_started calls' =
        (repetitions_started calls + 2 * Z.to_nat (scans_number c))%nat.
Proof.
  intros Hc.
  destruct (test_load_time_outcome cfg world website c calls Hc)
    as (r & calls' & E & Out).
  exists r, calls'. split; [exact E|]. cbv zeta in Out.
  destruct r as [d|]; split.
  - split; [intros _; apply Out|eauto].
  - intros ? [= <-]. split; apply Out.
  - rewrite Out. split; [intros [? [=]]|discriminate].
  - discriminate.
Qed.

(** X15: a site configured without repetitions (a stored number of scans
    of five or less) that runs to the end gets a dictionary of empty
    vectors, without a single page load; [calculate_results] then divides
    by zero and returns [None], whatever else the results hold. *)
Theorem site_without_repetitions_cannot_be_aggregated
    cfg world website c calls d calls' results :
  cfg !! website = Some c ->
  scans_number c <= 0 ->
  test_load_time parse_qs (Some cfg) world website calls = (Ok (Some d), calls') ->
  results !! website = Some (Some d) ->
  (sr_preload d = [] /\ sr_without_tag d = [] /\ sr_990 d = [] /\
   sr_with_tag d = [] /\ sr_layer d = [] /\ sr_unit d = []) /\
  repetitions_started calls' = repetitions_started calls /\
  average (sr_with_tag d) = Raise ZeroDivisionError /\
  exists results', calculate_results results = (Ok None, results').
Proof.
  intros Hc Hn E Hd.
  destruct (test_load_time_outcome cfg world website c calls Hc)
    as (r & k & E' & Out). rewrite E in E'. injection E' as <- <-.
  cbv zeta in Out. replace (Z.to_nat (scans_number c)) with 0%nat in Out by lia.
  destruct Out as (_ & L1 & L2 & L3 & L4 & L5 & L6 & _ & K).
  apply length_zero_iff_nil in L1, L2, L3, L4, L5, L6.
  repeat split; try assumption.
  - lia.
  - rewrite L4. reflexivity.
  - apply (calculate_results_stops results website (Some d) Hd).
    left. exact L4.
Qed.
End SiteOutcome.

(** ** [process] *)

(** What a decorated operation raises is outside [Exception]. *)
Lemma catching_raises {S A} (func : Eff.M S A) s e :
  fst (catching func s) = Raise e -> is_Exception e = false.
Proof.
  unfold catching. destruct (func s) as [[a|e'] s1]; cbn; [discriminate|].
  destruct (is_Exception e') eqn:X; cbn; [discriminate|].
  intros [= <-]. exact X.
Qed.

Section ProcessProperties.
Variable parse_qs : string -> gmap string (list string).
Variable cfg : gmap string site_config.
Variable sites : string -> site_world.

(** One pass through the first loop of [process]. *)
Lemma process_site_outcome website s :
  exists r calls,
    test_load_time parse_qs (Some cfg) (sites website) website (run_calls s)
      = (Ok r, calls) /\
    process_site parse_qs (Some cfg) sites website s =
      (Ok tt, {| run_calls := calls;
                 run_results := <[website := r]> (run_results s);
                 run_report := run_report s |}).
Proof.
  destruct (test_load_time_returns parse_qs (Some cfg) (sites website) website
              (run_calls s)) as (r & calls & E & _).
  exists r, calls. split; [exact E|].
  unfold process_site, on_calls. eff_unfold. rewrite E. reflexivity.
Qed.

(** The first loop of [process]: an entry for every site visited, each
    what [test_load_time] returned for it. *)
Lemma process_loop (P : string -> option site_result -> Prop) l :
  (forall website calls r calls',
     website ∈ l ->
     test_load_time parse_qs (Some cfg) (sites website) website calls
       = (Ok r, calls') ->
     P website r) ->
  forall s,
  exists calls results,
    Eff.for_each l (process_site parse_qs (Some cfg) sites) s =
      (Ok tt, {| run_calls := calls; run_results := results;
                 run_report := run_report s |}) /\
    forall website,
      if decide (website ∈ l)
      then exists r, results !! website = Some r /\ P website r
      else results !! website = run_results s !! website.
Proof.
  intros H. induction l as [|w l IH]; intros s.
  - exists (run_calls s), (run_results s). destruct s. split; [reflexivity|].
    intros website. destruct (decide (website ∈ [])) as [I|_]; [|reflexivity].
    apply elem_of_nil in I. contradiction.
  - cbn [Eff.for_each]. unfold Eff.bind.
    destruct (process_site_outcome w s) as (r & calls1 & E & ->).
    match goal with
    | |- context [Eff.for_each l _ ?S] =>
        destruct (IH (fun k ck rk ck' I =>
                        H k ck rk ck' (proj2 (elem_of_cons l k w) (or_intror I))) S)
          as (calls & results & -> & R)
    end.
    exists calls, results. split; [reflexivity|]. intros website.
    specialize (R website). cbn in R.
    destruct (decide (website ∈ l)) as [I|I].
    + destruct (decide (website ∈ w :: l)) as [_|N]; [exact R|].
      exfalso. apply N. right. exact I.
    + destruct (decide (website = w)) as [->|Nw].
      * destruct (decide (w ∈ w :: l)) as [_|N]; [|exfalso; apply N; left].
        rewrite lookup_insert_eq in R. exists r. split; [exact R|].
        eapply H; [left|exact E].
      * rewrite lookup_insert_ne in R by congruence.
        destruct (decide (website ∈ w :: l)) as [I'|_]; [|exact R].
        apply elem_of_cons in I' as [->|I']; contradiction.
Qed.

(** The run up to [store]: the dictionary handed to it. *)
Lemma process_results (P : string -> option site_result -> Prop) w s :
  (forall website c calls r calls',
     cfg !! website = Some c ->
     test_load_time parse_qs (Some cfg) (sites website) website calls
       = (Ok r, calls') ->
     P website r) ->
  exists calls results aggregated results',
    calculate_results results = (Ok aggregated, results') /\
    (forall website,
       match cfg !! website with
       | Some c => exists r, results !! website = Some r /\ P website r
       | None => results !! website = None
       end) /\
    process parse_qs (Some cfg) sites w s =
      match store (Some cfg) w results' (run_report s) with
      | (Ok _, rep) =>
          (Ok (Some tt), {| run_calls := calls; run_results := results';
                            run_report := rep |})
      | (Raise e, rep) =>
          (Raise e, {| run_calls := calls; run_results := results';
                       run_report := rep |})
      end.
Proof.
  intros H. destruct (dict_keys_spec cfg) as [_ K].
  destruct (process_loop P (dict_keys cfg)) with (s := set_run_results ∅ s)
    as (calls & results & L & R).
  { intros website calls r calls' I. apply K in I as [c Hc]. apply (H website c _ _ _ Hc). }
  destruct (calculate_results_never_raises results) as (aggregated & results' & C).
  exists calls, results, aggregated, results'. split; [exact C|]. split.
  - intros website. specialize (R website).
    destruct (decide (website ∈ dict_keys cfg)) as [I|I].
    + apply K in I as [c ->]. exact R.
    + destruct (cfg !! website) eqn:Hc; [exfalso; apply I, K; eauto|].
      rewrite R. reflexivity.
  - unfold process, catching, process_body, configured_websites.
    unfold Eff.bind at 1 2, Eff.modify at 1, Eff.lift.
    unfold Eff.bind at 1. cbn [set_run_results] in L. rewrite L.
    unfold Eff.bind at 1, on_results. cbn [run_results]. rewrite C.
    unfold Eff.bind at 1 2, Eff.get, on_report, Eff.ret.
    cbn [run_results run_report set_run_results run_calls].
    pose proof (catching_raises (store_body (Some cfg) w results') (run_report s)) as X.
    fold (store (Some cfg) w results') in X.
    destruct (store (Some cfg) w results' (run_report s)) as [[o|e] rep];
      [reflexivity|].
    cbn in X. rewrite (X e eq_refl). reflexivity.
Qed.
End ProcessProperties.

Section RunProperties.
Variable parse_qs : string -> gmap string (list string).
Variable cfg : gmap string site_config.
Variable sites : string -> site_world.

(** X20: one failed site silences the whole run.  When a configured site
    does not run to the end of both trials (a [quit] that raises, a page
    that cannot be classified, a navigation that fails otherwise than by
    timeout), its entry in the results is [None], and [process] ends
    without having called [send_mail], whatever the other sites did. *)
Theorem failed_site_suppresses_the_mail w s website c :
  cfg !! website = Some c ->
  site_completes c (sites website) = false ->
  exists r calls results rep,
    process parse_qs (Some cfg) sites w s =
      (r, {| run_calls := calls; run_results := results; run_report := rep |}) /\
    results !! website = Some None /\
    mailed rep = mailed (run_report s).
Proof.
  intros Hc F.
  destruct (process_results parse_qs cfg sites
              (fun k r => k = website -> r = None) w s)
    as (calls & results & aggregated & results' & C & R & ->).
  { intros k ck calls r calls' Hk E ->.
    destruct (test_load_time_outcome parse_qs cfg (sites website) website ck calls Hk)
      as (r' & k' & E' & O'). rewrite E in E'. injection E' as <- <-.
    destruct r as [d|]; [|reflexivity].
    destruct O' as (T & _). rewrite Hk in Hc. injection Hc as ->. congruence. }
  specialize (R website). rewrite Hc in R. destruct R as (r & Hr & Hn).
  specialize (Hn eq_refl). subst r.
  pose proof (calculate_results_kept results website) as K. rewrite C, Hr in K.
  cbn in K. destruct (results' !! website) as [[d'|]|] eqn:Hw; try contradiction.
  pose proof (store_mail (Some cfg) results' w (run_report s)) as (_ & M).
  specialize (M website Hw).
  destruct (store (Some cfg) w results' (run_report s)) as [[o|e] rep];
    do 4 eexists; (split; [reflexivity|]); split; auto.
Qed.

(** X21: a run in which every configured site has at least one repetition
    and runs to the end of both trials is aggregated and reported:
    [process] returns normally, every site has its dictionary with the
    aggregates, the document has seven rows for each site, every row that
    is not empty has one cell more than the site has repetitions, and
    [send_mail] is called once, with the document. *)
Theorem complete_run_is_reported w s name :
  (forall website c,
     cfg !! website = Some c ->
     0 < scans_number c /\ site_completes c (sites website) = true) ->
  create_name w = Some name ->
  open_output w = Ok tt ->
  exists calls results rows,
    process parse_qs (Some cfg) sites w s =
      (Ok (Some tt),
       {| run_calls := calls; run_results := results;
          run_report := {| csv_rows := Some rows;
                           mailed := (mailed (run_report s) ++ [name])%list |} |}) /\
    (forall website,
       is_Some (cfg !! website) ->
       exists d, results !! website = Some (Some d) /\ measured_site d /\
                 is_Some (sr_stats d !! "max_unit")) /\
    length rows = (7 * size cfg)%nat /\
    Forall (fun row =>
              row = [] \/
              exists website c,
                cfg !! website = Some c /\
                length row = S (Z.to_nat (scans_number c))) rows.
Proof.
  intros H Hn Ho.
  set (P := fun (k : string) (r : option site_result) =>
              exists c d, cfg !! k = Some c /\ r = Some d /\ measured_site d /\
                let n := Z.to_nat (scans_number c) in
                length (sr_preload d) = n /\ length (sr_without_tag d) = n /\
                length (sr_990 d) = n /\ length (sr_with_tag d) = n /\
                length (sr_layer d) = n).
  destruct (process_results parse_qs cfg sites P w s)
    as (calls & results & aggregated & results' & C & R & ->).
  { intros k c calls r calls' Hk E.
    destruct (test_load_time_outcome parse_qs cfg (sites k) k c calls Hk)
      as (r' & k' & E' & O'). rewrite E in E'. injection E' as <- <-.
    destruct (H k c Hk) as (Pos & T).
    destruct r as [d|]; [|congruence].
    exists c, d. split; [exact Hk|]. split; [reflexivity|]. split.
    - eapply test_load_time_measured; eassumption.
    - cbv zeta. tauto. }
  assert (all_measured results) as AM.
  { intros k entry Hk. specialize (R k). destruct (cfg !! k); [|congruence].
    destruct R as (r & Hr & c & d & _ & -> & M & _).
    rewrite Hk in Hr. injection Hr as ->. eauto. }
  destruct (calculate_results_measured results AM) as (results'' & C' & A).
  rewrite C in C'. injection C' as -> <-.
  assert (forall k entry, results' !! k = Some entry ->
            exists c d d', cfg !! k = Some c /\ results !! k = Some (Some d) /\
              entry = Some d' /\ d' = snd (calculate_site d) /\ P k (Some d)) as S'.
  { intros k entry Hk. specialize (R k).
    pose proof (calculate_results_kept results k) as K. rewrite C in K. cbn in K.
    rewrite Hk in K.
    destruct (cfg !! k) as [c|] eqn:Hc; [|rewrite R in K; contradiction].
    destruct R as (r & Hr & c' & d & Hc' & -> & M).
    rewrite Hc in Hc'. injection Hc' as <-.
    exists c, d, (snd (calculate_site d)).
    rewrite (A k d Hr) in Hk. injection Hk as <-.
    repeat split; auto. exists c, d. auto. }
  destruct (store_runs_through (Some cfg) results' w name (run_report s) Hn Ho)
    as (rows & -> & L & Rows & _).
  { intros k entry Hk. destruct (S' k entry Hk) as (c & d & d' & Hc & _ & -> & _).
    exists c, d'. cbn. rewrite Hc. auto. }
  exists calls, results', rows. split; [reflexivity|]. split; [|split].
  - intros k [c Hc]. specialize (R k). rewrite Hc in R.
    destruct R as (r & Hr & c' & d & _ & -> & M & _).
    exists (snd (calculate_site d)). split; [apply A, Hr|].
    destruct (calculate_site_measured d M)
      as (? & ? & ? & ? & ? & ? & ? & ? & ? & ? & ? & mu & _ & _ & _ & _ & _ & _
          & _ & _ & _ & _ & _ & _ & ->).
    split; [|eexists; cbn [snd sr_stats set_stat]; apply lookup_insert_eq].
    destruct M. constructor; assumption.
  - rewrite L. f_equal.
    rewrite <- (size_dom results'), <- (size_dom cfg). f_equal.
    apply set_eq. intros k. rewrite !elem_of_dom. split.
    + intros [entry Hk]. destruct (S' k entry Hk) as (c & _ & _ & Hc & _). eauto.
    + intros [c Hc]. specialize (R k). rewrite Hc in R.
      destruct R as (r & Hr & _ & d & _ & -> & _). rewrite (A k d Hr). eauto.
  - apply Forall_forall. intros row I.
    destruct (Rows row I) as (k & c & d' & Hc & Hd' & Ir).
    destruct (S' k (Some d') Hd') as (c' & d & d'' & Hc' & Hd & [= <-] & -> & Pk).
    cbn in Hc. rewrite Hc' in Hc. injection Hc as ->.
    destruct Pk as (c'' & d0 & Hc'' & [= <-] & _ & Ls). cbv zeta in Ls.
    rewrite Hc' in Hc''. injection Hc'' as <-.
    destruct Ls as (L1 & L2 & L3 & L4 & L5).
    pose proof (calculate_site_keeps_measures d) as (K1 & K2 & K3 & K4 & _ & K6 & _).
    unfold site_rows in Ir.
    repeat (apply elem_of_cons in Ir as [->|Ir]);
      [right; exists k, c; split; [exact Hc'|]; cbn [length]; rewrite length_map ..|left; reflexivity|].
    + unfold range. rewrite length_seqZ. f_equal. lia.
    + rewrite <- K2, L2. reflexivity.
    + rewrite <- K4, L4. reflexivity.
    + rewrite <- K1, L1. reflexivity.
    + rewrite <- K6, L5. reflexivity.
    + rewrite <- K3, L3. reflexivity.
    + apply elem_of_nil in Ir. contradiction.
Qed.
End RunProperties.

(** ** The further properties on sample inputs *)

Ltac by_evaluation :=
  vm_compute;
  first [ reflexivity | discriminate | exact I | lia
        | intros; discriminate | repeat constructor ].

(** X1 on the repetition in which every milestone is found. *)
Lemma found_milestones_are_recorded_as_measured_witness :
  let m := recorded Sample.parse_qs Sample.website Sample.site Sample.all_found in
  tm_preload m = [VFloat (3 - 1)] /\
  tm_with_tag m = [VFloat (4 - 0)] /\
  tm_990 m = [VFloat (4 - 1)] /\
  tm_layer m = [VFloat (4 - 3)].
Proof.
  apply (found_milestones_are_recorded_as_measured Sample.parse_qs
           Sample.website Sample.site Sample.all_found); by_evaluation.
Defined.

(** X2 on a repetition whose script element never appears. *)
Lemma missing_tag_skips_the_990_wait_witness :
  let r := run_repetition Sample.parse_qs Sample.website Sample.site
             Scenario.tag_missing in
  tm_preload (time_measures (snd r)) = [VInt 100] /\
  tm_with_tag (time_measures (snd r)) = [VInt 100] /\
  tm_990 (time_measures (snd r)) = [VInt 100] /\
  tm_layer (time_measures (snd r)) = [VInt 100] /\
  waits_for pixel_990_selector (driver_calls (snd r)) = O /\
  waits_for terminal_pixel_selector (driver_calls (snd r)) = 1%nat.
Proof.
  apply (missing_tag_skips_the_990_wait Sample.parse_qs Sample.website
           Sample.site Scenario.tag_missing DrvTimeout); by_evaluation.
Defined.

(** X4 on the repetition whose terminal pixel never appears. *)
Lemma failed_terminal_wait_records_none_zero_witness :
  tm_unit (recorded Sample.parse_qs Sample.website Sample.site
             Sample.terminal_times_out) = [(ONone, VInt 0)].
Proof.
  apply (failed_terminal_wait_records_none_zero Sample.parse_qs Sample.website
           Sample.site Sample.terminal_times_out DrvTimeout); by_evaluation.
Defined.

(** X5 on the repetition in which every milestone is found. *)
Lemma shown_unit_identifier_is_recorded_witness :
  tm_unit (recorded Sample.parse_qs Sample.website Sample.site Sample.all_found) =
    [(OStr "7", VFloat (9 - 1))].
Proof.
  apply (shown_unit_identifier_is_recorded Sample.parse_qs Sample.website
           Sample.site Sample.all_found "img-1" Sample.pixel_url_shown
           "985" [] "7"); by_evaluation.
Defined.

(** X6 on a terminal pixel that names two units. *)
Lemma uid_not_single_aborts_the_repetition_witness :
  recorded Scenario.parse_qs_with_two_units Sample.website Sample.site Scenario.two_units =
    sentinel_measures.
Proof.
  apply (uid_not_single_aborts_the_repetition Scenario.parse_qs_with_two_units Sample.website
           Sample.site Scenario.two_units "img-1" Scenario.pixel_url_two_units
           "985" [] ["7"; "8"]); by_evaluation.
Defined.

(** X7 on two trials that agree on their first repetition only. *)
Lemma repetitions_are_isolated_witness :
  exists tm tm' k k',
    test_load_time_with_tag Sample.parse_qs (Some Sample.configuration)
      Sample.with_tag Sample.website [] = (Ok (Some tm), k) /\
    test_load_time_with_tag Sample.parse_qs (Some Sample.configuration)
      Scenario.with_tag_capped_later Sample.website [] = (Ok (Some tm'), k') /\
    tm_preload tm !! O = tm_preload tm' !! O /\
    tm_with_tag tm !! O = tm_with_tag tm' !! O /\
    tm_990 tm !! O = tm_990 tm' !! O /\
    tm_layer tm !! O = tm_layer tm' !! O /\
    tm_unit tm !! O = tm_unit tm' !! O /\
    tm_unit tm !! O =
      tm_unit (recorded Sample.parse_qs Sample.website Sample.site
                 (ww_repetition Sample.with_tag O)) !! O.
Proof.
  apply (repetitions_are_isolated Sample.parse_qs Sample.configuration
           Sample.website Sample.site Sample.with_tag
           Scenario.with_tag_capped_later [] [] O); by_evaluation.
Defined.

(** X8 on the sample no-tag trial. *)
Lemma no_tag_trial_returns_iff_it_completes_witness :
  (notag_completes Sample.without_tag (Z.to_nat (scans_number Sample.site)) = true <->
   exists tm calls',
     test_load_time_without_tag (Some Sample.configuration) Sample.without_tag
       Sample.website [] = (Ok (Some tm), calls')) /\
  (notag_completes Sample.without_tag (Z.to_nat (scans_number Sample.site)) = false <->
   exists calls',
     test_load_time_without_tag (Some Sample.configuration) Sample.without_tag
       Sample.website [] = (Ok None, calls')).
Proof.
  apply (no_tag_trial_returns_iff_it_completes Sample.configuration
           Sample.website Sample.site Sample.without_tag []); by_evaluation.
Defined.

(** X9 on the sample page: the script is child 3 of 4, and 30 is not below
    28. *)
Lemma position_of_a_direct_child_witness :
  fst (classify_position Sample.page (notag_entry_frame [])) = Ok tt /\
  tm_position
    (nt_time_measures (snd (classify_position Sample.page (notag_entry_frame []))))
  = if 10 * Z.of_nat 3 <? 7 * Z.of_nat (tag_len Scenario.body)
    then PosPair false "Tag is located in <head>"
    else PosBool true.
Proof.
  apply (position_of_a_direct_child Sample.page Scenario.head Scenario.body 3
           (notag_entry_frame [])); by_evaluation.
Defined.

(** X10 on the page whose script lies inside a [div] of the body. *)
Lemma position_of_a_nested_script_witness :
  fst (classify_position Sample.page_with_nested_script (notag_entry_frame []))
    = Ok tt /\
  tm_position
    (nt_time_measures
       (snd (classify_position Sample.page_with_nested_script
               (notag_entry_frame []))))
  = PosPair false "Tag is located in one of <body></body> children.".
Proof.
  apply (position_of_a_nested_script Sample.page_with_nested_script
           (Tag "head" ∅ []) "body" ∅ [Sample.paragraph "a"]
           (Tag "div" ∅ [Sample.preload_script]) [] [O]
           (notag_entry_frame [])); by_evaluation.
Defined.

(** X11 on the address of the sample script. *)
Lemma body_pattern_implies_head_pattern_witness :
  re_search re_preload "http://cdn.example/preload.js" = true.
Proof.
  apply (body_pattern_implies_head_pattern "http://cdn.example/preload.js");
    by_evaluation.
Defined.

(** X12 on two rows for the same page: the second gives the entry. *)
Lemma get_configurations_last_row_wins_witness :
  get_configurations Scenario.rows_with_update !! Sample.website =
    Some Sample.site.
Proof.
  apply (proj2 (get_configurations_last_row_wins Scenario.rows_with_update)
           [{| website_page := Sample.website; website_tag := "old()";
               row_scans_number := 6; row_geo := "us"; is_layer := false |}]
           {| website_page := Sample.website; website_tag := "inject()";
              row_scans_number := 7; row_geo := "us"; is_layer := true |}
           []); by_evaluation.
Defined.

(** X14 on results in which one site has failed. *)
Lemma one_unmeasured_site_fails_the_aggregation_witness :
  exists results',
    calculate_results Scenario.results_with_failed_site = (Ok None, results') /\
    results_kept Scenario.results_with_failed_site results'.
Proof.
  apply (one_unmeasured_site_fails_the_aggregation
           Scenario.results_with_failed_site Scenario.other_website None);
    by_evaluation.
Defined.

(** X15 on a site stored with five scans. *)
Lemma site_without_repetitions_cannot_be_aggregated_witness :
  (sr_preload Scenario.idle_dict = [] /\ sr_without_tag Scenario.idle_dict = [] /\
   sr_990 Scenario.idle_dict = [] /\ sr_with_tag Scenario.idle_dict = [] /\
   sr_layer Scenario.idle_dict = [] /\ sr_unit Scenario.idle_dict = []) /\
  repetitions_started
    [CallQuit; CallPageSource; CallPrepare false; CallQuit; CallPrepare true]
    = repetitions_started [] /\
  average (sr_with_tag Scenario.idle_dict) = Raise ZeroDivisionError /\
  exists results', calculate_results Scenario.idle_results = (Ok None, results').
Proof.
  apply (site_without_repetitions_cannot_be_aggregated Sample.parse_qs
           Scenario.idle_configuration Scenario.sound_site Sample.website
           Scenario.idle_site [] Scenario.idle_dict
           [CallQuit; CallPageSource; CallPrepare false; CallQuit; CallPrepare true]
           Scenario.idle_results); by_evaluation.
Defined.

(** X16 on the sample site. *)
Lemma both_trials_must_complete_witness :
  exists r calls',
    test_load_time Sample.parse_qs (Some Sample.configuration)
      Scenario.sound_site Sample.website [] = (Ok r, calls') /\
    (is_Some r <-> site_completes Sample.site Scenario.sound_site = true) /\
    forall d, r = Some d ->
      sr_stats d = ∅ /\
      repetitions_started calls' =
        (repetitions_started [] + 2 * Z.to_nat (scans_number Sample.site))%nat.
Proof.
  apply (both_trials_must_complete Sample.parse_qs Sample.configuration
           Scenario.sound_site Sample.website Sample.site []); by_evaluation.
Defined.

Lemma sample_results_configured website entry :
  Sample.results !! website = Some entry ->
  exists c d,
    configuration_getitem (Some Sample.configuration) website = Ok c /\
    entry = Some d.
Proof.
  intros H. unfold Sample.results in H.
  apply lookup_singleton_Some in H as [<- <-].
  exists Sample.site. eexists. split; reflexivity.
Defined.

(** X18 on the sample results. *)
Lemma store_writes_seven_rows_per_site_witness :
  exists rows,
    store (Some Sample.configuration) Scenario.files Sample.results
        Scenario.nothing_reported =
      (Ok (Some tt),
       {| csv_rows := Some rows;
          mailed := (mailed Scenario.nothing_reported ++ ["results.csv"])%list |}) /\
    length rows = (7 * size Sample.results)%nat /\
    forall website c d,
      configuration_getitem (Some Sample.configuration) website = Ok c ->
      Sample.results !! website = Some (Some d) ->
      exists before after, rows = (before ++ site_rows website c d ++ after)%list.
Proof.
  apply (store_writes_seven_rows_per_site (Some Sample.configuration)
           Sample.results Scenario.files "results.csv" Scenario.nothing_reported);
    [reflexivity|reflexivity|exact sample_results_configured].
Defined.

(** X19 on results in which one site has failed. *)
Lemma store_sends_no_mail_after_a_failed_site_witness :
  exists rows,
    store (Some Sample.configuration) Scenario.files
        Scenario.results_with_failed_site Scenario.nothing_reported =
      (Ok None, {| csv_rows := Some rows;
                   mailed := mailed Scenario.nothing_reported |}).
Proof.
  apply (store_sends_no_mail_after_a_failed_site (Some Sample.configuration)
           Scenario.results_with_failed_site Scenario.files "results.csv"
           Scenario.other_website Scenario.nothing_reported); by_evaluation.
Defined.

(** X20 on a run whose only site has a [quit] that raises. *)
Lemma failed_site_suppresses_the_mail_witness :
  exists r calls results rep,
    process Sample.parse_qs (Some Sample.configuration)
        (fun _ => Scenario.failing_site) Scenario.files Scenario.start =
      (r, {| run_calls := calls; run_results := results; run_report := rep |}) /\
    results !! Sample.website = Some None /\
    mailed rep = mailed (run_report Scenario.start).
Proof.
  apply (failed_site_suppresses_the_mail Sample.parse_qs Sample.configuration
           (fun _ => Scenario.failing_site) Scenario.files Scenario.start
           Sample.website Sample.site); by_evaluation.
Defined.

Lemma sample_sites_complete website c :
  Sample.configuration !! website = Some c ->
  0 < scans_number c /\ site_completes c Scenario.sound_site = true.
Proof.
  intros H. unfold Sample.configuration in H.
  apply lookup_singleton_Some in H as [_ <-]. split; reflexivity.
Defined.

(** X21 on a run over the sample site. *)
Lemma complete_run_is_reported_witness :
  exists calls results rows,
    process Sample.parse_qs (Some Sample.configuration)
        (fun _ => Scenario.sound_site) Scenario.files Scenario.start =
      (Ok (Some tt),
       {| run_calls := calls; run_results := results;
          run_report :=
            {| csv_rows := Some rows;
               mailed := (mailed (run_report Scenario.start)
                          ++ ["results.csv"])%list |} |}) /\
    (forall website,
       is_Some (Sample.configuration !! website) ->
       exists d, results !! website = Some (Some d) /\ measured_site d /\
                 is_Some (sr_stats d !! "max_unit")) /\
    length rows = (7 * size Sample.configuration)%nat /\
    Forall (fun row =>
              row = [] \/
              exists website c,
                Sample.configuration !! website = Some c /\
                length row = S (Z.to_nat (scans_number c))) rows.
Proof.
  apply (complete_run_is_reported Sample.parse_qs Sample.configuration
           (fun _ => Scenario.sound_site) Scenario.files Scenario.start
           "results.csv");
    [exact sample_sites_complete|reflexivity|reflexivity].
Defined.
